(** * ea_webstore: the authentication-and-purchase scheduling engine

    A shallow embedding of [core/config.py], [webstore/lotr/connector.py],
    [webstore/connector.py], [webstore/swgoh/connector.py], [cli.py] and the
    message headers of [gmail/types.py], followed by the properties of the
    engine that the specification states about them and by further
    properties of the code: what each call sends, queues and leaves alone.

    Conventions of the embedding:
    - a Python call that may raise returns a [Py.result];
    - a method of a connector is a state transformer over the connector
      instance ([Py.M]); an exception leaves the state as it was when raised;
    - everything outside the process (store server, mailbox, operator console,
      file contents, configuration file) is a scripted environment;
    - wall-clock time and durations are rationals (seconds). *)

From Stdlib Require Import String Ascii List ZArith QArith Qround Bool Arith Lia
  Sorted.
Import ListNotations.
Local Open Scope string_scope.
Local Open Scope Z_scope.

(** ** Python values, exceptions and the state/exception monad *)

Module Py.

Inductive exn : Type :=
| AttributeError
| IndexError
| KeyError
| TypeError
| ValueError
| NotImplementedError
| EOFError
| UnpicklingError
| FileNotFoundError
| ParsingError
| JSONDecodeError
| RequestConnectionError
| RequestTimeout
| RecursionError
| SchedulingConflictError
| SystemExit (code : Z)
| Exception (msg : string)
| OSError
| OverflowError.

Inductive result (A : Type) : Type :=
| Returned (a : A)
| Raised (e : exn).
Arguments Returned {A} a.
Arguments Raised {A} e.

Definition rbind {A B} (r : result A) (k : A -> result B) : result B :=
  match r with
  | Returned a => k a
  | Raised e => Raised e
  end.

Definition returns {A} (r : result A) : bool :=
  match r with Returned _ => true | Raised _ => false end.

(** A method body over an instance of type [S]. *)
Definition M (S A : Type) : Type := S -> result A * S.

Definition ret {S A} (a : A) : M S A := fun s => (Returned a, s).
Definition raise {S A} (e : exn) : M S A := fun s => (Raised e, s).
Definition bind {S A B} (m : M S A) (k : A -> M S B) : M S B :=
  fun s =>
    match m s with
    | (Returned a, s') => k a s'
    | (Raised e, s') => (Raised e, s')
    end.
Definition get {S} : M S S := fun s => (Returned s, s).
Definition gets {S A} (f : S -> A) : M S A := fun s => (Returned (f s), s).
Definition modify {S} (f : S -> S) : M S unit := fun s => (Returned tt, f s).
Definition lift {S A} (r : result A) : M S A := fun s => (r, s).

(** [a and b] on two expressions that may raise: [b] is evaluated only
    when [a] is true. *)
Definition and_ {S} (a b : M S bool) : M S bool :=
  bind a (fun x => if x then b else ret false).

(** Truthiness of [str | None]. *)
Definition truthy (o : option string) : bool :=
  match o with
  | None => false
  | Some s => negb (String.eqb s "")
  end.

End Py.

Declare Scope py_scope.
Delimit Scope py_scope with py.
Notation "x <- c ;; k" := (Py.bind c (fun x => k))
  (at level 61, c at next level, right associativity) : py_scope.
Notation "c ;;; k" := (Py.bind c (fun _ => k))
  (at level 61, right associativity) : py_scope.

(** ** core/config.py *)

Module Config.
Import Py.

(** One option of the ini file as [configparser] sees it: absent (section or
    option missing, the [fallback] applies), present with a text that the
    converter rejects ([ValueError]), or present and converted. *)
Inductive setting (A : Type) : Type :=
| Missing
| Malformed
| Value (a : A).
Arguments Missing {A}.
Arguments Malformed {A}.
Arguments Value {A} a.

(** The options of the parsed file that the engine reads. *)
Record ConfigParser : Type := {
  General_script_is_self_scheduling : setting bool;
  General_allow_scheduling : setting bool;
  General_max_delay_scheduling_time : setting Z;
  General_login_sleep_time : setting Q;
  General_max_verification_attempts : setting Z
}.

(** [ConfigParser.getboolean/getint/getfloat(section, option, fallback=..)]. *)
Definition get_conv {A} (s : setting A) (fallback : A) : result A :=
  match s with
  | Missing => Returned fallback
  | Malformed => Raised ValueError
  | Value a => Returned a
  end.

Record Config : Type := {
  config : ConfigParser;
  file_path : string
}.

Definition is_self_scheduling (self : Config) : result bool :=
  get_conv (General_script_is_self_scheduling (config self)) false.

Definition allow_scheduling (self : Config) : result bool :=
  get_conv (General_allow_scheduling (config self)) false.

Definition max_delay_scheduling_time (self : Config) : result Z :=
  get_conv (General_max_delay_scheduling_time (config self)) 0.

Definition login_sleep_time (self : Config) : result Q :=
  get_conv (General_login_sleep_time (config self)) (2 # 10)%Q.

Definition max_login_attempts (self : Config) : result Z :=
  get_conv (General_max_verification_attempts (config self)) 10.

(** The names that the class [Config] and its instances define: the class
    attribute, the instance attributes, the properties and the methods.  The
    class has no [__getattr__]. *)
Definition attributes : list string :=
  ["_instance"; "config"; "file_path"; "fallback_base_path";
   "is_self_scheduling"; "allow_scheduling"; "max_delay_scheduling_time";
   "login_sleep_time"; "max_login_attempts"; "gmail_credentials_location";
   "gmail_token_location"; "webstore_sessions_location";
   "_Config__get_log_level_for_logger"; "default_log_level";
   "gmail_log_level"; "lotr_webstore_log_level"; "valiate"; "load_config";
   "load_global_config"; "get_global_config"].

(** The lookup [self.<name>] of a logging level, which only sets the
    threshold of a logger: the lookup of a name that is not defined raises
    [AttributeError]. *)
Definition log_level (name : string) (self : Config) : result unit :=
  if existsb (String.eqb name) attributes then Returned tt
  else Raised AttributeError.

(** [if self.is_self_scheduling and self.allow_scheduling: raise ...] *)
Definition valiate (self : Config) : result unit :=
  rbind (is_self_scheduling self) (fun a =>
  rbind (if a then allow_scheduling self else Returned false) (fun both =>
  if both then Raised SchedulingConflictError else Returned tt)).

(** What a caller may pass as [file_path]. *)
Inductive arg : Type :=
| ArgConfig (c : Config)
| ArgStr (path : string)
| ArgOther.

(** The configuration files on disk: [ConfigParser.read] of a path gives the
    parsed options (all [Missing] for a file that does not exist) or raises
    on a file it cannot parse. *)
Definition files : Type := string -> result ConfigParser.

Definition init (fs : files) (config_file : string) : result Config :=
  rbind (fs config_file) (fun cp =>
  Returned {| config := cp; file_path := config_file |}).

Definition load_config (fs : files) (file_path : arg) : result (option Config) :=
  match file_path with
  | ArgConfig c => Returned (Some c)
  | ArgOther => Returned None
  | ArgStr path =>
      rbind (init fs path) (fun instance =>
      rbind (valiate instance) (fun _ =>
      Returned (Some instance)))
  end.

(** [load_global_config] stores the result in the class attribute
    [_instance]; the attribute is the state here. *)
Definition load_global_config (fs : files) (file_path : arg)
  : M (option Config) unit :=
  fun _instance =>
    match load_config fs file_path with
    | Returned c => (Returned tt, c)
    | Raised e => (Raised e, _instance)
    end.

Definition get_global_config : M (option Config) (option Config) := get.

End Config.

(** ** Strings: [in] on [str] and the verification-mail pattern *)

Module Str.

(** [sub in s] for two [str]. *)
Fixpoint contains (sub s : string) : bool :=
  String.prefix sub s
  || match s with
     | EmptyString => false
     | String _ s' => contains sub s'
     end.

Definition is_digit (c : ascii) : bool :=
  ((48 <=? nat_of_ascii c) && (nat_of_ascii c <=? 57))%nat.

Fixpoint strip_prefix (p s : string) : option string :=
  match p, s with
  | EmptyString, _ => Some s
  | String a p', String b s' =>
      if Ascii.eqb a b then strip_prefix p' s' else None
  | String _ _, EmptyString => None
  end.

(** The rest of [s] after its longest prefix of non-digits. *)
Fixpoint skip_non_digits (s : string) : string :=
  match s with
  | EmptyString => EmptyString
  | String c s' => if is_digit c then s else skip_non_digits s'
  end.

(** The longest prefix of digits of [s], and what follows it. *)
Fixpoint span_digits (s : string) : string * string :=
  match s with
  | EmptyString => (EmptyString, EmptyString)
  | String c s' =>
      if is_digit c
      then let (d, r) := span_digits s' in (String c d, r)
      else (EmptyString, s)
  end.

Definition newline : string := String (ascii_of_nat 10) EmptyString.

(** [s] between two double quotes. *)
Definition quoted (s : string) : string :=
  String (ascii_of_nat 34) (s ++ String (ascii_of_nat 34) EmptyString).

(** [re.compile("^Verification Code For EA[^0-9]*([0-9]+)$").match(subject)],
    giving group 1 of the match.  The two character classes are disjoint, so
    the only candidate match takes every non-digit, then every digit; [$]
    accepts the end of the string or a final line feed. *)
Definition EA_SUBJECT_PATTERN_match (subject : string) : option string :=
  match strip_prefix "Verification Code For EA" subject with
  | None => None
  | Some rest =>
      let (digits, tail) := span_digits (skip_non_digits rest) in
      if String.eqb digits "" then None
      else if String.eqb tail "" || String.eqb tail newline then Some digits
      else None
  end.

End Str.

(** ** logging *)

Module Logging.

Inductive level : Type := DEBUG | INFO | WARNING | ERROR | CRITICAL.

Inductive value : Type :=
| VStr (s : string)
| VInt (z : Z)
| VSeconds (q : Q).

(** One call of a logger method: the format string and its arguments. *)
Record record : Type := {
  levelname : level;
  msg : string;
  args : list value
}.

End Logging.

(** ** sched.scheduler *)

Module Sched.

(** The bound methods that the connectors hand to the scheduler. *)
Inductive Action : Type :=
| Act_schedule_ping
| Act_schedule_connection_check
| Act_purchase_offer
| Act_run.

Definition Action_eqb (a b : Action) : bool :=
  match a, b with
  | Act_schedule_ping, Act_schedule_ping
  | Act_schedule_connection_check, Act_schedule_connection_check
  | Act_purchase_offer, Act_purchase_offer
  | Act_run, Act_run => true
  | _, _ => false
  end.

(** A [dict] with [str] keys and values, in insertion order. *)
Definition dict : Type := list (string * string).

(** [key in d]: membership in the keys of the dict. *)
Definition dict_contains (key : string) (d : dict) : bool :=
  existsb (fun kv => String.eqb key (fst kv)) d.

(** [sched.Event]; [argument] is always the empty tuple here. *)
Record Event : Type := {
  time : Q;
  priority : Z;
  sequence : nat;
  action : Action;
  kwargs : dict
}.

(** The scheduler: the pending events (in the order they were entered; the
    heap layout is not observable through [queue] and [empty]) and the
    counter behind [_sequence_generator]. *)
Record scheduler : Type := {
  _queue : list Event;
  _sequence_generator : nat
}.

Definition new : scheduler := {| _queue := []; _sequence_generator := 0 |}.

Definition enterabs (time : Q) (priority : Z) (action : Action)
    (kwargs : dict) (self : scheduler) : scheduler :=
  {| _queue := _queue self ++
               [ {| time := time; priority := priority;
                    sequence := _sequence_generator self;
                    action := action; kwargs := kwargs |} ];
     _sequence_generator := S (_sequence_generator self) |}.

(** [enter(delay, ..)] is [enterabs(timefunc() + delay, ..)]. *)
Definition enter (timefunc : Q) (delay : Q) (priority : Z) (action : Action)
    (kwargs : dict) (self : scheduler) : scheduler :=
  enterabs (timefunc + delay) priority action kwargs self.

(** Events compare as the tuples [(time, priority, sequence)]. *)
Definition Event_lt (a b : Event) : bool :=
  if Qeq_bool (time a) (time b)
  then if Z.eqb (priority a) (priority b)
       then Nat.ltb (sequence a) (sequence b)
       else Z.ltb (priority a) (priority b)
  else negb (Qle_bool (time b) (time a)).

Fixpoint insert (e : Event) (l : list Event) : list Event :=
  match l with
  | [] => [e]
  | x :: l' => if Event_lt e x then e :: l else x :: insert e l'
  end.

(** The [queue] property: the pending events in the order they will run. *)
Definition queue (self : scheduler) : list Event :=
  fold_right insert [] (_queue self).

Definition empty (self : scheduler) : bool :=
  match _queue self with [] => true | _ => false end.

(** [heapq.heappop] of the event [e] that [queue] shows first. *)
Definition pop (e : Event) (self : scheduler) : scheduler :=
  {| _queue := filter (fun x => negb (Nat.eqb (sequence x) (sequence e)))
                      (_queue self);
     _sequence_generator := _sequence_generator self |}.

(** [d[key]] *)
Fixpoint dict_get (key : string) (d : dict) : option string :=
  match d with
  | [] => None
  | (k, v) :: d' => if String.eqb key k then Some v else dict_get key d'
  end.

End Sched.

(** ** gmail/types.py and the two operations of gmail/connector.py that the
       connectors use *)

Module Gmail.

(** [GmailMessageWrapper], through its two properties that are read. *)
Record GmailMessageWrapper : Type := {
  receiver : option string;
  subject : option string
}.

(** [GmailMessageListResponse.messages], by the [id] of each entry,
    in the order of the listing. *)
Definition GmailMessageListResponse : Type := list string.

(** The mailbox.  [get_messages n] is what the [n]-th call of
    [GmailConnector.get_messages] returns: [None] stands for the bare [[]]
    returned on [HttpError].  [get_message_details] returns [None] on
    [HttpError]. *)
Record Mailbox : Type := {
  get_messages : nat -> option GmailMessageListResponse;
  get_message_details : string -> option GmailMessageWrapper
}.

End Gmail.

(** ** requests.Session *)

Module Requests.

(** The state of a [requests.Session] that survives between requests: its
    cookie jar. *)
Definition Session : Type := list (string * string).

Fixpoint set_cookie (kv : string * string) (jar : Session) : Session :=
  match jar with
  | [] => [kv]
  | x :: jar' =>
      if String.eqb (fst x) (fst kv) then kv :: jar' else x :: set_cookie kv jar'
  end.

Definition update (jar : Session) (cookies : list (string * string)) : Session :=
  fold_left (fun j kv => set_cookie kv j) cookies jar.

Inductive method : Type := GET | POST.

(** A request as it leaves the process. *)
Record Request : Type := {
  meth : method;
  url : string;
  headers : list (string * string);
  body : list (string * string)
}.

End Requests.

(** ** webstore/lotr/types.py and webstore/lotr/connector.py *)

Module LotR.
Import Py.
Local Open Scope py_scope.

(** *** Data wrappers (the attributes that the connector reads) *)

Record OfferPrice : Type := {
  purchase_currency : string;
  purchase_amount : Q
}.

Record Offer : Type := {
  id : string;
  price : OfferPrice;
  is_free_offer : bool;
  purchase_cooldown_left : Z
}.

Record Item : Type := { title : string }.

Record WebStoreOffer : Type := {
  offer : Offer;
  item : Item
}.

Record StoreData : Type := { web_store_offers : list WebStoreOffer }.

(** An entry of ["itemsGranted"]: [name], and [min] and [max] of its
    [quantity], each as it prints, when present. *)
Record GrantedItem : Type := {
  name : option string;
  quantity_min : option string;
  quantity_max : option string
}.

(** The [dict] returned by the purchase endpoint; [None] when it has no
    ["itemsGranted"] key. *)
Record PurchaseResult : Type := { itemsGranted : option (list GrantedItem) }.

(** *** The outside world *)

(** A response of the store server.  [as_StoreData] is the value of
    [StoreData(data=response.json())] and [json] the value of
    [response.json()] on the purchase endpoint, or what they raise. *)
Record Response : Type := {
  status_code : Z;
  text : string;
  cookies : list (string * string);
  as_StoreData : result StoreData;
  json : result PurchaseResult
}.

Record Env : Type := {
  (** the reply to the [n]-th request sent through the session, or the
      transport exception that [requests] raises for it *)
  http : nat -> result Response;
  uuid4 : nat -> string;
  mailbox : Gmail.Mailbox;
  (** what [time.sleep] raises, at a reading of the clock, for a length that
      the platform cannot hold: the length and the deadline are 64-bit
      counts of nanoseconds ([OverflowError], [OSError] beyond some 292
      years) *)
  clock_range : Q -> Q -> result unit;
  pickle_load : string -> result Requests.Session;
  pickle_dump : Requests.Session -> string
}.

(** *** The connector instance, with what it has done to the world *)

Record Connector : Type := {
  config : Config.Config;
  email : string;
  session : Requests.Session;
  scheduler : Sched.scheduler;
  (** [time.time()] *)
  time : Q;
  (** the content of [session_filename], [None] when there is no file *)
  session_file : option string;
  (** logger calls, oldest first *)
  log : list Logging.record;
  (** requests sent through the session, oldest first *)
  requests : list Requests.Request;
  (** number of [GmailConnector.get_messages] calls made *)
  listings : nat
}.

Definition set_session (v : Requests.Session) (c : Connector) : Connector :=
  {| config := config c; email := email c; session := v;
     scheduler := scheduler c; time := time c;
     session_file := session_file c; log := log c;
     requests := requests c; listings := listings c |}.

Definition set_scheduler (v : Sched.scheduler) (c : Connector) : Connector :=
  {| config := config c; email := email c; session := session c;
     scheduler := v; time := time c;
     session_file := session_file c; log := log c;
     requests := requests c; listings := listings c |}.

Definition set_time (v : Q) (c : Connector) : Connector :=
  {| config := config c; email := email c; session := session c;
     scheduler := scheduler c; time := v;
     session_file := session_file c; log := log c;
     requests := requests c; listings := listings c |}.

Definition set_session_file (v : option string) (c : Connector) : Connector :=
  {| config := config c; email := email c; session := session c;
     scheduler := scheduler c; time := time c;
     session_file := v; log := log c;
     requests := requests c; listings := listings c |}.

Definition set_log (v : list Logging.record) (c : Connector) : Connector :=
  {| config := config c; email := email c; session := session c;
     scheduler := scheduler c; time := time c;
     session_file := session_file c; log := v;
     requests := requests c; listings := listings c |}.

Definition set_requests (v : list Requests.Request) (c : Connector) : Connector :=
  {| config := config c; email := email c; session := session c;
     scheduler := scheduler c; time := time c;
     session_file := session_file c; log := log c;
     requests := v; listings := listings c |}.

Definition set_listings (v : nat) (c : Connector) : Connector :=
  {| config := config c; email := email c; session := session c;
     scheduler := scheduler c; time := time c;
     session_file := session_file c; log := log c;
     requests := requests c; listings := v |}.

Definition BASE_URL : string := "https://store.lotr-home.ea.com".
Definition default_headers : list (string * string) := [("Accept-Language", "DE")].

Section Methods.
Variable env : Env.

Local Abbreviation M := (Py.M Connector).

Definition logger (l : Logging.level) (fmt : string)
    (a : list Logging.value) : M unit :=
  modify (fun c =>
    set_log (log c ++ [ {| Logging.levelname := l; Logging.msg := fmt;
                           Logging.args := a |} ]) c).

(** [time.sleep(secs)]: a length that the platform cannot hold raises what
    [clock_range] gives, a negative length raises [ValueError]; otherwise
    the clock moves on by [secs]. *)
Definition sleep (secs : Q) : M unit :=
  now <- gets time ;;
  lift (clock_range env now secs) ;;;
  if Qle_bool 0 secs
  then modify (fun c => set_time (time c + secs)%Q c)
  else raise ValueError.

(** Reading a property of [self.config]. *)
Definition cfg {A} (property : Config.Config -> result A) : M A :=
  fun c => (property (config c), c).

(** [self.session.get/post]: the request leaves, the reply (if any)
    updates the cookie jar. *)
Definition send (r : Requests.Request) : M Response :=
  fun c =>
    let c' := set_requests (requests c ++ [r]) c in
    match http env (length (requests c)) with
    | Raised e => (Raised e, c')
    | Returned response =>
        (Returned response,
         set_session (Requests.update (session c') (cookies response)) c')
    end.

Definition load_session : M unit :=
  file <- gets session_file ;;
  match file with
  | None => raise FileNotFoundError
  | Some content =>
      s <- lift (pickle_load env content) ;;
      modify (set_session s) ;;;
      logger Logging.INFO "Successfully loaded session from file '%s'" []
  end.

Definition save_session : M unit :=
  modify (fun c => set_session_file (Some (pickle_dump env (session c))) c) ;;;
  logger Logging.INFO "Successfully saved session to file '%s'" [].

Definition request_otc : M unit :=
  e <- gets email ;;
  response <- send {| Requests.meth := Requests.POST;
                      Requests.url := BASE_URL ++ "/auth/request_otc";
                      Requests.headers := default_headers;
                      Requests.body := [("email", e)] |} ;;
  logger Logging.DEBUG "[request_otc - %s] Response Status Code: %i"
    [Logging.VStr e; Logging.VInt (status_code response)] ;;;
  logger Logging.DEBUG "[request_otc - %s] Response Body: %s"
    [Logging.VStr e; Logging.VStr (text response)] ;;;
  if negb (status_code response =? 200)
  then raise NotImplementedError
  else ret tt.

Definition verify_otc (code : string) : M unit :=
  e <- gets email ;;
  response <- send {| Requests.meth := Requests.POST;
                      Requests.url := BASE_URL ++ "/auth/code_check";
                      Requests.headers := default_headers;
                      Requests.body :=
                        [("email", e); ("code", code);
                         ("rememberMe", "true"); ("countryCode", "")] |} ;;
  logger Logging.DEBUG "[verify_otc - %s] Response Status Code: %i"
    [Logging.VStr e; Logging.VInt (status_code response)] ;;;
  logger Logging.DEBUG "[verify_otc - %s] Response Body: %s"
    [Logging.VStr e; Logging.VStr (text response)] ;;;
  if negb (status_code response =? 200)
  then raise NotImplementedError
  else save_session.

Definition get_offers : M (option StoreData) :=
  e <- gets email ;;
  logger Logging.INFO "Get offers for account %s" [Logging.VStr e] ;;;
  response <- send {| Requests.meth := Requests.GET;
                      Requests.url := BASE_URL ++ "/store/offers?countryCode=";
                      Requests.headers := default_headers;
                      Requests.body := [] |} ;;
  logger Logging.DEBUG "[get_offers - %s] Response Status Code: %i"
    [Logging.VStr e; Logging.VInt (status_code response)] ;;;
  logger Logging.DEBUG "[get_offers - %s] Response Body: %s"
    [Logging.VStr e; Logging.VStr (text response)] ;;;
  if status_code response =? 200 then
    data <- lift (as_StoreData response) ;;
    ret (Some data)
  else if status_code response =? 401 then ret None
  else raise NotImplementedError.

Definition purchase_offer (item_id currency_type : string)
  : M (option PurchaseResult) :=
  e <- gets email ;;
  logger Logging.INFO "Purchase item '%s' for account '%s'"
    [Logging.VStr item_id; Logging.VStr e] ;;;
  n <- gets (fun c => length (requests c)) ;;
  response <- send {| Requests.meth := Requests.POST;
                      Requests.url := BASE_URL ++ "/store/purchase";
                      Requests.headers := default_headers;
                      Requests.body :=
                        [("countryCode", "DE"); ("currencyCode", "EUR");
                         ("currencyType", currency_type);
                         ("purchasePrice", "0"); ("itemId", item_id);
                         ("quantity", "1"); ("requestId", uuid4 env n)] |} ;;
  logger Logging.DEBUG "[purchase_offer - %s] Response Status Code: %i"
    [Logging.VStr e; Logging.VInt (status_code response)] ;;;
  logger Logging.DEBUG "[purchase_offer - %s] Response Body: %s"
    [Logging.VStr e; Logging.VStr (text response)] ;;;
  if status_code response =? 200 then
    d <- lift (json response) ;;
    ret (Some d)
  else if status_code response =? 401 then ret None
  else raise NotImplementedError.

Definition get_code_from_message (message_id : string) : M (option string) :=
  e <- gets email ;;
  match Gmail.get_message_details (mailbox env) message_id with
  | None => raise AttributeError
  | Some message =>
      if negb (truthy (Gmail.receiver message))
         || negb (truthy (Gmail.subject message))
      then ret None
      else
        match Gmail.receiver message, Gmail.subject message with
        | Some receiver, Some subject =>
            if negb (Str.contains e receiver) then ret None
            else ret (Str.EA_SUBJECT_PATTERN_match subject)
        | _, _ => ret None
        end
  end.

(** [self.gmail_connector.get_messages()] *)
Definition get_messages : M (option Gmail.GmailMessageListResponse) :=
  n <- gets listings ;;
  modify (set_listings (S n)) ;;;
  ret (Gmail.get_messages (mailbox env) n).

(** [l.messages[0].id] *)
Definition first_id (l : option Gmail.GmailMessageListResponse) : M string :=
  match l with
  | None => raise AttributeError
  | Some [] => raise IndexError
  | Some (i :: _) => ret i
  end.

(** [l.messages] *)
Definition messages (l : option Gmail.GmailMessageListResponse)
  : M (list string) :=
  match l with
  | None => raise AttributeError
  | Some m => ret m
  end.

(** The inner [for entry in new_messages_list.messages] of [login];
    [code] is the variable of the enclosing function. *)
Fixpoint scan (pre_id : string) (entries : list string)
    (code : option string) : M (option string) :=
  match entries with
  | [] => ret code
  | entry :: entries' =>
      if String.eqb entry pre_id then ret code
      else
        code' <- get_code_from_message entry ;;
        if truthy code' then ret code'
        else scan pre_id entries' code'
  end.

(** The [for _ in range(0, max_login_attempts)] of [login]. *)
Fixpoint poll (attempts : nat)
    (pre_messages_list : option Gmail.GmailMessageListResponse)
    (code : option string) : M (option string) :=
  match attempts with
  | O => ret code
  | S attempts' =>
      secs <- cfg Config.login_sleep_time ;;
      sleep secs ;;;
      new_messages_list <- get_messages ;;
      new_id <- first_id new_messages_list ;;
      pre_id <- first_id pre_messages_list ;;
      if negb (negb (String.eqb new_id pre_id))
      then poll attempts' pre_messages_list code
      else
        entries <- messages new_messages_list ;;
        code' <- scan pre_id entries code ;;
        if truthy code' then ret code'
        else poll attempts' new_messages_list code'
  end.

Definition login : M unit :=
  e <- gets email ;;
  logger Logging.INFO "Perform login for account %s" [Logging.VStr e] ;;;
  pre_messages_list <- get_messages ;;
  request_otc ;;;
  attempts <- cfg Config.max_login_attempts ;;
  code <- poll (Z.to_nat attempts) pre_messages_list None ;;
  match code with
  | Some c => if truthy code then verify_otc c else raise ValueError
  | None => raise ValueError
  end.

(** [self.scheduler.enter(delay, priority, action, kwargs=..)] *)
Definition enter (delay : Q) (priority : Z) (action : Sched.Action)
    (kwargs : Sched.dict) : M unit :=
  modify (fun c =>
    set_scheduler (Sched.enter (time c) delay priority action kwargs (scheduler c)) c).

Definition enterabs (t : Q) (priority : Z) (action : Sched.Action)
    (kwargs : Sched.dict) : M unit :=
  modify (fun c =>
    set_scheduler (Sched.enterabs t priority action kwargs (scheduler c)) c).

Definition get_delta : M Q :=
  q <- gets (fun c => Sched.queue (scheduler c)) ;;
  match q with
  | [] => raise IndexError
  | e :: _ => now <- gets time ;; ret (Sched.time e - now)%Q
  end.

(** [try: get .. except (ConnectionError, Timeout): warn .. finally: enter] *)
Definition schedule_connection_check : M unit :=
  self_scheduling <- cfg Config.is_self_scheduling ;;
  if negb self_scheduling then ret tt
  else fun c =>
    let finally_ := enter 1800 1 Sched.Act_schedule_connection_check [] in
    match send {| Requests.meth := Requests.GET;
                  Requests.url := "https://google.com";
                  Requests.headers := []; Requests.body := [] |} c with
    | (Returned _, c') =>
        (logger Logging.INFO "Successfully pinged '%s'"
           [Logging.VStr "https://google.com"] ;;; finally_) c'
    | (Raised RequestConnectionError, c')
    | (Raised RequestTimeout, c') =>
        (logger Logging.WARNING
           "No internet connection established! Unable to reach '%s'"
           [Logging.VStr "https://google.com"] ;;; finally_) c'
    | (Raised e, c') => (finally_ ;;; raise e) c'
    end.

Definition schedule_ping : M unit :=
  self_scheduling <- cfg Config.is_self_scheduling ;;
  if negb self_scheduling then ret tt
  else
    q <- gets (fun c => Sched.queue (scheduler c)) ;;
    logger Logging.INFO "Current queue size: %i"
      [Logging.VInt (Z.of_nat (length q))] ;;;
    is_empty <- gets (fun c => Sched.empty (scheduler c)) ;;
    (if negb is_empty
     then d <- get_delta ;;
          logger Logging.INFO "Next run in %s" [Logging.VSeconds d]
     else ret tt) ;;;
    enter 60 1 Sched.Act_schedule_ping [].

(** [not self.config.is_self_scheduling and not self.config.allow_scheduling] *)
Definition scheduling_is_off : M bool :=
  and_ (a <- cfg Config.is_self_scheduling ;; ret (negb a))
       (b <- cfg Config.allow_scheduling ;; ret (negb b)).

(** [allow_scheduling and max_delay_scheduling_time > 0
     and max_delay_scheduling_time < delay] *)
Definition delay_exceeds_max (delay : Z) : M bool :=
  and_ (cfg Config.allow_scheduling)
       (and_ (m <- cfg Config.max_delay_scheduling_time ;; ret (m >? 0))
             (m <- cfg Config.max_delay_scheduling_time ;; ret (m <? delay))).

(** The [for queue_entry in self.scheduler.queue] of [schedule_purchase]:
    [true] when the loop reaches the warning and returns. *)
Fixpoint already_scheduled (item_id : string) (queue : list Sched.Event) : bool :=
  match queue with
  | [] => false
  | queue_entry :: queue' =>
      if negb (Sched.Action_eqb (Sched.action queue_entry) Sched.Act_purchase_offer)
      then already_scheduled item_id queue'
      else if Sched.dict_contains item_id (Sched.kwargs queue_entry) then true
      else already_scheduled item_id queue'
  end.

Definition schedule_purchase (delay : Z) (item_id currency_type : string)
  : M unit :=
  off <- scheduling_is_off ;;
  if off then ret tt
  else
    too_far <- delay_exceeds_max delay ;;
    if too_far then ret tt
    else
      q <- gets (fun c => Sched.queue (scheduler c)) ;;
      if already_scheduled item_id q then
        logger Logging.WARNING
          "Item already scheduled, skipping scheduling of item %s"
          [Logging.VStr item_id]
      else
        enter (inject_Z delay) 1 Sched.Act_purchase_offer
          [("item_id", item_id); ("currency_type", currency_type)] ;;;
        logger Logging.INFO "Successfully scheduled purchase of %s in %s"
          [Logging.VStr item_id; Logging.VSeconds (inject_Z delay)].

(** The [for queue_entry in self.scheduler.queue] of [schedule_run]. *)
Fixpoint purchase_queue (queue : list Sched.Event) : option Sched.Event :=
  match queue with
  | [] => None
  | queue_entry :: queue' =>
      if Sched.Action_eqb (Sched.action queue_entry) Sched.Act_purchase_offer
      then Some queue_entry
      else purchase_queue queue'
  end.

(** [schedule_run]; [run] is the method it calls back. *)
Definition schedule_run (run : M unit) (run_directly : bool) : M unit :=
  off <- scheduling_is_off ;;
  if off then ret tt
  else if run_directly then run
  else
    q <- gets (fun c => Sched.queue (scheduler c)) ;;
    match purchase_queue q with
    | Some entry =>
        enterabs (Sched.time entry + 5)%Q 1 Sched.Act_run [] ;;;
        d <- get_delta ;;
        logger Logging.INFO
          "Successfully scheduled run after the next purchase (in %s)"
          [Logging.VSeconds d]
    | None =>
        logger Logging.INFO "No purchase found to schedule run..." [] ;;;
        enter 3600 1 Sched.Act_run [] ;;;
        logger Logging.INFO "Successfully scheduled run in %s"
          [Logging.VSeconds 3600]
    end.

Definition or_default (o : option string) (d : string) : string :=
  match o with Some s => s | None => d end.

(** The [for granted_item in response["itemsGranted"]] of [run]. *)
Fixpoint log_granted (items : list GrantedItem) : M unit :=
  match items with
  | [] => ret tt
  | granted_item :: items' =>
      logger Logging.INFO
        (" ItemGranted: " ++ or_default (name granted_item) "NameNotPresent"
         ++ " (" ++ or_default (quantity_min granted_item) "UnkownMinCount"
         ++ "/" ++ or_default (quantity_max granted_item) "UnkownMinCount"
         ++ ")") [] ;;;
      log_granted items'
  end.

(** One pass through the body of [for ws_offer in offers.web_store_offers];
    [purchases] is the counter of the enclosing [run]. *)
Definition run_offer (ws_offer : WebStoreOffer) (purchases : Z) : M Z :=
  let offer := offer ws_offer in
  if negb (is_free_offer offer) then ret purchases
  else
    logger Logging.INFO "FreeOffer found: %s"
      [Logging.VStr (title (item ws_offer))] ;;;
    if negb (Qle_bool (purchase_amount (price offer)) 0) then
      logger Logging.WARNING
        "Free Offer without Free price found! Please investigate..." [] ;;;
      ret purchases
    else if negb (purchase_cooldown_left offer =? 0) then
      schedule_purchase (purchase_cooldown_left offer) (id offer)
        (purchase_currency (price offer)) ;;;
      ret purchases
    else
      let purchases := purchases + 1 in
      response <- purchase_offer (id offer) (purchase_currency (price offer)) ;;
      match response with
      | None => raise TypeError
      | Some d =>
          match itemsGranted d with
          | None => raise KeyError
          | Some items => log_granted items ;;; ret purchases
          end
      end.

Fixpoint run_offers (offers : list WebStoreOffer) (purchases : Z) : M Z :=
  match offers with
  | [] => ret purchases
  | ws_offer :: offers' =>
      purchases' <- run_offer ws_offer purchases ;;
      run_offers offers' purchases'
  end.

(** The part of [run] before its last statement: the fetch, with one login
    and one more fetch when the first one gave [None]. *)
Definition fetch_offers : M (option StoreData) :=
  logger Logging.INFO "Getting offers..." [] ;;;
  offers <- get_offers ;;
  match offers with
  | None => login ;;; get_offers
  | Some _ => ret offers
  end.

(** The body of [run]; [run'] is the method itself, for the call made by
    [schedule_run]. *)
Definition run_body (run' : M unit) : M unit :=
  offers <- fetch_offers ;;
  match offers with
  | None => raise AttributeError
  | Some data =>
      purchases <- run_offers (web_store_offers data) 0 ;;
      schedule_run run' (purchases >? 0)
  end.

(** [run], with the depth of recursion that the interpreter still allows. *)
Fixpoint run (depth : nat) : M unit :=
  match depth with
  | O => raise RecursionError
  | S depth' => run_body (run depth')
  end.

(** The call of an event's [action] with its [kwargs]. *)
Definition call (depth : nat) (e : Sched.Event) : M unit :=
  match Sched.action e with
  | Sched.Act_schedule_ping => schedule_ping
  | Sched.Act_schedule_connection_check => schedule_connection_check
  | Sched.Act_run => run depth
  | Sched.Act_purchase_offer =>
      match Sched.dict_get "item_id" (Sched.kwargs e),
            Sched.dict_get "currency_type" (Sched.kwargs e) with
      | Some item_id, Some currency_type =>
          purchase_offer item_id currency_type ;;; ret tt
      | _, _ => raise TypeError
      end
  end.

(** [self.scheduler.run()], followed for at most [steps] passes through its
    loop: [true] when the queue ran empty within them and the call returned,
    [false] when the loop is still going. *)
Fixpoint scheduler_run (depth steps : nat) : M bool :=
  match steps with
  | O => ret false
  | S steps' =>
      q <- gets (fun c => Sched.queue (scheduler c)) ;;
      match q with
      | [] => ret true
      | e :: _ =>
          now <- gets time ;;
          if negb (Qle_bool (Sched.time e) now) then
            sleep (Sched.time e - now)%Q ;;;
            scheduler_run depth steps'
          else
            modify (fun c => set_scheduler (Sched.pop e (scheduler c)) c) ;;;
            call depth e ;;;
            sleep 0 ;;;
            scheduler_run depth steps'
      end
  end.

Definition start (depth steps : nat) : M unit :=
  run depth ;;;
  finished <- scheduler_run depth steps ;;
  if finished then logger Logging.INFO "Finished script!" [] else ret tt.

(** The end of [__init__], from
    [self.logger.setLevel(self.config.lotr_webstore_log_level)] on. *)
Definition init : M unit :=
  cfg (Config.log_level "lotr_webstore_log_level") ;;;
  file <- gets session_file ;;
  (match file with
   | Some _ => load_session
   | None => ret tt
   end) ;;;
  schedule_ping ;;;
  schedule_connection_check.

End Methods.

(** The attributes as [__init__] sets them, in a world where the clock shows
    [now] and the session file holds [file]. *)
Definition new (config : Config.Config) (email : string) (now : Q)
    (file : option string) : Connector :=
  {| config := config; email := email; session := [];
     scheduler := Sched.new; time := now; session_file := file;
     log := []; requests := []; listings := 0 |}.

End LotR.

(** ** webstore/swgoh/store_types.py *)

Module SwgohTypes.

Record Offer : Type := {
  currencyType : string;
  price : Z;
  (** [None] when the server sends [null] *)
  availableAtEpoch : option Z
}.

Record StoreItem : Type := {
  id : string;
  name : string;
  offers : list Offer;
  startTime : Z;
  endTime : Z
}.

Record StoreData : Type := { items : list StoreItem }.

End SwgohTypes.

(** ** webstore/connector.py and webstore/swgoh/connector.py *)

Module EA.
Import Py.
Local Open Scope py_scope.

(** The class of the instance: the base class or its subclass. *)
Inductive cls : Type := EAWebstoreConnector | SwgohWebstoreConnector.

(** [f"{self.BASE_URL}"] *)
Definition BASE_URL (k : cls) : string :=
  match k with
  | EAWebstoreConnector => "None"
  | SwgohWebstoreConnector => "https://store.galaxy-of-heroes.starwars.ea.com"
  end.

Definition EA_ACCOUNTS_AUTH_URL : string :=
  "https://accounts.ea.com/connect/auth?mode=junoNff&client_id=SWGOH_SERVER_WEB_APP&response_type=code&hide_create=true&redirect_uri=https://store.galaxy-of-heroes.starwars.ea.com".

(** *** The outside world *)

(** What [response.json()] returned, through the three ways it is read:
    [StoreData(data=..)], the purchase result (kept opaque, it is only
    returned), and [..["authId"]]. *)
Record Body : Type := {
  as_StoreData : result SwgohTypes.StoreData;
  authId : result (option string)
}.

(** A response.  [query_code] is [parse_qs(urlparse(response.url).query)]
    at ["code"], first value, [None] when the key is absent. *)
Record Response : Type := {
  status_code : Z;
  text : string;
  url : string;
  query_code : option string;
  cookies : list (string * string);
  json : result Body
}.

Record Env : Type := {
  http : nat -> result Response;
  uuid4 : nat -> string;
  mailbox : Gmail.Mailbox;
  (** what the operator types at the [n]-th prompt *)
  input : nat -> string;
  (** what [time.sleep] raises, at a reading of the clock, for a length that
      the platform cannot hold, as in [LotR] *)
  clock_range : Q -> Q -> result unit;
  pickle_load : string -> result Requests.Session;
  pickle_dump : Requests.Session -> string
}.

(** *** The connector instance, with what it has done to the world *)

Record Connector : Type := {
  class : cls;
  config : Config.Config;
  email : string;
  (** [false] when [self.gmail_connector] is [None] *)
  gmail_connector : bool;
  session : Requests.Session;
  scheduler : Sched.scheduler;
  auth_id : option string;
  time : Q;
  session_file : option string;
  log : list Logging.record;
  requests : list Requests.Request;
  listings : nat;
  (** lines printed, and number of [input] prompts answered *)
  stdout : list string;
  prompts : nat
}.

Definition set_session (v : Requests.Session) (c : Connector) : Connector :=
  {| class := class c; config := config c; email := email c;
     gmail_connector := gmail_connector c; session := v;
     scheduler := scheduler c; auth_id := auth_id c; time := time c;
     session_file := session_file c; log := log c; requests := requests c;
     listings := listings c; stdout := stdout c; prompts := prompts c |}.

Definition set_scheduler (v : Sched.scheduler) (c : Connector) : Connector :=
  {| class := class c; config := config c; email := email c;
     gmail_connector := gmail_connector c; session := session c;
     scheduler := v; auth_id := auth_id c; time := time c;
     session_file := session_file c; log := log c; requests := requests c;
     listings := listings c; stdout := stdout c; prompts := prompts c |}.

Definition set_auth_id (v : option string) (c : Connector) : Connector :=
  {| class := class c; config := config c; email := email c;
     gmail_connector := gmail_connector c; session := session c;
     scheduler := scheduler c; auth_id := v; time := time c;
     session_file := session_file c; log := log c; requests := requests c;
     listings := listings c; stdout := stdout c; prompts := prompts c |}.

Definition set_time (v : Q) (c : Connector) : Connector :=
  {| class := class c; config := config c; email := email c;
     gmail_connector := gmail_connector c; session := session c;
     scheduler := scheduler c; auth_id := auth_id c; time := v;
     session_file := session_file c; log := log c; requests := requests c;
     listings := listings c; stdout := stdout c; prompts := prompts c |}.

Definition set_session_file (v : option string) (c : Connector) : Connector :=
  {| class := class c; config := config c; email := email c;
     gmail_connector := gmail_connector c; session := session c;
     scheduler := scheduler c; auth_id := auth_id c; time := time c;
     session_file := v; log := log c; requests := requests c;
     listings := listings c; stdout := stdout c; prompts := prompts c |}.

Definition set_log (v : list Logging.record) (c : Connector) : Connector :=
  {| class := class c; config := config c; email := email c;
     gmail_connector := gmail_connector c; session := session c;
     scheduler := scheduler c; auth_id := auth_id c; time := time c;
     session_file := session_file c; log := v; requests := requests c;
     listings := listings c; stdout := stdout c; prompts := prompts c |}.

Definition set_requests (v : list Requests.Request) (c : Connector) : Connector :=
  {| class := class c; config := config c; email := email c;
     gmail_connector := gmail_connector c; session := session c;
     scheduler := scheduler c; auth_id := auth_id c; time := time c;
     session_file := session_file c; log := log c; requests := v;
     listings := listings c; stdout := stdout c; prompts := prompts c |}.

Definition set_listings (v : nat) (c : Connector) : Connector :=
  {| class := class c; config := config c; email := email c;
     gmail_connector := gmail_connector c; session := session c;
     scheduler := scheduler c; auth_id := auth_id c; time := time c;
     session_file := session_file c; log := log c; requests := requests c;
     listings := v; stdout := stdout c; prompts := prompts c |}.

Definition set_console (out : list string) (n : nat) (c : Connector) : Connector :=
  {| class := class c; config := config c; email := email c;
     gmail_connector := gmail_connector c; session := session c;
     scheduler := scheduler c; auth_id := auth_id c; time := time c;
     session_file := session_file c; log := log c; requests := requests c;
     listings := listings c; stdout := out; prompts := n |}.

(** What [_get_messages] returns: [None] without a mail connector, the bare
    [[]] after an [HttpError], or the listing. *)
Inductive messages_list : Type :=
| PyNone
| EmptyList
| ListResponse (messages : Gmail.GmailMessageListResponse).

Section Methods.
Variable env : Env.

Local Abbreviation M := (Py.M Connector).

Definition logger (l : Logging.level) (fmt : string)
    (a : list Logging.value) : M unit :=
  modify (fun c =>
    set_log (log c ++ [ {| Logging.levelname := l; Logging.msg := fmt;
                           Logging.args := a |} ]) c).

(** [time.sleep(secs)]: a length that the platform cannot hold raises what
    [clock_range] gives, a negative length raises [ValueError]; otherwise
    the clock moves on by [secs]. *)
Definition sleep (secs : Q) : M unit :=
  now <- gets time ;;
  lift (clock_range env now secs) ;;;
  if Qle_bool 0 secs
  then modify (fun c => set_time (time c + secs)%Q c)
  else raise ValueError.

Definition cfg {A} (property : Config.Config -> result A) : M A :=
  fun c => (property (config c), c).

Definition send (r : Requests.Request) : M Response :=
  fun c =>
    let c' := set_requests (requests c ++ [r]) c in
    match http env (length (requests c)) with
    | Raised e => (Raised e, c')
    | Returned response =>
        (Returned response,
         set_session (Requests.update (session c') (cookies response)) c')
    end.

Definition get_default_headers : M (list (string * string)) :=
  a <- gets auth_id ;;
  match a with
  | Some i => if truthy a
              then ret [("X-Rpc-Auth-Id", i); ("Accept-Language", "DE")]
              else ret [("Accept-Language", "DE")]
  | None => ret [("Accept-Language", "DE")]
  end.

Definition load_session : M unit :=
  file <- gets session_file ;;
  match file with
  | None => raise FileNotFoundError
  | Some content =>
      s <- lift (pickle_load env content) ;;
      modify (set_session s) ;;;
      logger Logging.DEBUG "Successfully loaded session from file '%s'" []
  end.

Definition save_session : M unit :=
  modify (fun c => set_session_file (Some (pickle_dump env (session c))) c) ;;;
  logger Logging.DEBUG "Successfully saved session to file '%s'" [].

(** [self._wrap_offers(response.json())] *)
Definition _wrap_offers (response : Response) : M SwgohTypes.StoreData :=
  data <- lift (json response) ;;
  k <- gets class ;;
  match k with
  | EAWebstoreConnector => raise NotImplementedError
  | SwgohWebstoreConnector => lift (as_StoreData data)
  end.

Definition get_offers : M (option SwgohTypes.StoreData) :=
  e <- gets email ;;
  k <- gets class ;;
  logger Logging.INFO "Get offers for account %s" [Logging.VStr e] ;;;
  h <- get_default_headers ;;
  response <- send {| Requests.meth := Requests.GET;
                      Requests.url := BASE_URL k ++ "/store/offers?countryCode=";
                      Requests.headers := h;
                      Requests.body := [] |} ;;
  logger Logging.DEBUG "[get_offers - %s] Response Status Code: %i"
    [Logging.VStr e; Logging.VInt (status_code response)] ;;;
  if status_code response =? 200 then
    data <- _wrap_offers response ;;
    ret (Some data)
  else if status_code response =? 401 then ret None
  else raise NotImplementedError.

(** [purchase_offer]; the [dict] it returns on 200 is not read by any caller
    and is kept as [Body]. *)
Definition purchase_offer (item_id currency_type : string) : M (option Body) :=
  e <- gets email ;;
  k <- gets class ;;
  logger Logging.INFO "Purchase item '%s' for account '%s'"
    [Logging.VStr item_id; Logging.VStr e] ;;;
  h <- get_default_headers ;;
  n <- gets (fun c => length (requests c)) ;;
  response <- send {| Requests.meth := Requests.POST;
                      Requests.url := BASE_URL k ++ "/store/purchase";
                      Requests.headers := h;
                      Requests.body :=
                        [("countryCode", "DE"); ("currencyCode", "EUR");
                         ("currencyType", currency_type);
                         ("purchasePrice", "0"); ("itemId", item_id);
                         ("quantity", "1"); ("requestId", uuid4 env n)] |} ;;
  logger Logging.DEBUG "[purchase_offer - %s] Response Status Code: %i"
    [Logging.VStr e; Logging.VInt (status_code response)] ;;;
  logger Logging.DEBUG "[purchase_offer - %s] Response Body: %s"
    [Logging.VStr e; Logging.VStr (text response)] ;;;
  if status_code response =? 200 then
    d <- lift (json response) ;;
    ret (Some d)
  else if status_code response =? 401 then ret None
  else raise NotImplementedError.

Definition get_code_from_message (message_id : string) : M (option string) :=
  g <- gets gmail_connector ;;
  if negb g then ret None
  else
    e <- gets email ;;
    match Gmail.get_message_details (mailbox env) message_id with
    | None => raise AttributeError
    | Some message =>
        if negb (truthy (Gmail.receiver message))
           || negb (truthy (Gmail.subject message))
        then ret None
        else
          match Gmail.receiver message, Gmail.subject message with
          | Some receiver, Some subject =>
              if negb (Str.contains e receiver) then ret None
              else ret (Str.EA_SUBJECT_PATTERN_match subject)
          | _, _ => ret None
          end
    end.

Definition _get_messages : M messages_list :=
  g <- gets gmail_connector ;;
  if negb g then ret PyNone
  else
    logger Logging.DEBUG "Get messages..." [] ;;;
    n <- gets listings ;;
    modify (set_listings (S n)) ;;;
    match Gmail.get_messages (mailbox env) n with
    | None => ret EmptyList
    | Some l => ret (ListResponse l)
    end.

(** [l.messages[0].id] *)
Definition first_id (l : messages_list) : M string :=
  match l with
  | PyNone | EmptyList => raise AttributeError
  | ListResponse [] => raise IndexError
  | ListResponse (i :: _) => ret i
  end.

(** [l.messages] *)
Definition messages (l : messages_list) : M (list string) :=
  match l with
  | PyNone | EmptyList => raise AttributeError
  | ListResponse m => ret m
  end.

(** [not l] *)
Definition falsy (l : messages_list) : bool :=
  match l with
  | PyNone | EmptyList => true
  | ListResponse _ => false
  end.

Fixpoint scan (pre_id : string) (entries : list string)
    (code : option string) : M (option string) :=
  match entries with
  | [] => ret code
  | entry :: entries' =>
      if String.eqb entry pre_id then ret code
      else
        code' <- get_code_from_message entry ;;
        if truthy code' then ret code'
        else scan pre_id entries' code'
  end.

(** The [for _ in range(0, max_login_attempts)] of
    [_get_code_from_gmail_account]. *)
Fixpoint poll (attempts : nat) (pre_messages_list : messages_list)
    (code : option string) : M (option string) :=
  match attempts with
  | O => ret code
  | S attempts' =>
      secs <- cfg Config.login_sleep_time ;;
      sleep secs ;;;
      new_messages_list <- _get_messages ;;
      if falsy new_messages_list then
        logger Logging.DEBUG "No messages found, retrying..." [] ;;;
        poll attempts' pre_messages_list code
      else
        new_id <- first_id new_messages_list ;;
        pre_id <- first_id pre_messages_list ;;
        if negb (negb (String.eqb new_id pre_id))
        then poll attempts' pre_messages_list code
        else
          entries <- messages new_messages_list ;;
          code' <- scan pre_id entries code ;;
          if truthy code' then ret code'
          else poll attempts' new_messages_list code'
  end.

Definition _get_code_from_gmail_account (pre_messages_list : messages_list)
  : M (option string) :=
  g <- gets gmail_connector ;;
  match negb g, pre_messages_list with
  | true, _ | _, PyNone => ret None
  | _, _ =>
      logger Logging.DEBUG "Get messages..." [] ;;;
      attempts <- cfg Config.max_login_attempts ;;
      poll (Z.to_nat attempts) pre_messages_list None
  end.

(** [print(..); input(..)] *)
Definition ask_operator : M string :=
  modify (fun c =>
    set_console (stdout c ++ ["Failed to get code from Gmail account."])
                (prompts c) c) ;;;
  n <- gets prompts ;;
  modify (fun c => set_console (stdout c ++ ["Enter the code: "]) (S n) c) ;;;
  ret (input env n).

Definition _perform_login (url : string) : M string :=
  response <- send {| Requests.meth := Requests.GET; Requests.url := url;
                      Requests.headers := []; Requests.body := [] |} ;;
  if negb (status_code response =? 200)
  then raise (Exception "Failed to get signin page")
  else
    logger Logging.DEBUG "Submit email..." [] ;;;
    pre_message_list <- _get_messages ;;
    e <- gets email ;;
    response <- send {| Requests.meth := Requests.POST; Requests.url := url;
                        Requests.headers := [];
                        Requests.body :=
                          [("email", e); ("_eventId", "submit");
                           ("thirdPartyCaptchaResponse", "");
                           ("_rememberMe", "on"); ("rememberMe", "on")] |} ;;
    if negb (status_code response =? 200)
    then raise (Exception "Failed to submit email")
    else
      code <- _get_code_from_gmail_account pre_message_list ;;
      code <- (match code with
               | Some c => if truthy code then ret c else ask_operator
               | None => ask_operator
               end) ;;
      response <- send {| Requests.meth := Requests.POST;
                          Requests.url := EA.url response;
                          Requests.headers := [];
                          Requests.body :=
                            [("oneTimeCode", code); ("_eventId", "submit")] |} ;;
      if negb (status_code response =? 200)
      then raise (Exception "Failed to submit code")
      else
        match query_code response with
        | None => raise (Exception "Failed to get code in redirect location")
        | Some access_code => ret access_code
        end.

Definition _finish_login (code : string) : M unit :=
  finish <- send {| Requests.meth := Requests.POST;
                    Requests.url :=
                      "https://store.galaxy-of-heroes.starwars.ea.com/auth/access_code";
                    Requests.headers := [];
                    Requests.body :=
                      [("access_code", code);
                       ("redirect_uri",
                        "https://store.galaxy-of-heroes.starwars.ea.com")] |} ;;
  data <- lift (json finish) ;;
  a <- lift (authId data) ;;
  modify (set_auth_id a).

Definition login (force_login : bool) : M unit :=
  a <- gets auth_id ;;
  if negb force_login && truthy a then ret tt
  else
    e <- gets email ;;
    logger Logging.INFO "Perform login for account %s" [Logging.VStr e] ;;;
    logger Logging.DEBUG "Send auth0 request..." [] ;;;
    response <- send {| Requests.meth := Requests.GET;
                        Requests.url := EA_ACCOUNTS_AUTH_URL;
                        Requests.headers := []; Requests.body := [] |} ;;
    if negb (status_code response =? 200)
    then raise (Exception "Failed to get accounts URL")
    else
      match query_code response with
      | Some code =>
          logger Logging.DEBUG "Code found in URL, skipping login process..." [] ;;;
          _finish_login code
      | None =>
          logger Logging.DEBUG "Perform login process..." [] ;;;
          code <- _perform_login (url response) ;;
          _finish_login code ;;;
          save_session
      end.

Definition enter (delay : Q) (priority : Z) (action : Sched.Action)
    (kwargs : Sched.dict) : M unit :=
  modify (fun c =>
    set_scheduler (Sched.enter (time c) delay priority action kwargs (scheduler c)) c).

Definition enterabs (t : Q) (priority : Z) (action : Sched.Action)
    (kwargs : Sched.dict) : M unit :=
  modify (fun c =>
    set_scheduler (Sched.enterabs t priority action kwargs (scheduler c)) c).

Definition get_delta : M Q :=
  q <- gets (fun c => Sched.queue (scheduler c)) ;;
  match q with
  | [] => raise IndexError
  | e :: _ => now <- gets time ;; ret (Sched.time e - now)%Q
  end.

Definition schedule_connection_check : M unit :=
  self_scheduling <- cfg Config.is_self_scheduling ;;
  if negb self_scheduling then ret tt
  else fun c =>
    let finally_ := enter 1800 1 Sched.Act_schedule_connection_check [] in
    match send {| Requests.meth := Requests.GET;
                  Requests.url := "https://google.com";
                  Requests.headers := []; Requests.body := [] |} c with
    | (Returned _, c') =>
        (logger Logging.INFO "Successfully pinged '%s'"
           [Logging.VStr "https://google.com"] ;;; finally_) c'
    | (Raised RequestConnectionError, c')
    | (Raised RequestTimeout, c') =>
        (logger Logging.WARNING
           "No internet connection established! Unable to reach '%s'"
           [Logging.VStr "https://google.com"] ;;; finally_) c'
    | (Raised e, c') => (finally_ ;;; raise e) c'
    end.

Definition schedule_ping : M unit :=
  self_scheduling <- cfg Config.is_self_scheduling ;;
  if negb self_scheduling then ret tt
  else
    q <- gets (fun c => Sched.queue (scheduler c)) ;;
    logger Logging.INFO "Current queue size: %i"
      [Logging.VInt (Z.of_nat (length q))] ;;;
    is_empty <- gets (fun c => Sched.empty (scheduler c)) ;;
    (if negb is_empty
     then d <- get_delta ;;
          logger Logging.INFO "Next run in %s" [Logging.VSeconds d]
     else ret tt) ;;;
    enter 60 1 Sched.Act_schedule_ping [].

Definition scheduling_is_off : M bool :=
  and_ (a <- cfg Config.is_self_scheduling ;; ret (negb a))
       (b <- cfg Config.allow_scheduling ;; ret (negb b)).

Definition delay_exceeds_max (delay : Z) : M bool :=
  and_ (cfg Config.allow_scheduling)
       (and_ (m <- cfg Config.max_delay_scheduling_time ;; ret (m >? 0))
             (m <- cfg Config.max_delay_scheduling_time ;; ret (m <? delay))).

Fixpoint already_scheduled (item_id : string) (queue : list Sched.Event) : bool :=
  match queue with
  | [] => false
  | queue_entry :: queue' =>
      if negb (Sched.Action_eqb (Sched.action queue_entry) Sched.Act_purchase_offer)
      then already_scheduled item_id queue'
      else if Sched.dict_contains item_id (Sched.kwargs queue_entry) then true
      else already_scheduled item_id queue'
  end.

Definition schedule_purchase (delay : Z) (item_id currency_type : string)
  : M unit :=
  off <- scheduling_is_off ;;
  if off then
    logger Logging.INFO
      ("Scheduling is deactivated! Item " ++ Str.quoted "%s"
       ++ " will be available in %s")
      [Logging.VStr item_id; Logging.VSeconds (inject_Z delay)]
  else
    too_far <- delay_exceeds_max delay ;;
    if too_far then
      logger Logging.INFO
        ("The delay exceeds the max allowed delay! Item " ++ Str.quoted "%s"
         ++ " will be available in %s")
        [Logging.VStr item_id; Logging.VSeconds (inject_Z delay)]
    else
      q <- gets (fun c => Sched.queue (scheduler c)) ;;
      if already_scheduled item_id q then
        logger Logging.WARNING
          "Item already scheduled, skipping scheduling of item %s"
          [Logging.VStr item_id]
      else
        enter (inject_Z delay) 1 Sched.Act_purchase_offer
          [("item_id", item_id); ("currency_type", currency_type)] ;;;
        logger Logging.INFO "Successfully scheduled purchase of %s in %s"
          [Logging.VStr item_id; Logging.VSeconds (inject_Z delay)].

Fixpoint purchase_queue (queue : list Sched.Event) : option Sched.Event :=
  match queue with
  | [] => None
  | queue_entry :: queue' =>
      if Sched.Action_eqb (Sched.action queue_entry) Sched.Act_purchase_offer
      then Some queue_entry
      else purchase_queue queue'
  end.

Definition schedule_run (run : M unit) (run_directly : bool) : M unit :=
  off <- scheduling_is_off ;;
  if off then ret tt
  else if run_directly then run
  else
    q <- gets (fun c => Sched.queue (scheduler c)) ;;
    match purchase_queue q with
    | Some entry =>
        enterabs (Sched.time entry + 5)%Q 1 Sched.Act_run [] ;;;
        d <- get_delta ;;
        logger Logging.INFO
          "Successfully scheduled run after the next purchase (in %s)"
          [Logging.VSeconds d]
    | None =>
        allow <- cfg Config.allow_scheduling ;;
        if allow then ret tt
        else
          logger Logging.INFO "No purchase found to schedule run..." [] ;;;
          enter 3600 1 Sched.Act_run [] ;;;
          logger Logging.INFO "Successfully scheduled run in %s"
            [Logging.VSeconds 3600]
    end.

(** [datetime.fromtimestamp(t, tz=timezone.utc)] of an integer [t]: the
    years 1 to 9999 give a date; outside them the call raises [ValueError]
    while the year fits the C library's [int], [OSError] beyond that within
    the 64 bits of [time_t], and [OverflowError] otherwise. *)
Definition fromtimestamp (t : Z) : result Q :=
  if (-62135596800 <=? t) && (t <=? 253402300799) then Returned (inject_Z t)
  else if (-67768040609740800 <=? t) && (t <=? 67768036191676799)
  then Raised ValueError
  else if (-9223372036854775808 <=? t) && (t <=? 9223372036854775807)
  then Raised OSError
  else Raised OverflowError.

(** [timedelta.seconds] of a non-negative difference of two times. *)
Definition timedelta_seconds (d : Q) : Z := Qfloor d mod 86400.

(** One pass through the body of [for item in offers.items] of
    [SwgohWebstoreConnector._handle_offers]; [now] is the time read when the
    method was entered.  The three timestamps are converted before any of
    them is compared; [availableAtEpoch] is converted a second time for the
    delay. *)
Definition handle_item (now : Q) (item : SwgohTypes.StoreItem) (purchases : Z)
  : M Z :=
  let free_offers :=
    filter (fun o => String.eqb (SwgohTypes.currencyType o) "FREE")
           (SwgohTypes.offers item) in
  match free_offers with
  | [] => ret purchases
  | free_offer :: _ =>
      start_time <- lift (fromtimestamp (SwgohTypes.startTime item)) ;;
      end_time <- lift (fromtimestamp (SwgohTypes.endTime item)) ;;
      available_at <-
        (match SwgohTypes.availableAtEpoch free_offer with
         | None => ret None
         | Some epoch => at_ <- lift (fromtimestamp epoch) ;; ret (Some at_)
         end) ;;
      if negb (Qle_bool start_time now) then
        logger Logging.INFO "%s will be available at %s"
          [Logging.VStr (SwgohTypes.name item); Logging.VSeconds start_time] ;;;
        ret purchases
      else if negb (Qle_bool now end_time) then
        logger Logging.INFO "%s alread expired at %s"
          [Logging.VStr (SwgohTypes.name item); Logging.VSeconds end_time] ;;;
        ret purchases
      else if match available_at with
              | None => true
              | Some at_ => negb (Qle_bool at_ now)
              end then
        at_ <- (match SwgohTypes.availableAtEpoch free_offer with
                | None => raise TypeError
                | Some epoch => lift (fromtimestamp epoch)
                end) ;;
        schedule_purchase (timedelta_seconds (at_ - now))
          (SwgohTypes.id item) (SwgohTypes.currencyType free_offer) ;;;
        ret purchases
      else
        logger Logging.INFO "FreeOffer found: %s"
          [Logging.VStr (SwgohTypes.name item)] ;;;
        purchase_offer (SwgohTypes.id item)
          (SwgohTypes.currencyType free_offer) ;;;
        ret (purchases + 1)
  end.

Fixpoint handle_items (now : Q) (l : list SwgohTypes.StoreItem) (purchases : Z)
  : M Z :=
  match l with
  | [] => ret purchases
  | item :: l' =>
      purchases' <- handle_item now item purchases ;;
      handle_items now l' purchases'
  end.

Definition _handle_offers (offers : option SwgohTypes.StoreData) : M bool :=
  k <- gets class ;;
  match k with
  | EAWebstoreConnector => raise NotImplementedError
  | SwgohWebstoreConnector =>
      now <- gets time ;;
      match offers with
      | None => raise AttributeError
      | Some data =>
          purchases <- handle_items now (SwgohTypes.items data) 0 ;;
          ret (purchases >? 0)
      end
  end.

Definition run_body (run' : M unit) : M unit :=
  login false ;;;
  logger Logging.INFO "Getting offers..." [] ;;;
  offers <- get_offers ;;
  run_directly <- _handle_offers offers ;;
  schedule_run run' run_directly.

Fixpoint run (depth : nat) : M unit :=
  match depth with
  | O => raise RecursionError
  | S depth' => run_body (run depth')
  end.

(** The call of an event's [action] with its [kwargs]. *)
Definition call (depth : nat) (e : Sched.Event) : M unit :=
  match Sched.action e with
  | Sched.Act_schedule_ping => schedule_ping
  | Sched.Act_schedule_connection_check => schedule_connection_check
  | Sched.Act_run => run depth
  | Sched.Act_purchase_offer =>
      match Sched.dict_get "item_id" (Sched.kwargs e),
            Sched.dict_get "currency_type" (Sched.kwargs e) with
      | Some item_id, Some currency_type =>
          purchase_offer item_id currency_type ;;; ret tt
      | _, _ => raise TypeError
      end
  end.

(** [self.scheduler.run()] for at most [steps] passes, as in [LotR]. *)
Fixpoint scheduler_run (depth steps : nat) : M bool :=
  match steps with
  | O => ret false
  | S steps' =>
      q <- gets (fun c => Sched.queue (scheduler c)) ;;
      match q with
      | [] => ret true
      | e :: _ =>
          now <- gets time ;;
          if negb (Qle_bool (Sched.time e) now) then
            sleep (Sched.time e - now)%Q ;;;
            scheduler_run depth steps'
          else
            modify (fun c => set_scheduler (Sched.pop e (scheduler c)) c) ;;;
            call depth e ;;;
            sleep 0 ;;;
            scheduler_run depth steps'
      end
  end.

Definition start (depth steps : nat) : M unit :=
  run depth ;;;
  finished <- scheduler_run depth steps ;;
  if finished then logger Logging.INFO "Finished script!" [] else ret tt.

(** The end of [__init__], from
    [self.logger.setLevel(self.config.webstore_log_level)] on. *)
Definition init : M unit :=
  cfg (Config.log_level "webstore_log_level") ;;;
  file <- gets session_file ;;
  (match file with
   | Some _ => load_session
   | None => ret tt
   end) ;;;
  schedule_ping ;;;
  schedule_connection_check.

End Methods.

Definition new (k : cls) (config : Config.Config) (email : string)
    (gmail : bool) (now : Q) (file : option string) : Connector :=
  {| class := k; config := config; email := email; gmail_connector := gmail;
     session := []; scheduler := Sched.new; auth_id := None; time := now;
     session_file := file; log := []; requests := []; listings := 0;
     stdout := []; prompts := 0 |}.

End EA.

(** ** cli.py *)

Module Cli.
Import Py.
Local Open Scope py_scope.

(** What [main] finds when the process starts. *)
Record World : Type := {
  files : Config.files;
  (** another instance holds the lock file of the account *)
  locked : bool;
  now : Q;
  session_file : option string;
  env : LotR.Env
}.

(** [main()] for the parsed arguments [email] and [config]; the connector is
    returned as the process leaves it, [None] when it was never built.
    [depth] and [steps] bound the recursion of [run] and the passes of the
    scheduler loop that are followed. *)
Definition main (w : World) (email config : string) (depth steps : nat)
  : result unit * option LotR.Connector :=
  match Config.load_global_config (files w) (Config.ArgStr config) None with
  | (Raised e, _) => (Raised e, None)
  | (Returned _, None) => (Raised AttributeError, None)
  | (Returned _, Some cfg) =>
      if locked w then (Raised (SystemExit 1), None)
      else
        match Config.load_config (files w) (Config.ArgConfig cfg) with
        | Returned (Some cfg') =>
            let connector := LotR.new cfg' email (now w) (session_file w) in
            let (r, connector') :=
              (LotR.init (env w) ;;; LotR.start (env w) depth steps) connector in
            (r, Some connector')
        | Returned None => (Raised AttributeError, None)
        | Raised e => (Raised e, None)
        end
  end.

End Cli.

(** ** Vocabulary of the specification *)

Module Spec.

(** The event is a Purchase task for [item_id]. *)
Definition is_purchase_of (item_id : string) (e : Sched.Event) : bool :=
  Sched.Action_eqb (Sched.action e) Sched.Act_purchase_offer
  && match Sched.dict_get "item_id" (Sched.kwargs e) with
     | Some i => String.eqb i item_id
     | None => false
     end.

(** Number of Purchase tasks for [item_id] in a queue. *)
Definition purchase_tasks (item_id : string) (q : list Sched.Event) : nat :=
  length (filter (is_purchase_of item_id) q).

Definition is_purchase (e : Sched.Event) : bool :=
  Sched.Action_eqb (Sched.action e) Sched.Act_purchase_offer.

Definition is_run (e : Sched.Event) : bool :=
  Sched.Action_eqb (Sched.action e) Sched.Act_run.

(** The code carried by a mail for the account [email]: its recipient
    contains [email] and its subject matches the pattern, whose digit group
    is the code. *)
Definition mail_code (email : string) (m : Gmail.GmailMessageWrapper)
  : option string :=
  match Gmail.receiver m, Gmail.subject m with
  | Some r, Some s =>
      if Str.contains email r then Str.EA_SUBJECT_PATTERN_match s else None
  | _, _ => None
  end.

Definition code_of (mb : Gmail.Mailbox) (email id : string) : option string :=
  match Gmail.get_message_details mb id with
  | Some m => mail_code email m
  | None => None
  end.

(** An inbox that only grows at the top: the listing at poll [j] is the
    baseline [base] with the mails delivered since, [delta i] between poll
    [i - 1] and poll [i], newest first. *)
Fixpoint inbox (base : list string) (delta : nat -> list string) (j : nat)
  : list string :=
  match j with
  | O => base
  | S i => delta (S i) ++ inbox base delta i
  end.

(** The log holds a record with this format string. *)
Definition logged (fmt : string) (log : list Logging.record) : bool :=
  existsb (fun r => String.eqb (Logging.msg r) fmt) log.

Definition count_logged (fmt : string) (log : list Logging.record) : nat :=
  length (filter (fun r => String.eqb (Logging.msg r) fmt) log).

Definition is_to (suffix : string) (r : Requests.Request) : bool :=
  Str.contains suffix (Requests.url r).

Definition count_requests (suffix : string) (l : list Requests.Request) : nat :=
  length (filter (is_to suffix) l).

(** The two records that [run] logs for a free offer with a price. *)
Definition anomaly_records (ws_offer : LotR.WebStoreOffer) : list Logging.record :=
  [ {| Logging.levelname := Logging.INFO;
       Logging.msg := "FreeOffer found: %s";
       Logging.args := [Logging.VStr (LotR.title (LotR.item ws_offer))] |};
    {| Logging.levelname := Logging.WARNING;
       Logging.msg := "Free Offer without Free price found! Please investigate...";
       Logging.args := [] |} ].

(** A mail that the scan of the login passes over: it can be fetched and
    carries no code for the account. *)
Definition quiet (mb : Gmail.Mailbox) (email i : string) : Prop :=
  Gmail.get_message_details mb i <> None /\ code_of mb email i = None.

(** The request that [LotR.request_otc] sends. *)
Definition otc_request (email : string) : Requests.Request :=
  {| Requests.meth := Requests.POST;
     Requests.url := LotR.BASE_URL ++ "/auth/request_otc";
     Requests.headers := LotR.default_headers;
     Requests.body := [("email", email)] |}.

(** The LotR connector after one pass of the polling loop of [login] that
    slept [t] seconds and listed the inbox, and after [k] such passes. *)
Definition lotr_tick (t : Q) (c : LotR.Connector) : LotR.Connector :=
  LotR.set_listings (S (LotR.listings c)) (LotR.set_time (LotR.time c + t)%Q c).

Fixpoint lotr_polled (t : Q) (k : nat) (c : LotR.Connector) : LotR.Connector :=
  match k with
  | O => c
  | S k' => lotr_polled t k' (lotr_tick t c)
  end.

(** [time.sleep] carries out a sleep of [t] seconds whenever it is asked:
    the length is not negative and within what the platform holds. *)
Definition lotr_sleeps (env : LotR.Env) (t : Q) : Prop :=
  (0 <= t)%Q /\ forall now, LotR.clock_range env now t = Py.Returned tt.

Definition ea_sleeps (env : EA.Env) (t : Q) : Prop :=
  (0 <= t)%Q /\ forall now, EA.clock_range env now t = Py.Returned tt.

(** The same for the base connector, whose [_get_messages] also logs. *)
Definition ea_tick (t : Q) (c : EA.Connector) : EA.Connector :=
  EA.set_listings (S (EA.listings c))
    (EA.set_log
       (EA.log c ++ [ {| Logging.levelname := Logging.DEBUG;
                         Logging.msg := "Get messages...";
                         Logging.args := [] |} ])
       (EA.set_time (EA.time c + t)%Q c)).

Fixpoint ea_polled (t : Q) (k : nat) (c : EA.Connector) : EA.Connector :=
  match k with
  | O => c
  | S k' => ea_polled t k' (ea_tick t c)
  end.

(** The base connector when [_get_code_from_gmail_account] enters its loop. *)
Definition ea_started (c : EA.Connector) : EA.Connector :=
  EA.set_log
    (EA.log c ++ [ {| Logging.levelname := Logging.DEBUG;
                      Logging.msg := "Get messages...";
                      Logging.args := [] |} ]) c.

(** The requests of [c'] are those of [c] followed by more; an action of the
    base connector is growing when it only ever adds requests. *)
Definition ea_extends (c c' : EA.Connector) : Prop :=
  exists l, EA.requests c' = (EA.requests c ++ l)%list.

Definition ea_growing {A} (m : Py.M EA.Connector A) : Prop :=
  forall c, ea_extends c (snd (m c)).

(** The request that opens the login flow of the base connector. *)
Definition auth_request : Requests.Request :=
  {| Requests.meth := Requests.GET;
     Requests.url := EA.EA_ACCOUNTS_AUTH_URL;
     Requests.headers := []; Requests.body := [] |}.

(** Strings of ASCII digits only, and strings without any. *)
Fixpoint all_digits (s : string) : bool :=
  match s with
  | EmptyString => true
  | String c s' => Str.is_digit c && all_digits s'
  end.

Fixpoint no_digit (s : string) : bool :=
  match s with
  | EmptyString => true
  | String c s' => negb (Str.is_digit c) && no_digit s'
  end.

End Spec.

(** ** The guards of the scheduling methods as values

    Both connectors evaluate the same two conditions on the configuration;
    their values, with the exceptions of the conversions and the order in
    which the options are read, are: *)

Module Guards.
Import Py.

(** [not is_self_scheduling and not allow_scheduling] *)
Definition scheduling_is_off (c : Config.Config) : result bool :=
  rbind (Config.is_self_scheduling c) (fun a =>
  if negb a
  then rbind (Config.allow_scheduling c) (fun b => Returned (negb b))
  else Returned false).

(** [allow_scheduling and max_delay_scheduling_time > 0
     and max_delay_scheduling_time < delay] *)
Definition delay_exceeds_max (c : Config.Config) (delay : Z) : result bool :=
  rbind (Config.allow_scheduling c) (fun a =>
  if a then
    rbind (Config.max_delay_scheduling_time c) (fun m =>
    if m >? 0
    then rbind (Config.max_delay_scheduling_time c) (fun m' =>
         Returned (m' <? delay))
    else Returned false)
  else Returned false).

End Guards.

(** ** Concrete worlds used by the examples *)

Module Examples.
Import Py.

Definition parser (self_scheduling allow : bool) (max_delay attempts : Z)
  : Config.ConfigParser :=
  {| Config.General_script_is_self_scheduling := Config.Value self_scheduling;
     Config.General_allow_scheduling := Config.Value allow;
     Config.General_max_delay_scheduling_time := Config.Value max_delay;
     Config.General_login_sleep_time := Config.Missing;
     Config.General_max_verification_attempts := Config.Value attempts |}.

Definition config (self_scheduling allow : bool) (max_delay attempts : Z)
  : Config.Config :=
  {| Config.config := parser self_scheduling allow max_delay attempts;
     Config.file_path := "config.ini" |}.

Definition email : string := "player@example.com".

(** A mailbox whose listing never changes and holds one old mail. *)
Definition quiet_mailbox : Gmail.Mailbox :=
  {| Gmail.get_messages := fun _ => Some ["m0"];
     Gmail.get_message_details := fun _ =>
       Some {| Gmail.receiver := Some email;
               Gmail.subject := Some "Welcome" |} |}.

(** [pickle.load] on an empty file raises [EOFError]; other contents are
    taken to hold one cookie. *)
Definition pickle_load (content : string) : result Requests.Session :=
  if String.eqb content "" then Raised EOFError
  else Returned [("session", content)].

Definition pickle_dump (s : Requests.Session) : string :=
  match s with
  | [] => "empty"
  | (_, v) :: _ => v
  end.

(** A process started on a configuration file that turns both scheduling
    modes on. *)
Definition conflicting_world : Cli.World :=
  {| Cli.files := fun _ => Returned (parser true true 0 2);
     Cli.locked := false;
     Cli.now := 0%Q;
     Cli.session_file := None;
     Cli.env :=
       {| LotR.http := fun _ => Raised RequestConnectionError;
          LotR.uuid4 := fun _ => "";
          LotR.mailbox := quiet_mailbox;
          LotR.clock_range := fun _ _ => Returned tt;
          LotR.pickle_load := pickle_load;
          LotR.pickle_dump := pickle_dump |} |}.

(** A store server that answers every request with [status]. *)
Definition lotr_response (status : Z) : LotR.Response :=
  {| LotR.status_code := status; LotR.text := ""; LotR.cookies := [];
     LotR.as_StoreData := Returned {| LotR.web_store_offers := [] |};
     LotR.json := Returned {| LotR.itemsGranted := Some [] |} |}.

Definition lotr_env (http : nat -> result LotR.Response) : LotR.Env :=
  {| LotR.http := http;
     LotR.uuid4 := fun _ => "00000000-0000-4000-8000-000000000000";
     LotR.mailbox := quiet_mailbox;
     LotR.clock_range := fun _ _ => Returned tt;
     LotR.pickle_load := pickle_load;
     LotR.pickle_dump := pickle_dump |}.

Definition swgoh_response (status : Z) (code : option string) : EA.Response :=
  {| EA.status_code := status; EA.text := ""; EA.url := "https://signin";
     EA.query_code := code; EA.cookies := [];
     EA.json := Returned {| EA.as_StoreData :=
                              Returned {| SwgohTypes.items := [] |};
                            EA.authId := Returned (Some "auth-1") |} |}.

Definition swgoh_env (http : nat -> result EA.Response) : EA.Env :=
  {| EA.http := http;
     EA.uuid4 := fun _ => "00000000-0000-4000-8000-000000000000";
     EA.mailbox := quiet_mailbox;
     EA.input := fun _ => "123456";
     EA.clock_range := fun _ _ => Returned tt;
     EA.pickle_load := pickle_load;
     EA.pickle_dump := pickle_dump |}.

(** Fresh connectors at time 0 without a session file. *)
Definition lotr (cfg : Config.Config) : LotR.Connector :=
  LotR.new cfg email 0 None.

Definition swgoh (cfg : Config.Config) : EA.Connector :=
  EA.new EA.SwgohWebstoreConnector cfg email true 0 None.

(** A mailbox that holds one old mail at the baseline and, from the first
    poll on, the verification mail above it. *)
Definition verification_mailbox : Gmail.Mailbox :=
  {| Gmail.get_messages := fun n =>
       match n with
       | O => Some ["m0"]
       | S _ => Some ["m1"; "m0"]
       end;
     Gmail.get_message_details := fun i =>
       if String.eqb i "m1"
       then Some {| Gmail.receiver := Some "Player <player@example.com>";
                    Gmail.subject := Some "Verification Code For EA - 123456" |}
       else Some {| Gmail.receiver := Some email;
                    Gmail.subject := Some "Welcome" |} |}.

(** A LotR store whose first reply is 401, whose next two replies accept the
    login, and whose fourth reply has the status [retried]. *)
Definition expired_session (retried : Z) : LotR.Env :=
  {| LotR.http := fun n =>
       match n with
       | O => Returned (lotr_response 401)
       | 3%nat => Returned (lotr_response retried)
       | _ => Returned (lotr_response 200)
       end;
     LotR.uuid4 := fun _ => "00000000-0000-4000-8000-000000000000";
     LotR.mailbox := verification_mailbox;
     LotR.clock_range := fun _ _ => Returned tt;
     LotR.pickle_load := pickle_load;
     LotR.pickle_dump := pickle_dump |}.

(** The deliveries seen through [verification_mailbox]: the verification
    mail arrives before the first poll, nothing after it. *)
Definition delivered (j : nat) : list string :=
  match j with
  | 1%nat => ["m1"]
  | _ => []
  end.

(** A LotR store that accepts every request, with [verification_mailbox]. *)
Definition login_env : LotR.Env :=
  {| LotR.http := fun _ => Returned (lotr_response 200);
     LotR.uuid4 := fun _ => "00000000-0000-4000-8000-000000000000";
     LotR.mailbox := verification_mailbox;
     LotR.clock_range := fun _ _ => Returned tt;
     LotR.pickle_load := pickle_load;
     LotR.pickle_dump := pickle_dump |}.

(** The EA sign-in as the base connector sees it when no mail arrives: the
    pages answer 200, the reply to the submitted code redirects with an access
    code, and the operator types "123456" when asked. *)
Definition operator_env : EA.Env :=
  {| EA.http := fun n =>
       match n with
       | 3%nat => Returned (swgoh_response 200 (Some "access-1"))
       | _ => Returned (swgoh_response 200 None)
       end;
     EA.uuid4 := fun _ => "00000000-0000-4000-8000-000000000000";
     EA.mailbox := quiet_mailbox;
     EA.input := fun _ => "123456";
     EA.clock_range := fun _ _ => Returned tt;
     EA.pickle_load := pickle_load;
     EA.pickle_dump := pickle_dump |}.

End Examples.

(** ** What a method leaves untouched *)

Module Frame.
Import Py.

(** An action keeps the relation [R] between the state it starts in and the
    state it ends in, whether it returns or raises. *)
Definition keeps {S A} (R : S -> S -> Prop) (m : M S A) : Prop :=
  forall s, R s (snd (m s)).

(** The scheduler and the configuration are as before. *)
Definition lotr_same_schedule (c c' : LotR.Connector) : Prop :=
  LotR.scheduler c' = LotR.scheduler c /\ LotR.config c' = LotR.config c.

Definition ea_same_schedule (c c' : EA.Connector) : Prop :=
  EA.scheduler c' = EA.scheduler c /\ EA.config c' = EA.config c
  /\ EA.class c' = EA.class c.

(** No request was sent. *)
Definition lotr_same_requests (c c' : LotR.Connector) : Prop :=
  LotR.requests c' = LotR.requests c.

Definition ea_same_requests (c c' : EA.Connector) : Prop :=
  EA.requests c' = EA.requests c.

(** Manual mode: both scheduling options read as false. *)
Definition manual (cfg : Config.Config) : Prop :=
  Config.is_self_scheduling cfg = Returned false
  /\ Config.allow_scheduling cfg = Returned false.

(** From a connector in manual mode, the scheduler and the configuration
    stay as they are. *)
Definition lotr_manual_frame (c c' : LotR.Connector) : Prop :=
  manual (LotR.config c) -> lotr_same_schedule c c'.

(** The sequence numbers of the pending events are distinct and below the
    counter. *)
Definition fresh (s : Sched.scheduler) : Prop :=
  Forall (fun e => (Sched.sequence e < Sched._sequence_generator s)%nat)
         (Sched._queue s)
  /\ NoDup (map Sched.sequence (Sched._queue s)).

(** [s'] is [s] after some calls of [enter] and [enterabs]. *)
Definition sched_grows (s s' : Sched.scheduler) : Prop :=
  exists l,
    Sched._queue s' = (Sched._queue s ++ l)%list
    /\ Sched._sequence_generator s'
       = (Sched._sequence_generator s + length l)%nat
    /\ map Sched.sequence l = seq (Sched._sequence_generator s) (length l).

Definition lotr_grows (c c' : LotR.Connector) : Prop :=
  LotR.config c' = LotR.config c
  /\ sched_grows (LotR.scheduler c) (LotR.scheduler c').

Definition has_ping (s : Sched.scheduler) : Prop :=
  exists p, In p (Sched._queue s) /\ Sched.action p = Sched.Act_schedule_ping.

(** A self-scheduling connector whose queue holds the ping task. *)
Definition standing (c : LotR.Connector) : Prop :=
  Config.is_self_scheduling (LotR.config c) = Returned true
  /\ fresh (LotR.scheduler c)
  /\ has_ping (LotR.scheduler c).

End Frame.

(** ** Requests, events and offers that the properties name *)

Module Obs.
Import Py.

(** The body of the purchase request. *)
Definition purchase_body (item_id currency_type request_id : string)
  : list (string * string) :=
  [("countryCode", "DE"); ("currencyCode", "EUR");
   ("currencyType", currency_type); ("purchasePrice", "0");
   ("itemId", item_id); ("quantity", "1"); ("requestId", request_id)].

(** What the three status branches shared by [get_offers] and
    [purchase_offer] give for a reply whose body decodes to [decoded]. *)
Definition by_status {A} (status : Z) (decoded : result A) : result (option A) :=
  if status =? 200 then rbind decoded (fun d => Returned (Some d))
  else if status =? 401 then Returned None
  else Raised NotImplementedError.

(** The request of [purchase_offer], of either connector, as the [n]-th
    request of the process. *)
Definition lotr_purchase_request (env : LotR.Env) (n : nat)
    (item_id currency_type : string) : Requests.Request :=
  {| Requests.meth := Requests.POST;
     Requests.url := LotR.BASE_URL ++ "/store/purchase";
     Requests.headers := LotR.default_headers;
     Requests.body := purchase_body item_id currency_type (LotR.uuid4 env n) |}.

Definition ea_purchase_request (env : EA.Env) (c : EA.Connector)
    (item_id currency_type : string) : Requests.Request :=
  {| Requests.meth := Requests.POST;
     Requests.url := EA.BASE_URL (EA.class c) ++ "/store/purchase";
     Requests.headers :=
       if truthy (EA.auth_id c)
       then [("X-Rpc-Auth-Id", match EA.auth_id c with Some i => i | None => "" end);
             ("Accept-Language", "DE")]
       else [("Accept-Language", "DE")];
     Requests.body :=
       purchase_body item_id currency_type
         (EA.uuid4 env (length (EA.requests c))) |}.

(** The item id that a request carries. *)
Definition item_of (r : Requests.Request) : option string :=
  Sched.dict_get "itemId" (Requests.body r).

(** The request of [LotRWebstoreConnector.get_offers]. *)
Definition offers_request : Requests.Request :=
  {| Requests.meth := Requests.GET;
     Requests.url := LotR.BASE_URL ++ "/store/offers?countryCode=";
     Requests.headers := LotR.default_headers;
     Requests.body := [] |}.

(** The probe of the connectivity check. *)
Definition probe : Requests.Request :=
  {| Requests.meth := Requests.GET; Requests.url := "https://google.com";
     Requests.headers := []; Requests.body := [] |}.

(** The request of [_finish_login] for the access code [code]. *)
Definition access_code_request (code : string) : Requests.Request :=
  {| Requests.meth := Requests.POST;
     Requests.url :=
       "https://store.galaxy-of-heroes.starwars.ea.com/auth/access_code";
     Requests.headers := [];
     Requests.body :=
       [("access_code", code);
        ("redirect_uri", "https://store.galaxy-of-heroes.starwars.ea.com")] |}.

(** The three requests of [_perform_login]: the sign-in page, the e-mail
    address, the one-time code. *)
Definition signin_request (url : string) : Requests.Request :=
  {| Requests.meth := Requests.GET; Requests.url := url;
     Requests.headers := []; Requests.body := [] |}.

Definition email_request (url email : string) : Requests.Request :=
  {| Requests.meth := Requests.POST; Requests.url := url;
     Requests.headers := [];
     Requests.body :=
       [("email", email); ("_eventId", "submit");
        ("thirdPartyCaptchaResponse", "");
        ("_rememberMe", "on"); ("rememberMe", "on")] |}.

Definition code_request (url code : string) : Requests.Request :=
  {| Requests.meth := Requests.POST; Requests.url := url;
     Requests.headers := [];
     Requests.body := [("oneTimeCode", code); ("_eventId", "submit")] |}.

(** What [_perform_login] makes of the reply to the one-time code. *)
Definition access_code_of (reply : result EA.Response) : result string :=
  rbind reply (fun response =>
  if negb (EA.status_code response =? 200)
  then Raised (Exception "Failed to submit code")
  else match EA.query_code response with
       | None => Raised (Exception "Failed to get code in redirect location")
       | Some access_code => Returned access_code
       end).

(** The two lines that the console shows when the operator is asked. *)
Definition operator_prompt : list string :=
  ["Failed to get code from Gmail account."; "Enter the code: "].

(** The exceptions that the connectivity check swallows. *)
Definition swallowed (r : result unit) : result unit :=
  match r with
  | Raised RequestConnectionError | Raised RequestTimeout => Returned tt
  | _ => r
  end.

(** [a] is due no later than [b]. *)
Definition due_before (a b : Sched.Event) : Prop :=
  (Sched.time a <= Sched.time b)%Q.

(** The Purchase task that [schedule_purchase] enters. *)
Definition purchase_event (time : Q) (sequence : nat)
    (item_id currency_type : string) : Sched.Event :=
  {| Sched.time := time; Sched.priority := 1; Sched.sequence := sequence;
     Sched.action := Sched.Act_purchase_offer;
     Sched.kwargs := [("item_id", item_id); ("currency_type", currency_type)] |}.

(** The two standing tasks. *)
Definition ping_event (time : Q) (sequence : nat) : Sched.Event :=
  {| Sched.time := time; Sched.priority := 1; Sched.sequence := sequence;
     Sched.action := Sched.Act_schedule_ping; Sched.kwargs := [] |}.

Definition connection_check_event (time : Q) (sequence : nat) : Sched.Event :=
  {| Sched.time := time; Sched.priority := 1; Sched.sequence := sequence;
     Sched.action := Sched.Act_schedule_connection_check; Sched.kwargs := [] |}.

End Obs.

(** ** [LotRWebstoreConnector.get_free_offers] *)

Module LotRMore.
Import Py.
Local Open Scope py_scope.

(** [for ws_offer in offers.web_store_offers] of [get_free_offers], with the
    list [free_offers] built so far. *)
Fixpoint free_offers_loop (offers free_offers : list LotR.WebStoreOffer)
  : M LotR.Connector (list LotR.WebStoreOffer) :=
  match offers with
  | [] => ret free_offers
  | ws_offer :: offers' =>
      let offer := LotR.offer ws_offer in
      if negb (LotR.is_free_offer offer) then free_offers_loop offers' free_offers
      else
        LotR.logger Logging.INFO "FreeOffer found: %s"
          [Logging.VStr (LotR.title (LotR.item ws_offer))] ;;;
        if negb (Qle_bool (LotR.purchase_amount (LotR.price offer)) 0) then
          LotR.logger Logging.WARNING
            "Free Offer without Free price found! Please investigate..." [] ;;;
          free_offers_loop offers' free_offers
        else free_offers_loop offers' (free_offers ++ [ws_offer])
  end.

Definition get_free_offers (env : LotR.Env)
  : M LotR.Connector (list LotR.WebStoreOffer) :=
  e <- gets LotR.email ;;
  LotR.logger Logging.INFO "Search free offers for account: %s" [Logging.VStr e] ;;;
  offers <- LotR.get_offers env ;;
  offers <- (match offers with
             | None => LotR.login env ;;; LotR.get_offers env
             | Some _ => ret offers
             end) ;;
  match offers with
  | None => raise AttributeError
  | Some data => free_offers_loop (LotR.web_store_offers data) []
  end.

(** An offer that [get_free_offers] keeps: free, without a positive price. *)
Definition listed (ws_offer : LotR.WebStoreOffer) : bool :=
  LotR.is_free_offer (LotR.offer ws_offer)
  && Qle_bool (LotR.purchase_amount (LotR.price (LotR.offer ws_offer))) 0.

(** An offer that the run cycle buys at once: free, without a positive
    price, no cooldown left. *)
Definition due (ws_offer : LotR.WebStoreOffer) : bool :=
  let offer := LotR.offer ws_offer in
  LotR.is_free_offer offer
  && Qle_bool (LotR.purchase_amount (LotR.price offer)) 0
  && (LotR.purchase_cooldown_left offer =? 0).

End LotRMore.

(** ** The items that [SwgohWebstoreConnector._handle_offers] buys *)

Module SwgohMore.

(** [free_offers.pop(0)], [None] when the list is empty. *)
Definition first_free (item : SwgohTypes.StoreItem) : option SwgohTypes.Offer :=
  hd_error (filter (fun o => String.eqb (SwgohTypes.currencyType o) "FREE")
                   (SwgohTypes.offers item)).

(** An item that the cycle buys at once: it has a free offer, its three
    timestamps convert to dates, the time is within its start and end, and
    the offer is available. *)
Definition ready (now : Q) (item : SwgohTypes.StoreItem) : bool :=
  match first_free item with
  | None => false
  | Some free_offer =>
      match EA.fromtimestamp (SwgohTypes.startTime item),
            EA.fromtimestamp (SwgohTypes.endTime item),
            SwgohTypes.availableAtEpoch free_offer with
      | Py.Returned start_time, Py.Returned end_time, Some epoch =>
          match EA.fromtimestamp epoch with
          | Py.Returned available_at =>
              Qle_bool start_time now && Qle_bool now end_time
              && Qle_bool available_at now
          | Py.Raised _ => false
          end
      | _, _, _ => false
      end
  end.

(** The offer, and the item, with every price [p] replaced by [f p]. *)
Definition with_price (f : Z -> Z) (o : SwgohTypes.Offer) : SwgohTypes.Offer :=
  {| SwgohTypes.currencyType := SwgohTypes.currencyType o;
     SwgohTypes.price := f (SwgohTypes.price o);
     SwgohTypes.availableAtEpoch := SwgohTypes.availableAtEpoch o |}.

Definition with_prices (f : Z -> Z) (item : SwgohTypes.StoreItem)
  : SwgohTypes.StoreItem :=
  {| SwgohTypes.id := SwgohTypes.id item;
     SwgohTypes.name := SwgohTypes.name item;
     SwgohTypes.offers := map (with_price f) (SwgohTypes.offers item);
     SwgohTypes.startTime := SwgohTypes.startTime item;
     SwgohTypes.endTime := SwgohTypes.endTime item |}.

End SwgohMore.

(** ** gmail/types.py: the headers of a message *)

Module GmailTypes.
Import Py.

(** [d[key] = value] on a [dict]: the value of a key that is present is
    replaced in place, a new key goes to the end. *)
Fixpoint dict_set (key value : string) (d : Sched.dict) : Sched.dict :=
  match d with
  | [] => [(key, value)]
  | (k, v) :: d' =>
      if String.eqb key k then (k, value) :: d'
      else (k, v) :: dict_set key value d'
  end.

(** The dict comprehension over [header["name"]] and [header["value"]] for
    [header in headers], from the dictionary [d] built so far. *)
Fixpoint comprehension (headers : list Sched.dict) (d : Sched.dict)
  : result Sched.dict :=
  match headers with
  | [] => Returned d
  | header :: headers' =>
      match Sched.dict_get "name" header with
      | None => Raised KeyError
      | Some name =>
          match Sched.dict_get "value" header with
          | None => Raised KeyError
          | Some value => comprehension headers' (dict_set name value d)
          end
      end
  end.

(** [GmailEmailHeaders.__init__], giving [self._headers]. *)
Definition GmailEmailHeaders (headers : list Sched.dict) : result Sched.dict :=
  comprehension headers [].

Definition subject (_headers : Sched.dict) : option string :=
  Sched.dict_get "Subject" _headers.

Definition sender (_headers : Sched.dict) : option string :=
  Sched.dict_get "From" _headers.

Definition receiver (_headers : Sched.dict) : option string :=
  Sched.dict_get "To" _headers.

Definition date (_headers : Sched.dict) : option string :=
  Sched.dict_get "Date" _headers.

(** [GmailMessageWrapper(data)] for a message whose payload carries
    [headers], through the two properties that the connectors read. *)
Definition GmailMessageWrapper (headers : list Sched.dict)
  : result Gmail.GmailMessageWrapper :=
  rbind (GmailEmailHeaders headers) (fun h =>
  Returned {| Gmail.receiver := receiver h; Gmail.subject := subject h |}).

(** The header is named [name]. *)
Definition named (name : string) (header : Sched.dict) : bool :=
  match Sched.dict_get "name" header with
  | Some n => String.eqb n name
  | None => false
  end.

(** A mail that carries the verification code [code] for the account
    [email]. *)
Definition verification_mail (email code : string)
    (m : Gmail.GmailMessageWrapper) : Prop :=
  exists r sep tail,
    Gmail.receiver m = Some r /\ r <> "" /\ Str.contains email r = true
    /\ Gmail.subject m = Some ("Verification Code For EA" ++ sep ++ code ++ tail)
    /\ Spec.no_digit sep = true /\ Spec.all_digits code = true /\ code <> ""
    /\ (tail = "" \/ tail = Str.newline).

End GmailTypes.

(** ** Sample offers and stores *)

Module Samples.
Import Py.

Definition lotr_offer (id : string) (free : bool) (amount : Q) (cooldown : Z)
  : LotR.WebStoreOffer :=
  {| LotR.offer :=
       {| LotR.id := id;
          LotR.price := {| LotR.purchase_currency := "FREE";
                           LotR.purchase_amount := amount |};
          LotR.is_free_offer := free;
          LotR.purchase_cooldown_left := cooldown |};
     LotR.item := {| LotR.title := id |} |}.

(** A free offer that is due, a free offer on cooldown, a priced offer. *)
Definition lotr_offers : list LotR.WebStoreOffer :=
  [lotr_offer "daily" true 0 0; lotr_offer "weekly" true 0 3600;
   lotr_offer "gems" false 5 0].

(** A LotR store that lists [lotr_offers] and accepts every request. *)
Definition lotr_store : LotR.Env :=
  Examples.lotr_env (fun _ =>
    Returned {| LotR.status_code := 200; LotR.text := ""; LotR.cookies := [];
                LotR.as_StoreData :=
                  Returned {| LotR.web_store_offers := lotr_offers |};
                LotR.json := Returned {| LotR.itemsGranted := Some [] |} |}).

Definition swgoh_item (id currency : string) (start_time end_time : Z)
    (available_at : option Z) : SwgohTypes.StoreItem :=
  {| SwgohTypes.id := id; SwgohTypes.name := id;
     SwgohTypes.offers := [ {| SwgohTypes.currencyType := currency;
                               SwgohTypes.price := 0;
                               SwgohTypes.availableAtEpoch := available_at |} ];
     SwgohTypes.startTime := start_time; SwgohTypes.endTime := end_time |}.

(** At time 1000: an item to buy now, an item available later, an item
    that has expired, an item without a free offer. *)
Definition swgoh_items : list SwgohTypes.StoreItem :=
  [swgoh_item "daily" "FREE" 0 5000 (Some 900);
   swgoh_item "later" "FREE" 0 5000 (Some 4000);
   swgoh_item "gone" "FREE" 0 500 (Some 100);
   swgoh_item "crystals" "PREMIUM" 0 5000 (Some 0)].

(** An item whose FREE offer carries the price [price]. *)
Definition swgoh_priced (price : Z) (available_at : option Z)
  : SwgohTypes.StoreItem :=
  {| SwgohTypes.id := "X"; SwgohTypes.name := "Daily gift";
     SwgohTypes.offers := [ {| SwgohTypes.currencyType := "FREE";
                               SwgohTypes.price := price;
                               SwgohTypes.availableAtEpoch := available_at |} ];
     SwgohTypes.startTime := 0; SwgohTypes.endTime := 5000 |}.

(** The LotR offer that is free and carries the price [amount]. *)
Definition lotr_priced (amount : Q) : LotR.WebStoreOffer :=
  {| LotR.offer :=
       {| LotR.id := "X";
          LotR.price := {| LotR.purchase_currency := "PREMIUM";
                           LotR.purchase_amount := amount |};
          LotR.is_free_offer := true;
          LotR.purchase_cooldown_left := 0 |};
     LotR.item := {| LotR.title := "Daily gift" |} |}.

(** A Swgoh connector at time 1000, in manual mode. *)
Definition swgoh_at_1000 : EA.Connector :=
  EA.new EA.SwgohWebstoreConnector (Examples.config false false 0 2)
    Examples.email true 1000 None.

(** The headers of a mail in which [Subject] occurs twice. *)
Definition headers : list Sched.dict :=
  [ [("name", "To"); ("value", "player@example.com")];
    [("name", "Subject"); ("value", "first")];
    [("name", "Subject"); ("value", "Verification Code For EA: 123456")] ].

End Samples.

(* ================================================================== *)
(** * Properties *)

(** ** Configuration *)

Module ConfigFacts.
Import Py Config.

Lemma valiate_both (c : Config) :
  is_self_scheduling c = Returned true ->
  allow_scheduling c = Returned true ->
  valiate c = Raised SchedulingConflictError.
Proof.
  intros Hs Ha. unfold valiate. rewrite Hs. simpl. rewrite Ha. reflexivity.
Qed.

Lemma valiate_not_self (c : Config) :
  is_self_scheduling c = Returned false -> valiate c = Returned tt.
Proof.
  intros Hs. unfold valiate. rewrite Hs. reflexivity.
Qed.

Lemma valiate_not_allow (c : Config) :
  is_self_scheduling c = Returned true ->
  allow_scheduling c = Returned false ->
  valiate c = Returned tt.
Proof.
  intros Hs Ha. unfold valiate. rewrite Hs. simpl. rewrite Ha. reflexivity.
Qed.

(** The check reads [allow_scheduling] only when self-scheduling is on: a
    file whose [allow_scheduling] cannot be converted still loads when
    [script_is_self_scheduling] is false. *)
Lemma valiate_short_circuit (c : Config) :
  is_self_scheduling c = Returned false ->
  allow_scheduling c = Raised ValueError ->
  valiate c = Returned tt.
Proof.
  intros Hs _. now apply valiate_not_self.
Qed.

(** An instance passed to [load_config] is returned as it is, unchecked. *)
Lemma load_config_instance (fs : files) (c : Config) :
  load_config fs (ArgConfig c) = Returned (Some c).
Proof. reflexivity. Qed.

(** C9. A configuration file in which [script_is_self_scheduling] and
    [allow_scheduling] are both true makes [Config.load_config] raise
    [SchedulingConflictError], and [main] ends with that exception before a
    connector exists, hence before any run cycle; a file in which at most one
    of the two is true loads and yields its [Config]. *)
Theorem C9_scheduling_conflict_rejected_at_load
    (w : Cli.World) (email path : string) (cp : ConfigParser) (a b : bool)
    (depth steps : nat) :
  Cli.files w path = Returned cp ->
  is_self_scheduling {| config := cp; file_path := path |} = Returned a ->
  allow_scheduling {| config := cp; file_path := path |} = Returned b ->
  (a && b = true ->
     load_config (Cli.files w) (ArgStr path) = Raised SchedulingConflictError
     /\ Cli.main w email path depth steps
        = (Raised SchedulingConflictError, None))
  /\ (a && b = false ->
     load_config (Cli.files w) (ArgStr path)
     = Returned (Some {| config := cp; file_path := path |})).
Proof.
  intros Hfs Hs Ha. split; intros Hab.
  - apply andb_true_iff in Hab as [-> ->].
    assert (L : load_config (Cli.files w) (ArgStr path)
                = Raised SchedulingConflictError).
    { unfold load_config, init. rewrite Hfs. simpl.
      rewrite (valiate_both _ Hs Ha). reflexivity. }
    split; [exact L|].
    unfold Cli.main, load_global_config. rewrite L. reflexivity.
  - unfold load_config, init. rewrite Hfs. simpl.
    destruct a.
    + simpl in Hab. subst b. rewrite (valiate_not_allow _ Hs Ha). reflexivity.
    + rewrite (valiate_not_self _ Hs). reflexivity.
Qed.

Lemma C9_witness :
  load_config (Cli.files Examples.conflicting_world) (ArgStr "config.ini")
  = Raised SchedulingConflictError
  /\ Cli.main Examples.conflicting_world Examples.email "config.ini" 3 3
     = (Raised SchedulingConflictError, None).
Proof.
  apply (proj1 (C9_scheduling_conflict_rejected_at_load
                  Examples.conflicting_world Examples.email "config.ini"
                  (Examples.parser true true 0 2) true true 3 3
                  eq_refl eq_refl eq_refl)).
  reflexivity.
Defined.

End ConfigFacts.

(** ** The monad *)

Module MonadFacts.
Import Py.

Lemma bind_returned {S A B} (m : M S A) (k : A -> M S B) (s s' : S) (a : A) :
  m s = (Returned a, s') -> bind m k s = k a s'.
Proof. intros H. unfold bind. rewrite H. reflexivity. Qed.

Lemma bind_raised {S A B} (m : M S A) (k : A -> M S B) (s s' : S) (e : exn) :
  m s = (Raised e, s') -> bind m k s = (Raised e, s').
Proof. intros H. unfold bind. rewrite H. reflexivity. Qed.

Lemma bind_ret {S A B} (a : A) (k : A -> M S B) (s : S) :
  bind (ret a) k s = k a s.
Proof. reflexivity. Qed.

Lemma bind_assoc {S A B C} (m : M S A) (k : A -> M S B) (h : B -> M S C) (s : S) :
  bind (bind m k) h s = bind m (fun a => bind (k a) h) s.
Proof.
  unfold bind. destruct (m s) as [[a|e] s']; reflexivity.
Qed.

End MonadFacts.

(** ** [time.sleep] *)

Module ClockFacts.
Import Py.

(** A sleep that the platform holds and whose length is not negative
    returns, and the clock has moved on by that length. *)
Lemma LotR_sleep_runs (env : LotR.Env) (t : Q) (c : LotR.Connector) :
  Spec.lotr_sleeps env t ->
  LotR.sleep env t c = (Returned tt, LotR.set_time (LotR.time c + t)%Q c).
Proof.
  intros [H Hc]. unfold LotR.sleep, bind, gets, lift. rewrite Hc.
  rewrite (proj2 (Qle_bool_iff 0 t) H). reflexivity.
Qed.

Lemma EA_sleep_runs (env : EA.Env) (t : Q) (c : EA.Connector) :
  Spec.ea_sleeps env t ->
  EA.sleep env t c = (Returned tt, EA.set_time (EA.time c + t)%Q c).
Proof.
  intros [H Hc]. unfold EA.sleep, bind, gets, lift. rewrite Hc.
  rewrite (proj2 (Qle_bool_iff 0 t) H). reflexivity.
Qed.

Lemma negative_is_not_le (t : Q) : (t < 0)%Q -> Qle_bool 0 t = false.
Proof.
  intros H. destruct (Qle_bool 0 t) eqn:E; [|reflexivity].
  apply Qle_bool_iff in E. exfalso. exact (Qlt_not_le _ _ H E).
Qed.

(** A sleep of a negative length never returns: it raises what the platform
    raises for a length that it cannot hold, and [ValueError] otherwise.
    The clock stays. *)
Lemma LotR_sleep_negative (env : LotR.Env) (t : Q) (c : LotR.Connector) :
  (t < 0)%Q ->
  LotR.sleep env t c
  = (match LotR.clock_range env (LotR.time c) t with
     | Returned _ => Raised ValueError
     | Raised e => Raised e
     end, c).
Proof.
  intros H. unfold LotR.sleep, bind, gets, lift.
  destruct (LotR.clock_range env (LotR.time c) t); [|reflexivity].
  rewrite (negative_is_not_le t H). reflexivity.
Qed.

Lemma EA_sleep_negative (env : EA.Env) (t : Q) (c : EA.Connector) :
  (t < 0)%Q ->
  EA.sleep env t c
  = (match EA.clock_range env (EA.time c) t with
     | Returned _ => Raised ValueError
     | Raised e => Raised e
     end, c).
Proof.
  intros H. unfold EA.sleep, bind, gets, lift.
  destruct (EA.clock_range env (EA.time c) t); [|reflexivity].
  rewrite (negative_is_not_le t H). reflexivity.
Qed.

End ClockFacts.

(** ** Purchase and run scheduling *)

Module SchedulingFacts.
Import Py MonadFacts.
Local Open Scope py_scope.

Lemma LotR_scheduling_is_off (c : LotR.Connector) :
  LotR.scheduling_is_off c = (Guards.scheduling_is_off (LotR.config c), c).
Proof.
  unfold LotR.scheduling_is_off, Guards.scheduling_is_off, and_, LotR.cfg,
    bind, ret, rbind.
  destruct (Config.is_self_scheduling (LotR.config c)) as [[|]|];
    simpl; try reflexivity.
  destruct (Config.allow_scheduling (LotR.config c)) as [[|]|]; reflexivity.
Qed.

Lemma LotR_delay_exceeds_max (c : LotR.Connector) (delay : Z) :
  LotR.delay_exceeds_max delay c
  = (Guards.delay_exceeds_max (LotR.config c) delay, c).
Proof.
  unfold LotR.delay_exceeds_max, Guards.delay_exceeds_max, and_, LotR.cfg,
    bind, ret, rbind.
  destruct (Config.allow_scheduling (LotR.config c)) as [[|]|];
    simpl; try reflexivity.
  destruct (Config.max_delay_scheduling_time (LotR.config c)) as [m|] eqn:E;
    simpl; try reflexivity.
  destruct (m >? 0); simpl; rewrite ?E; reflexivity.
Qed.

Lemma EA_scheduling_is_off (c : EA.Connector) :
  EA.scheduling_is_off c = (Guards.scheduling_is_off (EA.config c), c).
Proof.
  unfold EA.scheduling_is_off, Guards.scheduling_is_off, and_, EA.cfg,
    bind, ret, rbind.
  destruct (Config.is_self_scheduling (EA.config c)) as [[|]|];
    simpl; try reflexivity.
  destruct (Config.allow_scheduling (EA.config c)) as [[|]|]; reflexivity.
Qed.

Lemma EA_delay_exceeds_max (c : EA.Connector) (delay : Z) :
  EA.delay_exceeds_max delay c
  = (Guards.delay_exceeds_max (EA.config c) delay, c).
Proof.
  unfold EA.delay_exceeds_max, Guards.delay_exceeds_max, and_, EA.cfg,
    bind, ret, rbind.
  destruct (Config.allow_scheduling (EA.config c)) as [[|]|];
    simpl; try reflexivity.
  destruct (Config.max_delay_scheduling_time (EA.config c)) as [m|] eqn:E;
    simpl; try reflexivity.
  destruct (m >? 0); simpl; rewrite ?E; reflexivity.
Qed.

(** With delay-scheduling on, a positive maximum and a longer delay, the
    first guard is false or raises, and the second is true. *)
Lemma guards_when_delay_too_long (cfg : Config.Config) (X Y : Z) :
  Config.allow_scheduling cfg = Returned true ->
  Config.max_delay_scheduling_time cfg = Returned Y ->
  0 < Y -> Y < X ->
  Guards.scheduling_is_off cfg <> Returned true
  /\ Guards.delay_exceeds_max cfg X = Returned true.
Proof.
  intros Ha Hm HY HX. unfold Guards.scheduling_is_off, Guards.delay_exceeds_max.
  rewrite Ha, Hm. simpl.
  replace (Y >? 0) with true by (symmetry; apply Z.gtb_lt; lia).
  replace (Y <? X) with true by (symmetry; apply Z.ltb_lt; lia).
  split; [|reflexivity].
  destruct (Config.is_self_scheduling cfg) as [[|]|]; simpl; discriminate.
Qed.

(** C6. With delay-scheduling enabled, a configured maximum [Y > 0] and a
    delay [X > Y], [schedule_purchase(X, item_id, currency_type)] leaves the
    scheduler of the connector as it was: nothing is enqueued.  This holds
    for the LotR connector and for the shared base connector. *)
Theorem C6_delay_above_maximum_is_not_enqueued
    (X Y : Z) (item_id currency_type : string) :
  0 < Y -> Y < X ->
  (forall c : LotR.Connector,
      Config.allow_scheduling (LotR.config c) = Returned true ->
      Config.max_delay_scheduling_time (LotR.config c) = Returned Y ->
      LotR.scheduler (snd (LotR.schedule_purchase X item_id currency_type c))
      = LotR.scheduler c)
  /\ (forall c : EA.Connector,
      Config.allow_scheduling (EA.config c) = Returned true ->
      Config.max_delay_scheduling_time (EA.config c) = Returned Y ->
      EA.scheduler (snd (EA.schedule_purchase X item_id currency_type c))
      = EA.scheduler c).
Proof.
  intros HY HX. split; intros c Ha Hm.
  - destruct (guards_when_delay_too_long _ X Y Ha Hm HY HX) as [Hoff Hmax].
    unfold LotR.schedule_purchase. unfold bind at 1.
    rewrite LotR_scheduling_is_off.
    destruct (Guards.scheduling_is_off (LotR.config c)) as [[|]|];
      [congruence| |reflexivity].
    unfold bind at 1. rewrite LotR_delay_exceeds_max, Hmax. reflexivity.
  - destruct (guards_when_delay_too_long _ X Y Ha Hm HY HX) as [Hoff Hmax].
    unfold EA.schedule_purchase. unfold bind at 1.
    rewrite EA_scheduling_is_off.
    destruct (Guards.scheduling_is_off (EA.config c)) as [[|]|];
      [congruence| |reflexivity].
    unfold bind at 1. rewrite EA_delay_exceeds_max, Hmax. reflexivity.
Qed.

Lemma C6_witness :
  LotR.scheduler
    (snd (LotR.schedule_purchase 7200 "X" "FREE"
            (Examples.lotr (Examples.config false true 3600 2))))
  = Sched.new.
Proof.
  apply (proj1 (C6_delay_above_maximum_is_not_enqueued 7200 3600 "X" "FREE"
                  eq_refl eq_refl)); reflexivity.
Defined.

(** What the duplicate check of [schedule_purchase] tests: [item_id in
    queue_entry.kwargs] looks [item_id] up among the keys of the dict.  On a
    queue whose Purchase tasks carry the kwargs that [schedule_purchase]
    gives them, the check succeeds exactly when some Purchase task is queued
    and [item_id] is one of the two key names. *)
Lemma LotR_already_scheduled_tests_keys (item_id : string) (q : list Sched.Event) :
  Forall (fun e => Spec.is_purchase e = true ->
            exists i cur, Sched.kwargs e = [("item_id", i); ("currency_type", cur)]) q ->
  LotR.already_scheduled item_id q
  = existsb Spec.is_purchase q
    && (String.eqb item_id "item_id" || String.eqb item_id "currency_type").
Proof.
  induction 1 as [|e q He _ IH]; [reflexivity|].
  simpl. unfold Spec.is_purchase in *.
  destruct (Sched.Action_eqb (Sched.action e) Sched.Act_purchase_offer); simpl.
  - destruct (He eq_refl) as (i & cur & ->). simpl.
    rewrite orb_false_r.
    destruct (String.eqb item_id "item_id" || String.eqb item_id "currency_type");
      [reflexivity|].
    rewrite IH. apply andb_false_r.
  - exact IH.
Qed.

Lemma EA_already_scheduled_tests_keys (item_id : string) (q : list Sched.Event) :
  Forall (fun e => Spec.is_purchase e = true ->
            exists i cur, Sched.kwargs e = [("item_id", i); ("currency_type", cur)]) q ->
  EA.already_scheduled item_id q
  = existsb Spec.is_purchase q
    && (String.eqb item_id "item_id" || String.eqb item_id "currency_type").
Proof.
  induction 1 as [|e q He _ IH]; [reflexivity|].
  simpl. unfold Spec.is_purchase in *.
  destruct (Sched.Action_eqb (Sched.action e) Sched.Act_purchase_offer); simpl.
  - destruct (He eq_refl) as (i & cur & ->). simpl.
    rewrite orb_false_r.
    destruct (String.eqb item_id "item_id" || String.eqb item_id "currency_type");
      [reflexivity|].
    rewrite IH. apply andb_false_r.
  - exact IH.
Qed.

Lemma count_insert (p : Sched.Event -> bool) (e : Sched.Event) (l : list Sched.Event) :
  length (filter p (Sched.insert e l)) = length (filter p (e :: l)).
Proof.
  induction l as [|x l IH]; [reflexivity|].
  simpl. destruct (Sched.Event_lt e x); [reflexivity|].
  simpl in *. destruct (p x); simpl; rewrite IH; destruct (p e); simpl; lia.
Qed.

Lemma count_sorted (p : Sched.Event -> bool) (l acc : list Sched.Event) :
  length (filter p (fold_right Sched.insert acc l))
  = (length (filter p l) + length (filter p acc))%nat.
Proof.
  induction l as [|x l IH]; [reflexivity|].
  simpl fold_right. rewrite count_insert. simpl.
  destruct (p x); simpl; rewrite IH; reflexivity.
Qed.

(** Entering an event adds it to what [queue] shows, whatever its place. *)
Lemma count_queue_enterabs (p : Sched.Event -> bool) (s : Sched.scheduler)
    (t : Q) (pr : Z) (a : Sched.Action) (kw : Sched.dict) :
  length (filter p (Sched.queue (Sched.enterabs t pr a kw s)))
  = (length (filter p (Sched.queue s))
     + if p {| Sched.time := t; Sched.priority := pr;
               Sched.sequence := Sched._sequence_generator s;
               Sched.action := a; Sched.kwargs := kw |} then 1 else 0)%nat.
Proof.
  unfold Sched.queue, Sched.enterabs. simpl Sched._queue.
  rewrite fold_right_app, !count_sorted. simpl.
  destruct (p _); simpl; lia.
Qed.

(** Hence, on a queue of tasks entered by the connector, with scheduling on
    and the delay accepted, every call of [schedule_purchase] for an item id
    other than the two key names adds a Purchase task for it, whether or not
    one is queued already. *)
Lemma LotR_schedule_purchase_enqueues_again (c : LotR.Connector) (delay : Z)
    (item_id currency_type : string) :
  Guards.scheduling_is_off (LotR.config c) = Returned false ->
  Guards.delay_exceeds_max (LotR.config c) delay = Returned false ->
  Forall (fun e => Spec.is_purchase e = true ->
            exists i cur, Sched.kwargs e = [("item_id", i); ("currency_type", cur)])
         (Sched.queue (LotR.scheduler c)) ->
  item_id <> "item_id" -> item_id <> "currency_type" ->
  Spec.purchase_tasks item_id
    (Sched.queue (LotR.scheduler (snd (LotR.schedule_purchase delay item_id currency_type c))))
  = S (Spec.purchase_tasks item_id (Sched.queue (LotR.scheduler c))).
Proof.
  intros Hoff Hmax Hwf H1 H2.
  unfold LotR.schedule_purchase. unfold bind at 1.
  rewrite LotR_scheduling_is_off, Hoff.
  unfold bind at 1. rewrite LotR_delay_exceeds_max, Hmax.
  unfold bind at 1, gets at 1.
  rewrite (LotR_already_scheduled_tests_keys _ _ Hwf).
  apply String.eqb_neq in H1, H2. rewrite H1, H2, andb_false_r.
  unfold LotR.enter, LotR.logger, bind, modify. simpl.
  unfold Spec.purchase_tasks, Sched.enter.
  rewrite count_queue_enterabs. unfold Spec.is_purchase_of at 2. simpl.
  rewrite String.eqb_refl. simpl. lia.
Qed.

(** C1. In self-scheduling mode, on an empty queue, two calls of
    [schedule_purchase(3600, "X", "FREE")] leave two Purchase tasks for "X"
    in the queue and log no warning, in the LotR connector and in the base
    connector alike; the one call before them had queued one task. *)
Theorem C1_second_schedule_purchase_enqueues_again :
  let lotr0 := Examples.lotr (Examples.config true false 0 2) in
  let lotr1 := snd (LotR.schedule_purchase 3600 "X" "FREE" lotr0) in
  let lotr2 := snd (LotR.schedule_purchase 3600 "X" "FREE" lotr1) in
  let ea0 := Examples.swgoh (Examples.config true false 0 2) in
  let ea1 := snd (EA.schedule_purchase 3600 "X" "FREE" ea0) in
  let ea2 := snd (EA.schedule_purchase 3600 "X" "FREE" ea1) in
  let warning := "Item already scheduled, skipping scheduling of item %s" in
  (Spec.purchase_tasks "X" (Sched.queue (LotR.scheduler lotr1)) = 1%nat
   /\ Spec.purchase_tasks "X" (Sched.queue (LotR.scheduler lotr2)) = 2%nat
   /\ Spec.logged warning (LotR.log lotr2) = false)
  /\ (Spec.purchase_tasks "X" (Sched.queue (EA.scheduler ea1)) = 1%nat
   /\ Spec.purchase_tasks "X" (Sched.queue (EA.scheduler ea2)) = 2%nat
   /\ Spec.logged warning (EA.log ea2) = false).
Proof.
  vm_compute. repeat split.
Qed.

(** The only item ids for which the second call is suppressed are the two
    key names themselves. *)
Lemma LotR_duplicate_check_hits_key_names :
  let lotr0 := Examples.lotr (Examples.config true false 0 2) in
  let twice item_id :=
    snd (LotR.schedule_purchase 3600 item_id "FREE"
           (snd (LotR.schedule_purchase 3600 item_id "FREE" lotr0))) in
  Spec.purchase_tasks "item_id" (Sched.queue (LotR.scheduler (twice "item_id")))
  = 1%nat
  /\ Spec.logged "Item already scheduled, skipping scheduling of item %s"
       (LotR.log (twice "item_id")) = true.
Proof.
  vm_compute. split; reflexivity.
Qed.

Lemma LotR_purchase_queue_none (q : list Sched.Event) :
  existsb Spec.is_purchase q = false -> LotR.purchase_queue q = None.
Proof.
  induction q as [|e q IH]; [reflexivity|].
  simpl. unfold Spec.is_purchase at 1.
  destruct (Sched.Action_eqb (Sched.action e) Sched.Act_purchase_offer);
    simpl; [discriminate|exact IH].
Qed.

Lemma EA_purchase_queue_none (q : list Sched.Event) :
  existsb Spec.is_purchase q = false -> EA.purchase_queue q = None.
Proof.
  induction q as [|e q IH]; [reflexivity|].
  simpl. unfold Spec.is_purchase at 1.
  destruct (Sched.Action_eqb (Sched.action e) Sched.Act_purchase_offer);
    simpl; [discriminate|exact IH].
Qed.

Lemma guard_off_in_delay_mode (cfg : Config.Config) :
  Config.is_self_scheduling cfg = Returned false ->
  Config.allow_scheduling cfg = Returned true ->
  Guards.scheduling_is_off cfg = Returned false.
Proof.
  intros Hs Ha. unfold Guards.scheduling_is_off. rewrite Hs. simpl.
  rewrite Ha. reflexivity.
Qed.

(** In delay-scheduling mode with no Purchase task queued, the base
    connector's [schedule_run(False)] returns at once and changes nothing. *)
Lemma EA_schedule_run_idle_in_delay_mode (c : EA.Connector) (run : M EA.Connector unit) :
  Config.is_self_scheduling (EA.config c) = Returned false ->
  Config.allow_scheduling (EA.config c) = Returned true ->
  existsb Spec.is_purchase (Sched.queue (EA.scheduler c)) = false ->
  EA.schedule_run run false c = (Returned tt, c).
Proof.
  intros Hs Ha Hq. unfold EA.schedule_run. unfold bind at 1.
  rewrite EA_scheduling_is_off, (guard_off_in_delay_mode _ Hs Ha).
  unfold bind at 1, gets. rewrite (EA_purchase_queue_none _ Hq).
  unfold bind, EA.cfg. rewrite Ha. reflexivity.
Qed.

(** In the same situation the LotR connector's [schedule_run(False)] enters
    a [run] one hour ahead. *)
Lemma LotR_schedule_run_fallback_in_delay_mode (c : LotR.Connector)
    (run : M LotR.Connector unit) :
  Config.is_self_scheduling (LotR.config c) = Returned false ->
  Config.allow_scheduling (LotR.config c) = Returned true ->
  existsb Spec.is_purchase (Sched.queue (LotR.scheduler c)) = false ->
  LotR.scheduler (snd (LotR.schedule_run run false c))
  = Sched.enter (LotR.time c) 3600 1 Sched.Act_run [] (LotR.scheduler c).
Proof.
  intros Hs Ha Hq. unfold LotR.schedule_run. unfold bind at 1.
  rewrite LotR_scheduling_is_off, (guard_off_in_delay_mode _ Hs Ha).
  unfold bind at 1, gets. rewrite (LotR_purchase_queue_none _ Hq).
  reflexivity.
Qed.

(** C7. With delay-scheduling on, self-scheduling off, an empty queue and
    [run_directly] false, the LotR connector's [schedule_run] enqueues a run
    cycle 3600 seconds ahead, while the base connector's [schedule_run]
    leaves the queue empty. *)
Theorem C7_LotR_delay_mode_enqueues_fallback_run :
  let cfg := Examples.config false true 0 2 in
  let env := Examples.lotr_env (fun _ => Returned (Examples.lotr_response 200)) in
  let env' := Examples.swgoh_env (fun _ => Returned (Examples.swgoh_response 200 None)) in
  let lotr := snd (LotR.schedule_run (LotR.run env 3) false (Examples.lotr cfg)) in
  let ea := snd (EA.schedule_run (EA.run env' 3) false (Examples.swgoh cfg)) in
  Sched.queue (LotR.scheduler (Examples.lotr cfg)) = []
  /\ Sched.queue (LotR.scheduler lotr)
     = [ {| Sched.time := 3600; Sched.priority := 1; Sched.sequence := 0;
            Sched.action := Sched.Act_run; Sched.kwargs := [] |} ]
  /\ Sched.queue (EA.scheduler ea) = [].
Proof.
  vm_compute. repeat split.
Qed.

End SchedulingFacts.

(** ** The offer client *)

Module OfferClientFacts.
Import Py MonadFacts.
Local Open Scope py_scope.

(** The result of [get_offers] as a function of the reply to its request. *)
Lemma LotR_get_offers_result (env : LotR.Env) (c : LotR.Connector)
    (response : LotR.Response) :
  LotR.http env (length (LotR.requests c)) = Returned response ->
  fst (LotR.get_offers env c)
  = if LotR.status_code response =? 200
    then rbind (LotR.as_StoreData response) (fun d => Returned (Some d))
    else if LotR.status_code response =? 401 then Returned None
    else Raised NotImplementedError.
Proof.
  intros H.
  unfold LotR.get_offers, LotR.send, LotR.logger, bind, gets, modify, lift, ret,
    raise.
  simpl. rewrite H. simpl.
  destruct (LotR.status_code response =? 200).
  - destruct (LotR.as_StoreData response); reflexivity.
  - destruct (LotR.status_code response =? 401); reflexivity.
Qed.

Lemma EA_get_offers_result (env : EA.Env) (c : EA.Connector)
    (response : EA.Response) :
  EA.http env (length (EA.requests c)) = Returned response ->
  fst (EA.get_offers env c)
  = if EA.status_code response =? 200
    then rbind (EA.json response) (fun body =>
         match EA.class c with
         | EA.EAWebstoreConnector => Raised NotImplementedError
         | EA.SwgohWebstoreConnector =>
             rbind (EA.as_StoreData body) (fun d => Returned (Some d))
         end)
    else if EA.status_code response =? 401 then Returned None
    else Raised NotImplementedError.
Proof.
  intros H.
  unfold EA.get_offers, EA._wrap_offers, EA.get_default_headers, EA.send,
    EA.logger, bind, gets, modify, lift, ret, raise.
  simpl.
  destruct (EA.auth_id c) as [a|]; simpl;
    [destruct (negb (a =? "")%string)|]; simpl; rewrite H; simpl.
  all: destruct (EA.status_code response =? 200);
    [ destruct (EA.json response) as [body|]; simpl; [|reflexivity];
      destruct (EA.class c); simpl; [reflexivity|];
      destruct (EA.as_StoreData body); reflexivity
    | destruct (EA.status_code response =? 401); reflexivity ].
Qed.

(** C3. [get_offers] returns the mapped store data when the reply has status
    200, returns [None] when it has status 401, and raises
    [NotImplementedError] for every other status; it returns normally only
    for a status of 200 or 401.  This holds for the LotR connector and for
    the Swgoh connector. *)
Theorem C3_get_offers_status_handling :
  (forall (env : LotR.Env) (c : LotR.Connector) (response : LotR.Response),
      LotR.http env (length (LotR.requests c)) = Returned response ->
      (forall data,
          LotR.status_code response = 200 ->
          LotR.as_StoreData response = Returned data ->
          fst (LotR.get_offers env c) = Returned (Some data))
      /\ (LotR.status_code response = 401 ->
          fst (LotR.get_offers env c) = Returned None)
      /\ (LotR.status_code response <> 200 ->
          LotR.status_code response <> 401 ->
          fst (LotR.get_offers env c) = Raised NotImplementedError)
      /\ (returns (fst (LotR.get_offers env c)) = true ->
          LotR.status_code response = 200 \/ LotR.status_code response = 401))
  /\
  (forall (env : EA.Env) (c : EA.Connector) (response : EA.Response),
      EA.http env (length (EA.requests c)) = Returned response ->
      (forall body data,
          EA.class c = EA.SwgohWebstoreConnector ->
          EA.status_code response = 200 ->
          EA.json response = Returned body ->
          EA.as_StoreData body = Returned data ->
          fst (EA.get_offers env c) = Returned (Some data))
      /\ (EA.status_code response = 401 ->
          fst (EA.get_offers env c) = Returned None)
      /\ (EA.status_code response <> 200 ->
          EA.status_code response <> 401 ->
          fst (EA.get_offers env c) = Raised NotImplementedError)
      /\ (returns (fst (EA.get_offers env c)) = true ->
          EA.status_code response = 200 \/ EA.status_code response = 401)).
Proof.
  split; intros env c response H.
  - rewrite (LotR_get_offers_result env c response H).
    repeat split.
    + intros data -> ->. reflexivity.
    + intros ->. reflexivity.
    + intros H2 H4.
      apply Z.eqb_neq in H2, H4. rewrite H2, H4. reflexivity.
    + destruct (Z.eqb_spec (LotR.status_code response) 200); [now left|].
      destruct (Z.eqb_spec (LotR.status_code response) 401); [now right|].
      discriminate.
  - rewrite (EA_get_offers_result env c response H).
    repeat split.
    + intros body data Hc Hs Hj Hd. rewrite Hs, Hj. simpl.
      rewrite Hc, Hd. reflexivity.
    + intros ->. reflexivity.
    + intros H2 H4.
      apply Z.eqb_neq in H2, H4. rewrite H2, H4. reflexivity.
    + destruct (Z.eqb_spec (EA.status_code response) 200); [now left|].
      destruct (Z.eqb_spec (EA.status_code response) 401); [now right|].
      discriminate.
Qed.

Lemma C3_witness :
  fst (LotR.get_offers
         (Examples.lotr_env (fun _ => Returned (Examples.lotr_response 401)))
         (Examples.lotr (Examples.config false false 0 2)))
  = Returned None
  /\ fst (EA.get_offers
         (Examples.swgoh_env (fun _ => Returned (Examples.swgoh_response 503 None)))
         (Examples.swgoh (Examples.config false false 0 2)))
     = Raised NotImplementedError.
Proof.
  split.
  - apply (proj1 (proj2 (proj1 C3_get_offers_status_handling
             (Examples.lotr_env (fun _ => Returned (Examples.lotr_response 401)))
             (Examples.lotr (Examples.config false false 0 2))
             (Examples.lotr_response 401) eq_refl))).
    reflexivity.
  - apply (proj1 (proj2 (proj2 (proj2 C3_get_offers_status_handling
             (Examples.swgoh_env (fun _ => Returned (Examples.swgoh_response 503 None)))
             (Examples.swgoh (Examples.config false false 0 2))
             (Examples.swgoh_response 503 None) eq_refl)))).
    + discriminate.
    + discriminate.
Defined.

End OfferClientFacts.

(** ** The session store *)

Module SessionFacts.
Import Py MonadFacts.
Local Open Scope py_scope.

Lemma LotR_load_session_ok (env : LotR.Env) (c : LotR.Connector)
    (content : string) (s : Requests.Session) :
  LotR.session_file c = Some content ->
  LotR.pickle_load env content = Returned s ->
  LotR.load_session env c
  = (Returned tt,
     LotR.set_log
       (LotR.log c ++
        [ {| Logging.levelname := Logging.INFO;
             Logging.msg := "Successfully loaded session from file '%s'";
             Logging.args := [] |} ])
       (LotR.set_session s c)).
Proof.
  intros Hf Hp.
  unfold LotR.load_session, LotR.logger, bind, gets, modify, lift.
  rewrite Hf, Hp. reflexivity.
Qed.

Lemma LotR_load_session_raises (env : LotR.Env) (c : LotR.Connector)
    (content : string) (e : exn) :
  LotR.session_file c = Some content ->
  LotR.pickle_load env content = Raised e ->
  LotR.load_session env c = (Raised e, c).
Proof.
  intros Hf Hp.
  unfold LotR.load_session, bind, gets, lift.
  rewrite Hf, Hp. reflexivity.
Qed.

Lemma EA_load_session_ok (env : EA.Env) (c : EA.Connector)
    (content : string) (s : Requests.Session) :
  EA.session_file c = Some content ->
  EA.pickle_load env content = Returned s ->
  EA.load_session env c
  = (Returned tt,
     EA.set_log
       (EA.log c ++
        [ {| Logging.levelname := Logging.DEBUG;
             Logging.msg := "Successfully loaded session from file '%s'";
             Logging.args := [] |} ])
       (EA.set_session s c)).
Proof.
  intros Hf Hp.
  unfold EA.load_session, EA.logger, bind, gets, modify, lift.
  rewrite Hf, Hp. reflexivity.
Qed.

Lemma EA_load_session_raises (env : EA.Env) (c : EA.Connector)
    (content : string) (e : exn) :
  EA.session_file c = Some content ->
  EA.pickle_load env content = Raised e ->
  EA.load_session env c = (Raised e, c).
Proof.
  intros Hf Hp.
  unfold EA.load_session, bind, gets, lift.
  rewrite Hf, Hp. reflexivity.
Qed.

(** The level that the LotR constructor sets is a property of [Config]: the
    constructor goes on to the session file. *)
Lemma LotR_init_after_setLevel (env : LotR.Env) (c : LotR.Connector) :
  LotR.init env c
  = (file <- gets LotR.session_file ;;
     (match file with
      | Some _ => LotR.load_session env
      | None => ret tt
      end) ;;;
     LotR.schedule_ping ;;; LotR.schedule_connection_check env) c.
Proof. reflexivity. Qed.

(** [Config] has no attribute [webstore_log_level]: the constructor of the
    base connector ends with [AttributeError] where it sets the level of its
    logger, before it looks for the session file. *)
Lemma EA_init_raises (env : EA.Env) (c : EA.Connector) :
  EA.init env c = (Raised AttributeError, c).
Proof. reflexivity. Qed.




End SessionFacts.

(** ** The login of the base connector *)

Module LoginFacts.
Import Py MonadFacts Spec.
Local Open Scope py_scope.

Lemma ea_extends_refl c : ea_extends c c.
Proof. exists []. now rewrite app_nil_r. Qed.

Lemma ea_extends_trans c1 c2 c3 :
  ea_extends c1 c2 -> ea_extends c2 c3 -> ea_extends c1 c3.
Proof.
  intros [l1 H1] [l2 H2]. exists (l1 ++ l2)%list.
  rewrite H2, H1. now rewrite app_assoc.
Qed.

Lemma growing_ret {A} (a : A) : ea_growing (ret a).
Proof. intros c. apply ea_extends_refl. Qed.

Lemma growing_raise {A} (e : exn) : ea_growing (@raise _ A e).
Proof. intros c. apply ea_extends_refl. Qed.

Lemma growing_lift {A} (r : result A) : ea_growing (lift r).
Proof. intros c. apply ea_extends_refl. Qed.

Lemma growing_gets {A} (f : EA.Connector -> A) : ea_growing (gets f).
Proof. intros c. apply ea_extends_refl. Qed.

Lemma growing_cfg {A} (f : Config.Config -> result A) : ea_growing (EA.cfg f).
Proof. intros c. apply ea_extends_refl. Qed.

Lemma growing_modify (f : EA.Connector -> EA.Connector) :
  (forall c, EA.requests (f c) = EA.requests c) -> ea_growing (modify f).
Proof. intros H c. exists []. simpl. now rewrite H, app_nil_r. Qed.

Lemma growing_bind {A B} (m : M EA.Connector A) (k : A -> M EA.Connector B) :
  ea_growing m -> (forall a, ea_growing (k a)) -> ea_growing (bind m k).
Proof.
  intros Hm Hk c. unfold bind. specialize (Hm c).
  destruct (m c) as [[a|e] c1]; simpl in *.
  - exact (ea_extends_trans _ _ _ Hm (Hk a c1)).
  - exact Hm.
Qed.

Lemma growing_logger l fmt a : ea_growing (EA.logger l fmt a).
Proof. apply growing_modify. reflexivity. Qed.

Lemma growing_sleep env t : ea_growing (EA.sleep env t).
Proof.
  unfold EA.sleep.
  apply growing_bind; [apply growing_gets|intros now].
  apply growing_bind; [apply growing_lift|intros _].
  destruct (Qle_bool 0 t).
  - apply growing_modify. reflexivity.
  - apply growing_raise.
Qed.

Lemma growing_send env r : ea_growing (EA.send env r).
Proof.
  intros c. unfold EA.send.
  destruct (EA.http env _); exists [r]; reflexivity.
Qed.

Ltac grow :=
  repeat
    match goal with
    | |- ea_growing (ret _) => apply growing_ret
    | |- ea_growing (raise _) => apply growing_raise
    | |- ea_growing (lift _) => apply growing_lift
    | |- ea_growing (gets _) => apply growing_gets
    | |- ea_growing (EA.cfg _) => apply growing_cfg
    | |- ea_growing (EA.logger _ _ _) => apply growing_logger
    | |- ea_growing (EA.sleep _ _) => apply growing_sleep
    | |- ea_growing (EA.send _ _) => apply growing_send
    | |- ea_growing (modify _) => apply growing_modify; reflexivity
    | |- ea_growing (bind _ _) => apply growing_bind; [|intros ?]
    | |- ea_growing (if ?b then _ else _) => destruct b
    | |- ea_growing (match ?x with _ => _ end) => destruct x
    end.

Lemma growing_get_code_from_message env i :
  ea_growing (EA.get_code_from_message env i).
Proof. unfold EA.get_code_from_message. grow. Qed.

Lemma growing__get_messages env : ea_growing (EA._get_messages env).
Proof. unfold EA._get_messages. grow. Qed.

Lemma growing_first_id l : ea_growing (EA.first_id l).
Proof. unfold EA.first_id. grow. Qed.

Lemma growing_messages l : ea_growing (EA.messages l).
Proof. unfold EA.messages. grow. Qed.

Lemma growing_scan env pre entries : forall code,
  ea_growing (EA.scan env pre entries code).
Proof.
  induction entries as [|e entries IH]; intros code; simpl.
  - grow.
  - destruct (String.eqb e pre); [grow|].
    apply growing_bind; [apply growing_get_code_from_message|].
    intros code'. destruct (truthy code'); [grow|apply IH].
Qed.

Lemma growing_poll env attempts : forall pre code,
  ea_growing (EA.poll env attempts pre code).
Proof.
  induction attempts as [|a IH]; intros pre code; simpl; [grow|].
  apply growing_bind; [grow|intros secs].
  apply growing_bind; [grow|intros ?].
  apply growing_bind; [apply growing__get_messages|intros new].
  destruct (EA.falsy new).
  - apply growing_bind; [grow|intros ?]. apply IH.
  - apply growing_bind; [apply growing_first_id|intros new_id].
    apply growing_bind; [apply growing_first_id|intros pre_id].
    destruct (negb (negb (String.eqb new_id pre_id))); [apply IH|].
    apply growing_bind; [apply growing_messages|intros entries].
    apply growing_bind; [apply growing_scan|intros code'].
    destruct (truthy code'); [grow|apply IH].
Qed.

Lemma growing__get_code env pre :
  ea_growing (EA._get_code_from_gmail_account env pre).
Proof.
  unfold EA._get_code_from_gmail_account.
  apply growing_bind; [grow|intros g].
  destruct (negb g); [grow|].
  destruct pre; [grow| |].
  - apply growing_bind; [grow|intros ?].
    apply growing_bind; [grow|intros attempts]. apply growing_poll.
  - apply growing_bind; [grow|intros ?].
    apply growing_bind; [grow|intros attempts]. apply growing_poll.
Qed.

Lemma growing_ask_operator env : ea_growing (EA.ask_operator env).
Proof. unfold EA.ask_operator. grow. Qed.

Lemma growing_save_session env : ea_growing (EA.save_session env).
Proof. unfold EA.save_session. grow. Qed.

Lemma growing__finish_login env code : ea_growing (EA._finish_login env code).
Proof. unfold EA._finish_login. grow. Qed.

Lemma growing__perform_login env url : ea_growing (EA._perform_login env url).
Proof.
  unfold EA._perform_login.
  apply growing_bind; [grow|intros response].
  destruct (negb _); [grow|].
  apply growing_bind; [grow|intros ?].
  apply growing_bind; [apply growing__get_messages|intros pre].
  apply growing_bind; [grow|intros e].
  apply growing_bind; [grow|intros response'].
  destruct (negb _); [grow|].
  apply growing_bind; [apply growing__get_code|intros code].
  apply growing_bind.
  { destruct code; [destruct (truthy _)|]; try apply growing_ask_operator; grow. }
  intros code'.
  apply growing_bind; [grow|intros response''].
  grow.
Qed.

Lemma growing_login_after_auth env (response : EA.Response) :
  ea_growing
    (if negb (EA.status_code response =? 200)
     then raise (Exception "Failed to get accounts URL")
     else
       match EA.query_code response with
       | Some code =>
           EA.logger Logging.DEBUG "Code found in URL, skipping login process..." [] ;;;
           EA._finish_login env code
       | None =>
           EA.logger Logging.DEBUG "Perform login process..." [] ;;;
           code <- EA._perform_login env (EA.url response) ;;
           EA._finish_login env code ;;;
           EA.save_session env
       end).
Proof.
  destruct (negb (EA.status_code response =? 200)); [apply growing_raise|].
  destruct (EA.query_code response) as [code|].
  - apply growing_bind; [apply growing_logger|intros ?].
    apply growing__finish_login.
  - apply growing_bind; [apply growing_logger|intros ?].
    apply growing_bind; [apply growing__perform_login|intros code].
    apply growing_bind; [apply growing__finish_login|intros ?].
    apply growing_save_session.
Qed.

Lemma EA_login_starts_with_the_auth_request env c force :
  negb force && truthy (EA.auth_id c) = false ->
  exists rest,
    EA.requests (snd (EA.login env force c))
    = (EA.requests c ++ auth_request :: rest)%list.
Proof.
  intros Hguard. unfold EA.login.
  unfold bind at 1, gets at 1. rewrite Hguard.
  unfold bind at 1, gets at 1.
  unfold bind at 1. unfold EA.logger at 1, modify at 1.
  unfold bind at 1. unfold EA.logger at 1, modify at 1.
  unfold bind at 1. unfold EA.send at 1. fold auth_request.
  cbn [EA.requests EA.set_log].
  destruct (EA.http env (length (EA.requests c))) as [response|e].
  - match goal with
    | |- context [snd (_ ?s)] =>
        destruct (growing_login_after_auth env response s) as [l Hl]
    end.
    exists l. rewrite Hl. cbn [EA.requests EA.set_session EA.set_requests EA.set_log].
    rewrite <- app_assoc. reflexivity.
  - exists []. reflexivity.
Qed.

(** C10. When [auth_id] holds an id (it is truthy) and [force_login] is
    false, [login] returns at once: the connector, with its session,
    [auth_id], session file, requests sent and log, is exactly as before.
    Whenever [login] changes anything, [force_login] was true or [auth_id]
    was not set; and in those two cases the login flow does run: its first
    request, to the EA accounts URL, is sent. *)
Theorem C10_login_returns_at_once_when_authenticated
    (env : EA.Env) (c : EA.Connector) :
  (truthy (EA.auth_id c) = true ->
   EA.login env false c = (Returned tt, c))
  /\ (forall force_login,
      snd (EA.login env force_login c) <> c ->
      force_login = true \/ truthy (EA.auth_id c) = false)
  /\ (forall force_login,
      force_login = true \/ truthy (EA.auth_id c) = false ->
      exists rest,
        EA.requests (snd (EA.login env force_login c))
        = (EA.requests c ++ auth_request :: rest)%list).
Proof.
  split; [|split].
  - intros Ha. unfold EA.login. unfold bind at 1, gets at 1. rewrite Ha.
    reflexivity.
  - intros force Hneq.
    destruct force; [now left|]. right.
    destruct (truthy (EA.auth_id c)) eqn:Ha; [|reflexivity].
    exfalso. apply Hneq.
    unfold EA.login. unfold bind at 1, gets at 1. rewrite Ha. reflexivity.
  - intros force H. apply EA_login_starts_with_the_auth_request.
    destruct H as [-> | ->]; [reflexivity|apply andb_false_r].
Qed.

Lemma C10_witness :
  let env := Examples.swgoh_env (fun _ => Returned (Examples.swgoh_response 200 None)) in
  let c := EA.set_auth_id (Some "auth-0")
             (Examples.swgoh (Examples.config false false 0 2)) in
  EA.login env false c = (Returned tt, c).
Proof.
  intros env c.
  apply (proj1 (C10_login_returns_at_once_when_authenticated env c)).
  reflexivity.
Defined.

End LoginFacts.

(** ** The run loop *)

Module RunLoopFacts.
Import Py MonadFacts.
Local Open Scope py_scope.

Lemma price_is_positive (q : Q) : (0 < q)%Q -> negb (Qle_bool q 0) = true.
Proof.
  intros H. apply negb_true_iff.
  destruct (Qle_bool q 0) eqn:E; [|reflexivity].
  apply Qle_bool_iff in E. exfalso. exact (Qlt_not_le _ _ H E).
Qed.

(** A free offer with a negative price and no cooldown is purchased at once
    by the LotR run cycle: the guard of the anomaly branch is
    [purchase_amount > 0]. *)
Lemma LotR_negative_price_is_purchased :
  let env := Examples.lotr_env (fun _ => Returned (Examples.lotr_response 200)) in
  let c := Examples.lotr (Examples.config false false 0 2) in
  let ws_offer :=
    {| LotR.offer :=
         {| LotR.id := "X";
            LotR.price := {| LotR.purchase_currency := "PREMIUM";
                             LotR.purchase_amount := (-5)%Q |};
            LotR.is_free_offer := true;
            LotR.purchase_cooldown_left := 0 |};
       LotR.item := {| LotR.title := "Daily gift" |} |} in
  ~ (LotR.purchase_amount (LotR.price (LotR.offer ws_offer)) == 0)%Q
  /\ fst (LotR.run_offer env ws_offer 0 c) = Returned 1
  /\ Spec.count_requests "/store/purchase"
       (LotR.requests (snd (LotR.run_offer env ws_offer 0 c))) = 1%nat
  /\ Spec.logged "Free Offer without Free price found! Please investigate..."
       (LotR.log (snd (LotR.run_offer env ws_offer 0 c))) = false.
Proof.
  split; [discriminate|]. vm_compute. repeat split.
Qed.

(** In the LotR run cycle, an offer that is classified as free and carries
    a positive purchase price only leaves the two log records of the
    anomaly: the purchase counter, the requests sent and the scheduler are
    as before, and the cycle goes on with the next offer. *)
Lemma LotR_free_offer_with_positive_price_is_skipped
    (env : LotR.Env) (c : LotR.Connector) (ws_offer : LotR.WebStoreOffer)
    (rest : list LotR.WebStoreOffer) (purchases : Z) :
  LotR.is_free_offer (LotR.offer ws_offer) = true ->
  (0 < LotR.purchase_amount (LotR.price (LotR.offer ws_offer)))%Q ->
  let c' := LotR.set_log (LotR.log c ++ Spec.anomaly_records ws_offer) c in
  LotR.run_offer env ws_offer purchases c = (Returned purchases, c')
  /\ LotR.run_offers env (ws_offer :: rest) purchases c
     = LotR.run_offers env rest purchases c'
  /\ LotR.requests c' = LotR.requests c
  /\ LotR.scheduler c' = LotR.scheduler c.
Proof.
  intros Hfree Hprice c'.
  assert (E : LotR.run_offer env ws_offer purchases c = (Returned purchases, c')).
  { unfold LotR.run_offer. rewrite Hfree. simpl negb. cbv iota.
    rewrite (price_is_positive _ Hprice).
    unfold LotR.logger, bind, modify, ret. simpl.
    unfold c', Spec.anomaly_records. rewrite <- app_assoc. reflexivity. }
  repeat split.
  - exact E.
  - simpl. unfold bind at 1. rewrite E. reflexivity.
Qed.

Lemma LotR_free_offer_priced_5_is_skipped :
  let env := Examples.lotr_env (fun _ => Returned (Examples.lotr_response 200)) in
  let c := Examples.lotr (Examples.config true false 0 2) in
  let ws_offer :=
    {| LotR.offer :=
         {| LotR.id := "X";
            LotR.price := {| LotR.purchase_currency := "PREMIUM";
                             LotR.purchase_amount := 5%Q |};
            LotR.is_free_offer := true;
            LotR.purchase_cooldown_left := 0 |};
       LotR.item := {| LotR.title := "Daily gift" |} |} in
  LotR.run_offer env ws_offer 0 c
  = (Returned 0, LotR.set_log (Spec.anomaly_records ws_offer) c).
Proof.
  intros env c ws_offer.
  apply (proj1 (LotR_free_offer_with_positive_price_is_skipped
                  env c ws_offer [] 0 eq_refl eq_refl)).
Qed.

(** The fetch at the head of the LotR [run]: a first reply that maps to store
    data ends it, with no login; after a [None], [login] is called once and
    [get_offers] once more, whatever that second call gives. *)
Lemma LotR_fetch_offers_shape (env : LotR.Env) (c : LotR.Connector) :
  let c0 := snd (LotR.logger Logging.INFO "Getting offers..." [] c) in
  (forall data,
      fst (LotR.get_offers env c0) = Returned (Some data) ->
      LotR.fetch_offers env c = LotR.get_offers env c0)
  /\ (fst (LotR.get_offers env c0) = Returned None ->
      LotR.fetch_offers env c
      = (LotR.login env ;;; LotR.get_offers env) (snd (LotR.get_offers env c0))).
Proof.
  intros c0. split.
  - intros data H. unfold LotR.fetch_offers. unfold bind at 1.
    change (LotR.logger Logging.INFO "Getting offers..." [] c)
      with (@Returned unit tt, c0).
    cbv beta iota. unfold bind at 1.
    destruct (LotR.get_offers env c0) as [r c1]. simpl in H. subst r.
    reflexivity.
  - intros H. unfold LotR.fetch_offers. unfold bind at 1.
    change (LotR.logger Logging.INFO "Getting offers..." [] c)
      with (@Returned unit tt, c0).
    cbv beta iota. unfold bind at 1.
    destruct (LotR.get_offers env c0) as [r c1]. simpl in H. subst r.
    reflexivity.
Qed.

(** A second [None] ends the LotR cycle with the [AttributeError] of
    [offers.web_store_offers]. *)
Lemma LotR_run_body_second_None (env : LotR.Env) (c c' : LotR.Connector)
    (run' : M LotR.Connector unit) :
  LotR.fetch_offers env c = (Returned None, c') ->
  LotR.run_body env run' c = (Raised AttributeError, c').
Proof.
  intros H. unfold LotR.run_body, bind. rewrite H. reflexivity.
Qed.

(** The LotR run cycle on an expired session: one login, and two fetches;
    the cycle ends normally when the second fetch gives 200 and with an
    exception when it gives 401 again.  On a live session: one fetch and no
    login. *)
Lemma LotR_run_relogs_in_once :
  let cfg := Examples.config false false 0 2 in
  let again := LotR.run (Examples.expired_session 200) 3 (Examples.lotr cfg) in
  let twice := LotR.run (Examples.expired_session 401) 3 (Examples.lotr cfg) in
  let live :=
    LotR.run (Examples.lotr_env (fun _ => Returned (Examples.lotr_response 200)))
      3 (Examples.lotr cfg) in
  let fetches r := Spec.count_requests "/store/offers" (LotR.requests (snd r)) in
  let logins r :=
    Spec.count_logged "Perform login for account %s" (LotR.log (snd r)) in
  (fst again = Returned tt /\ fetches again = 2%nat /\ logins again = 1%nat)
  /\ (fst twice = Raised AttributeError
      /\ fetches twice = 2%nat /\ logins twice = 1%nat)
  /\ (fst live = Returned tt /\ fetches live = 1%nat /\ logins live = 0%nat).
Proof.
  vm_compute. repeat split.
Qed.

(** C4. The run cycle of the base connector (Swgoh variant) on a session
    that the server no longer accepts: [auth_id] is set, so the [login]
    before the fetch does nothing; the one fetch gives [None]; no login
    follows, the fetch is not repeated, and the cycle ends with the
    [AttributeError] of [offers.items]. *)
Theorem C4_base_connector_run_does_not_relogin :
  let env := Examples.swgoh_env (fun _ => Returned (Examples.swgoh_response 401 None)) in
  let c := EA.set_auth_id (Some "auth-0")
             (Examples.swgoh (Examples.config false false 0 2)) in
  let r := EA.run env 3 c in
  fst r = Raised AttributeError
  /\ Spec.count_requests "/store/offers" (EA.requests (snd r)) = 1%nat
  /\ length (EA.requests (snd r)) = 1%nat
  /\ Spec.count_logged "Perform login for account %s" (EA.log (snd r)) = 0%nat.
Proof.
  vm_compute. repeat split.
Qed.

Lemma filter_with_price (f : Z -> Z) (l : list SwgohTypes.Offer) :
  filter (fun o => String.eqb (SwgohTypes.currencyType o) "FREE")
         (map (SwgohMore.with_price f) l)
  = map (SwgohMore.with_price f)
        (filter (fun o => String.eqb (SwgohTypes.currencyType o) "FREE") l).
Proof.
  induction l as [|o l IH]; [reflexivity|]. simpl.
  destruct (String.eqb (SwgohTypes.currencyType o) "FREE"); simpl;
    rewrite IH; reflexivity.
Qed.

(** The Swgoh variant has no check of the price: the pass over an item goes
    the same way whatever prices its offers carry. *)
Lemma Swgoh_handle_item_does_not_read_the_price (env : EA.Env) (now : Q)
    (f : Z -> Z) (item : SwgohTypes.StoreItem) (p : Z) (c : EA.Connector) :
  EA.handle_item env now (SwgohMore.with_prices f item) p c
  = EA.handle_item env now item p c.
Proof.
  unfold EA.handle_item. cbv zeta.
  cbn [SwgohMore.with_prices SwgohTypes.offers SwgohTypes.id SwgohTypes.name
       SwgohTypes.startTime SwgohTypes.endTime].
  rewrite filter_with_price.
  destruct (filter _ (SwgohTypes.offers item)) as [|o rest]; reflexivity.
Qed.

(** C8. [SwgohWebstoreConnector._handle_offers] never looks at the price of
    an offer: the loop over the items goes the same way whatever prices the
    offers carry.  With an item whose FREE offer carries the price 5:
    - when the offer is available, the item is bought at once: one purchase
      request, the method returns true, and no warning is logged;
    - when the offer becomes available later and the connector schedules
      itself, the purchase is handed to the scheduler, and no warning is
      logged.
    The LotR run cycle, on a free offer with the price 5, logs the anomaly
    warning and neither buys nor schedules. *)
Theorem C8_Swgoh_buys_a_free_offer_that_carries_a_price :
  (forall (env : EA.Env) (now : Q) (f : Z -> Z)
          (items : list SwgohTypes.StoreItem) (p : Z) (c : EA.Connector),
      EA.handle_items env now (map (SwgohMore.with_prices f) items) p c
      = EA.handle_items env now items p c)
  /\ (let env := Examples.swgoh_env
                   (fun _ => Returned (Examples.swgoh_response 200 None)) in
      let data := {| SwgohTypes.items := [Samples.swgoh_priced 5 (Some 900)] |} in
      let r := EA._handle_offers env (Some data) Samples.swgoh_at_1000 in
      fst r = Returned true
      /\ map Obs.item_of (EA.requests (snd r)) = [Some "X"]
      /\ Spec.count_requests "/store/purchase" (EA.requests (snd r)) = 1%nat
      /\ existsb (fun record =>
                    match Logging.levelname record with
                    | Logging.WARNING => true
                    | _ => false
                    end)
                 (EA.log (snd r)) = false)
  /\ (let env := Examples.swgoh_env
                   (fun _ => Returned (Examples.swgoh_response 200 None)) in
      let data := {| SwgohTypes.items := [Samples.swgoh_priced 5 (Some 4000)] |} in
      let c := EA.set_time 1000 (Examples.swgoh (Examples.config true false 0 2)) in
      let r := EA._handle_offers env (Some data) c in
      fst r = Returned false
      /\ EA.requests (snd r) = []
      /\ Sched._queue (EA.scheduler (snd r))
         = [Obs.purchase_event 4000 0 "X" "FREE"]
      /\ existsb (fun record =>
                    match Logging.levelname record with
                    | Logging.WARNING => true
                    | _ => false
                    end)
                 (EA.log (snd r)) = false)
  /\ (let env := Examples.lotr_env
                   (fun _ => Returned (Examples.lotr_response 200)) in
      let c := Examples.lotr (Examples.config true false 0 2) in
      let r := LotR.run_offer env (Samples.lotr_priced 5) 0 c in
      fst r = Returned 0
      /\ LotR.requests (snd r) = []
      /\ Sched._queue (LotR.scheduler (snd r)) = []
      /\ Spec.logged "Free Offer without Free price found! Please investigate..."
           (LotR.log (snd r)) = true).
Proof.
  split; [|split; [|split]].
  - intros env now f items. induction items as [|item items IH]; intros p c;
      [reflexivity|].
    simpl. unfold bind. rewrite Swgoh_handle_item_does_not_read_the_price.
    destruct (EA.handle_item env now item p c) as [[p1|e] c1];
      [apply IH|reflexivity].
  - vm_compute. repeat split.
  - vm_compute. repeat split.
  - vm_compute. repeat split.
Qed.

End RunLoopFacts.

(** ** The verification-mail pattern *)

Module PatternFacts.
Import Spec.

Lemma strip_prefix_iff (p s r : string) :
  Str.strip_prefix p s = Some r <-> s = p ++ r.
Proof.
  revert s. induction p as [|a p IH]; intros s; simpl.
  - split; [intros [= ->]; reflexivity|intros ->; reflexivity].
  - destruct s as [|b s]; [split; discriminate|].
    destruct (Ascii.eqb_spec a b) as [->|Hne].
    + rewrite IH. split; [intros ->; reflexivity|intros [= ->]; reflexivity].
    + split; [discriminate|]. intros [= H _]. congruence.
Qed.

Lemma skip_non_digits_app (sep rest : string) :
  no_digit sep = true ->
  (rest = "" \/ exists c r, rest = String c r /\ Str.is_digit c = true) ->
  Str.skip_non_digits (sep ++ rest) = rest.
Proof.
  intros Hsep Hrest. induction sep as [|a sep IH]; simpl in *.
  - destruct Hrest as [->|(c & r & -> & Hc)]; [reflexivity|].
    simpl. rewrite Hc. reflexivity.
  - apply andb_true_iff in Hsep as [Ha Hsep].
    apply negb_true_iff in Ha. rewrite Ha. exact (IH Hsep).
Qed.

Lemma skip_non_digits_split (s : string) :
  exists sep, s = sep ++ Str.skip_non_digits s /\ no_digit sep = true.
Proof.
  induction s as [|a s (sep & E & H)]; simpl.
  - exists "". split; reflexivity.
  - destruct (Str.is_digit a) eqn:Ha.
    + exists "". split; reflexivity.
    + exists (String a sep). simpl. rewrite Ha, H. split; [|reflexivity].
      f_equal. exact E.
Qed.

Lemma span_digits_app (d tail : string) :
  all_digits d = true ->
  (tail = "" \/ exists c r, tail = String c r /\ Str.is_digit c = false) ->
  Str.span_digits (d ++ tail) = (d, tail).
Proof.
  intros Hd Ht. induction d as [|a d IH]; simpl in *.
  - destruct Ht as [->|(c & r & -> & Hc)]; [reflexivity|].
    simpl. rewrite Hc. reflexivity.
  - apply andb_true_iff in Hd as [Ha Hd]. rewrite Ha, (IH Hd). reflexivity.
Qed.

Lemma span_digits_split (s d r : string) :
  Str.span_digits s = (d, r) -> s = d ++ r /\ all_digits d = true.
Proof.
  revert d r. induction s as [|a s IH]; intros d r; simpl.
  - intros [= <- <-]. split; reflexivity.
  - destruct (Str.is_digit a) eqn:Ha.
    + destruct (Str.span_digits s) as [d' r'] eqn:E.
      intros [= <- <-]. destruct (IH d' r' eq_refl) as [-> H].
      split; [reflexivity|]. simpl. rewrite Ha, H. reflexivity.
    + intros [= <- <-]. split; reflexivity.
Qed.

(** The subjects that the pattern accepts, and the group it gives. *)
Lemma EA_SUBJECT_PATTERN_match_iff (subject d : string) :
  Str.EA_SUBJECT_PATTERN_match subject = Some d
  <-> exists sep tail,
        subject = "Verification Code For EA" ++ sep ++ d ++ tail
        /\ no_digit sep = true
        /\ all_digits d = true
        /\ d <> ""
        /\ (tail = "" \/ tail = Str.newline).
Proof.
  unfold Str.EA_SUBJECT_PATTERN_match. split.
  - destruct (Str.strip_prefix _ subject) as [rest|] eqn:Hp; [|discriminate].
    apply strip_prefix_iff in Hp.
    destruct (skip_non_digits_split rest) as (sep & Hsep & Hno).
    destruct (Str.span_digits (Str.skip_non_digits rest)) as [digits tail] eqn:Hs.
    apply span_digits_split in Hs as [Hs Hall].
    destruct (String.eqb_spec digits ""); [discriminate|].
    destruct (String.eqb_spec tail "") as [->|_]; simpl.
    + intros [= <-]. exists sep, "". rewrite Hp, Hsep at 1. rewrite Hs.
      repeat split; auto.
    + destruct (String.eqb_spec tail Str.newline) as [->|_]; [|discriminate].
      intros [= <-]. exists sep, Str.newline. rewrite Hp, Hsep at 1. rewrite Hs.
      repeat split; auto.
  - intros (sep & tail & -> & Hno & Hall & Hne & Htail).
    rewrite (proj2 (strip_prefix_iff _ _ (sep ++ d ++ tail)) eq_refl).
    rewrite skip_non_digits_app; [|exact Hno|].
    + rewrite span_digits_app; [|exact Hall|].
      * destruct (String.eqb_spec d ""); [contradiction|].
        destruct Htail as [-> | ->]; reflexivity.
      * destruct Htail as [-> | ->]; [now left|right].
        eexists _, _. split; reflexivity.
    + right. destruct d as [|a d']; [contradiction|].
      simpl in Hall. apply andb_true_iff in Hall as [Ha _].
      exists a, (d' ++ tail). split; [reflexivity|exact Ha].
Qed.

End PatternFacts.

(** ** The inbox polling of the login *)

Module PollingFacts.
Import Py MonadFacts Spec.
Local Open Scope py_scope.

Lemma prefix_of_empty (s : string) : s <> "" -> String.prefix s "" = false.
Proof. destruct s; [congruence|reflexivity]. Qed.

Lemma contains_empty (s : string) : s <> "" -> Str.contains s "" = false.
Proof. destruct s; [congruence|reflexivity]. Qed.

Lemma pattern_rejects_empty : Str.EA_SUBJECT_PATTERN_match "" = None.
Proof. reflexivity. Qed.

Lemma pattern_group_is_truthy (s d : string) :
  Str.EA_SUBJECT_PATTERN_match s = Some d -> truthy (Some d) = true.
Proof.
  unfold Str.EA_SUBJECT_PATTERN_match.
  destruct (Str.strip_prefix _ s) as [rest|]; [|discriminate].
  destruct (Str.span_digits _) as [digits tail].
  destruct (String.eqb digits "") eqn:E; [discriminate|].
  destruct (_ || _); [|discriminate].
  intros [= <-]. simpl. rewrite E. reflexivity.
Qed.

Lemma mail_code_is_truthy (e : string) (m : Gmail.GmailMessageWrapper) (d : string) :
  mail_code e m = Some d -> truthy (Some d) = true.
Proof.
  unfold mail_code.
  destruct (Gmail.receiver m); [|discriminate].
  destruct (Gmail.subject m); [|discriminate].
  destruct (Str.contains e s); [|discriminate].
  apply pattern_group_is_truthy.
Qed.

Lemma LotR_get_code_from_message_value (env : LotR.Env) (c : LotR.Connector)
    (i : string) (m : Gmail.GmailMessageWrapper) :
  LotR.email c <> "" ->
  Gmail.get_message_details (LotR.mailbox env) i = Some m ->
  LotR.get_code_from_message env i c
  = (Returned (mail_code (LotR.email c) m), c).
Proof.
  intros He Hm. unfold LotR.get_code_from_message, mail_code.
  unfold bind, gets, ret. rewrite Hm.
  destruct (Gmail.receiver m) as [r|]; simpl; [|reflexivity].
  destruct (Gmail.subject m) as [s|]; simpl;
    [|rewrite orb_true_r; reflexivity].
  destruct (String.eqb_spec r ""); simpl.
  - subst r. rewrite (contains_empty _ He). reflexivity.
  - destruct (String.eqb_spec s ""); simpl.
    + subst s. destruct (Str.contains _ _); reflexivity.
    + destruct (Str.contains _ _); reflexivity.
Qed.




Section LotRPolling.
Variable env : LotR.Env.
Let mb := LotR.mailbox env.

Lemma LotR_get_code_quiet (c : LotR.Connector) (i : string) :
  LotR.email c <> "" ->
  quiet mb (LotR.email c) i ->
  LotR.get_code_from_message env i c = (Returned None, c).
Proof.
  intros He [Hf Hq]. unfold code_of in Hq. fold mb in Hf.
  destruct (Gmail.get_message_details mb i) as [m|] eqn:Hm; [|congruence].
  rewrite (LotR_get_code_from_message_value env c i m He Hm), Hq. reflexivity.
Qed.

Lemma LotR_get_code_found (c : LotR.Connector) (i code : string) :
  LotR.email c <> "" ->
  code_of mb (LotR.email c) i = Some code ->
  LotR.get_code_from_message env i c = (Returned (Some code), c)
  /\ truthy (Some code) = true.
Proof.
  intros He Hq. unfold code_of in Hq.
  destruct (Gmail.get_message_details mb i) as [m|] eqn:Hm; [|discriminate].
  rewrite (LotR_get_code_from_message_value env c i m He Hm), Hq.
  split; [reflexivity|]. exact (mail_code_is_truthy _ _ _ Hq).
Qed.

Lemma LotR_scan_passes_quiet (c : LotR.Connector) (pre_id : string)
    (l rest : list string) :
  LotR.email c <> "" ->
  ~ In pre_id l ->
  (forall i, In i l -> quiet mb (LotR.email c) i) ->
  LotR.scan env pre_id (l ++ rest)%list None c = LotR.scan env pre_id rest None c.
Proof.
  intros He. induction l as [|i l IH]; intros Hpre Hq; [reflexivity|].
  simpl. destruct (String.eqb_spec i pre_id) as [->|_].
  - exfalso. apply Hpre. now left.
  - unfold bind at 1.
    rewrite (LotR_get_code_quiet c i He (Hq i (or_introl eq_refl))). simpl.
    apply IH.
    + intros Hin. apply Hpre. now right.
    + intros j Hj. apply Hq. now right.
Qed.

Lemma LotR_scan_stops_at_baseline (c : LotR.Connector) (pre_id : string)
    (rest : list string) (code : option string) :
  LotR.scan env pre_id (pre_id :: rest) code c = (Returned code, c).
Proof. simpl. rewrite String.eqb_refl. reflexivity. Qed.

Lemma LotR_scan_finds (c : LotR.Connector) (pre_id i code : string)
    (rest : list string) :
  LotR.email c <> "" ->
  i <> pre_id ->
  code_of mb (LotR.email c) i = Some code ->
  LotR.scan env pre_id (i :: rest) None c = (Returned (Some code), c).
Proof.
  intros He Hne Hc. simpl.
  destruct (String.eqb_spec i pre_id) as [|_]; [contradiction|].
  destruct (LotR_get_code_found c i code He Hc) as [E T].
  unfold bind at 1. rewrite E, T. reflexivity.
Qed.

Lemma lotr_tick_email t c : LotR.email (lotr_tick t c) = LotR.email c.
Proof. reflexivity. Qed.
Lemma lotr_tick_config t c : LotR.config (lotr_tick t c) = LotR.config c.
Proof. reflexivity. Qed.
Lemma lotr_tick_listings t c : LotR.listings (lotr_tick t c) = S (LotR.listings c).
Proof. reflexivity. Qed.

(** One pass of the polling loop over a listing that shows only quiet mails
    above the baseline id. *)
Lemma LotR_poll_quiet_pass (c : LotR.Connector) (t : Q) (a : nat)
    (b : string) (p delta : list string) :
  LotR.email c <> "" ->
  Config.login_sleep_time (LotR.config c) = Returned t ->
  lotr_sleeps env t ->
  Gmail.get_messages mb (LotR.listings c) = Some (delta ++ b :: p)%list ->
  ~ In b delta ->
  (forall i, In i delta -> quiet mb (LotR.email c) i) ->
  LotR.poll env (S a) (Some (b :: p)) None c
  = LotR.poll env a (Some (delta ++ b :: p)%list) None (lotr_tick t c).
Proof.
  intros He Ht Ht0 Hl Hb Hq.
  cbn [LotR.poll]. unfold bind at 1. unfold LotR.cfg. rewrite Ht.
  unfold bind at 1. rewrite (ClockFacts.LotR_sleep_runs env t c Ht0).
  unfold bind at 1. unfold LotR.get_messages at 1.
  unfold bind at 1, gets at 1. unfold bind at 1, modify at 1.
  cbv beta iota. unfold ret at 1.
  change (LotR.listings (LotR.set_time (LotR.time c + t)%Q c))
    with (LotR.listings c).
  fold mb. rewrite Hl.
  change (LotR.set_listings (S (LotR.listings c))
            (LotR.set_time (LotR.time c + t)%Q c)) with (lotr_tick t c).
  destruct delta as [|d delta].
  - simpl. rewrite !bind_ret. rewrite String.eqb_refl. reflexivity.
  - simpl app. simpl LotR.first_id. simpl LotR.messages.
    rewrite !bind_ret.
    destruct (String.eqb_spec d b) as [->|_].
    { exfalso. apply Hb. now left. }
    change (negb (negb false)) with false. cbv iota. rewrite bind_ret. unfold bind at 1.
    change (d :: delta ++ b :: p)%list with ((d :: delta) ++ b :: p)%list.
    rewrite (LotR_scan_passes_quiet (lotr_tick t c) b (d :: delta) (b :: p) He Hb Hq).
    rewrite LotR_scan_stops_at_baseline. reflexivity.
Qed.


Lemma LotR_poll_finds (c : LotR.Connector) (t : Q) (a : nat)
    (b m code : string) (p above below : list string) :
  LotR.email c <> "" ->
  Config.login_sleep_time (LotR.config c) = Returned t ->
  lotr_sleeps env t ->
  Gmail.get_messages mb (LotR.listings c)
  = Some ((above ++ m :: below) ++ b :: p)%list ->
  ~ In b (above ++ m :: below)%list ->
  (forall i, In i above -> quiet mb (LotR.email c) i) ->
  code_of mb (LotR.email c) m = Some code ->
  LotR.poll env (S a) (Some (b :: p)) None c
  = (Returned (Some code), lotr_tick t c).
Proof.
  intros He Ht Ht0 Hl Hb Hq Hm.
  cbn [LotR.poll]. unfold bind at 1. unfold LotR.cfg. rewrite Ht.
  unfold bind at 1. rewrite (ClockFacts.LotR_sleep_runs env t c Ht0).
  unfold bind at 1. unfold LotR.get_messages at 1.
  unfold bind at 1, gets at 1. unfold bind at 1, modify at 1.
  cbv beta iota. unfold ret at 1.
  change (LotR.listings (LotR.set_time (LotR.time c + t)%Q c))
    with (LotR.listings c).
  fold mb. rewrite Hl.
  change (LotR.set_listings (S (LotR.listings c))
            (LotR.set_time (LotR.time c + t)%Q c)) with (lotr_tick t c).
  assert (Hhd : exists d l, (above ++ m :: below)%list = d :: l).
  { destruct above; simpl; eauto. }
  destruct Hhd as (d & l & Hdl).
  assert (Hd : d <> b).
  { intros ->. apply Hb. rewrite Hdl. now left. }
  rewrite Hdl at 1. simpl app. simpl LotR.first_id. simpl LotR.messages.
  rewrite !bind_ret.
  destruct (String.eqb_spec d b) as [|_]; [contradiction|].
  change (negb (negb false)) with false. cbv iota. rewrite bind_ret.
  unfold bind at 1. rewrite <- app_assoc.
  rewrite (LotR_scan_passes_quiet (lotr_tick t c) b above _ He).
  - simpl app.
    rewrite (LotR_scan_finds (lotr_tick t c) b m code _ He).
    + destruct (LotR_get_code_found (lotr_tick t c) m code He Hm) as [_ T].
      rewrite T. reflexivity.
    + intros ->. apply Hb. apply in_or_app. right. now left.
    + exact Hm.
  - intros Hin. apply Hb. apply in_or_app. now left.
  - exact Hq.
Qed.

Lemma inbox_shift (base : list string) (delta : nat -> list string) (i : nat) :
  inbox (delta 1%nat ++ base)%list (fun j => delta (S j)) i
  = inbox base delta (S i).
Proof.
  induction i as [|i IH]; [reflexivity|].
  simpl in *. rewrite IH. reflexivity.
Qed.

Lemma inbox_nonempty (base : list string) (delta : nat -> list string) (i : nat) :
  base <> [] -> inbox base delta i <> [].
Proof.
  intros Hb. destruct i as [|i]; [exact Hb|]. simpl.
  intros H. apply app_eq_nil in H as [_ H].
  revert H. induction i as [|i IH]; [exact Hb|].
  simpl. intros H. apply app_eq_nil in H as [_ H]. exact (IH H).
Qed.

Lemma lotr_polled_email t k c : LotR.email (lotr_polled t k c) = LotR.email c.
Proof. revert c. induction k as [|k IH]; intros c; [reflexivity|]. simpl. now rewrite IH. Qed.
Lemma lotr_polled_config t k c : LotR.config (lotr_polled t k c) = LotR.config c.
Proof. revert c. induction k as [|k IH]; intros c; [reflexivity|]. simpl. now rewrite IH. Qed.
Lemma lotr_polled_requests t k c : LotR.requests (lotr_polled t k c) = LotR.requests c.
Proof. revert c. induction k as [|k IH]; intros c; [reflexivity|]. simpl. now rewrite IH. Qed.
Lemma lotr_polled_listings t k c : LotR.listings (lotr_polled t k c) = (LotR.listings c + k)%nat.
Proof.
  revert c. induction k as [|k IH]; intros c; simpl.
  - now rewrite Nat.add_0_r.
  - rewrite IH. simpl. now rewrite Nat.add_succ_r.
Qed.

Lemma LotR_poll_quiet_run (t : Q) (k a : nat) :
  forall (base : list string) (delta : nat -> list string) (c : LotR.Connector),
  LotR.email c <> "" ->
  Config.login_sleep_time (LotR.config c) = Returned t ->
  lotr_sleeps env t ->
  base <> [] ->
  (forall i, (i < k)%nat ->
     Gmail.get_messages mb (LotR.listings c + i)%nat
     = Some (inbox base delta (S i))) ->
  (forall i, (i < k)%nat ->
     ~ In (hd "" (inbox base delta i)) (delta (S i))) ->
  (forall i j, (i < k)%nat -> In j (delta (S i)) -> quiet mb (LotR.email c) j) ->
  LotR.poll env (k + a) (Some base) None c
  = LotR.poll env a (Some (inbox base delta k)) None (lotr_polled t k c).
Proof.
  induction k as [|k IH]; intros base delta c He Ht Ht0 Hb Hl Hn Hq;
    [reflexivity|].
  destruct base as [|b p]; [congruence|].
  change (S k + a)%nat with (S (k + a)).
  rewrite (LotR_poll_quiet_pass c t (k + a) b p (delta 1%nat) He Ht Ht0).
  - rewrite (IH (delta 1%nat ++ b :: p)%list (fun j => delta (S j)) (lotr_tick t c)).
    + rewrite inbox_shift. reflexivity.
    + exact He.
    + exact Ht.
    + exact Ht0.
    + intros H. apply app_eq_nil in H as [_ H]. discriminate.
    + intros i Hi. rewrite inbox_shift, lotr_tick_listings.
      replace (S (LotR.listings c) + i)%nat with (LotR.listings c + S i)%nat
        by lia.
      apply Hl. lia.
    + intros i Hi. rewrite inbox_shift. apply (Hn (S i)). lia.
    + intros i j Hi Hj. apply (Hq (S i) j); [lia|exact Hj].
  - specialize (Hl 0%nat (Nat.lt_0_succ k)).
    rewrite Nat.add_0_r in Hl. exact Hl.
  - apply (Hn 0%nat). lia.
  - intros j Hj. apply (Hq 0%nat j); [lia|exact Hj].
Qed.

End LotRPolling.


Lemma LotR_request_otc_ok (env : LotR.Env) (c : LotR.Connector)
    (r0 : LotR.Response) :
  LotR.http env (length (LotR.requests c)) = Returned r0 ->
  LotR.status_code r0 = 200 ->
  exists c',
    LotR.request_otc env c = (Returned tt, c')
    /\ LotR.email c' = LotR.email c
    /\ LotR.config c' = LotR.config c
    /\ LotR.listings c' = LotR.listings c
    /\ LotR.requests c' = (LotR.requests c ++ [otc_request (LotR.email c)])%list.
Proof.
  intros Hr Hs.
  unfold LotR.request_otc, LotR.send, LotR.logger, bind, gets, modify, ret, raise.
  rewrite Hr. simpl. rewrite Hs. simpl.
  eexists. split; [reflexivity|]. repeat split.
Qed.

Section LotRLogin.
Variable env : LotR.Env.
Local Abbreviation mb := (LotR.mailbox env).
Variable c : LotR.Connector.
Variables (base : list string) (delta : nat -> list string).
Variables (n : Z) (t : Q) (r0 : LotR.Response).
Hypothesis He : LotR.email c <> "".
Hypothesis Hbase : base <> [].
Hypothesis Hn : Config.max_login_attempts (LotR.config c) = Returned n.
Hypothesis Ht : Config.login_sleep_time (LotR.config c) = Returned t.
Hypothesis Ht0 : lotr_sleeps env t.
Hypothesis Hr : LotR.http env (length (LotR.requests c)) = Returned r0.
Hypothesis Hs : LotR.status_code r0 = 200.

(** The state in which the polling loop starts. *)
Lemma LotR_login_reaches_poll :
  Gmail.get_messages mb (LotR.listings c) = Some base ->
  exists c3,
    LotR.login env c
    = (code <- LotR.poll env (Z.to_nat n) (Some base) None ;;
       match code with
       | Some x => if truthy code then LotR.verify_otc env x else raise ValueError
       | None => raise ValueError
       end) c3
    /\ LotR.email c3 = LotR.email c
    /\ LotR.config c3 = LotR.config c
    /\ LotR.listings c3 = S (LotR.listings c)
    /\ LotR.requests c3 = (LotR.requests c ++ [otc_request (LotR.email c)])%list.
Proof.
  intros Hb.
  set (c1 := snd (LotR.logger Logging.INFO "Perform login for account %s"
                     [Logging.VStr (LotR.email c)] c)).
  set (c2 := LotR.set_listings (S (LotR.listings c)) c1).
  destruct (LotR_request_otc_ok env c2 r0 Hr Hs) as (c3 & E3 & P1 & P2 & P3 & P4).
  change (LotR.email c2) with (LotR.email c) in P1, P4.
  change (LotR.config c2) with (LotR.config c) in P2.
  change (LotR.listings c2) with (S (LotR.listings c)) in P3.
  change (LotR.requests c2) with (LotR.requests c) in P4.
  exists c3. split; [|repeat split; assumption].
  unfold LotR.login. unfold bind at 1, gets at 1.
  unfold bind at 1. unfold LotR.logger at 1, modify at 1.
  unfold bind at 1. unfold LotR.get_messages at 1.
  unfold bind at 1, gets at 1. unfold bind at 1, modify at 1.
  cbv beta iota. unfold ret at 1.
  simpl LotR.listings. rewrite Hb.
  unfold bind at 1.
  change (LotR.set_listings _ _) with c2.
  rewrite E3.
  unfold bind at 1. unfold LotR.cfg at 1.
  rewrite P2, Hn. reflexivity.
Qed.


Hypothesis Hpolls : forall j, (j <= Z.to_nat n)%nat ->
  Gmail.get_messages mb (LotR.listings c + j)%nat = Some (inbox base delta j).
Hypothesis Htop : forall j, (j < Z.to_nat n)%nat ->
  ~ In (hd "" (inbox base delta j)) (delta (S j)).

Lemma LotR_login_finds_code (k : nat) (above below : list string) (m code : string) :
  (1 <= k <= Z.to_nat n)%nat ->
  (forall j i, (1 <= j < k)%nat -> In i (delta j) -> quiet mb (LotR.email c) i) ->
  delta k = (above ++ m :: below)%list ->
  (forall i, In i above -> quiet mb (LotR.email c) i) ->
  code_of mb (LotR.email c) m = Some code ->
  exists c',
    LotR.login env c = LotR.verify_otc env code c'
    /\ LotR.listings c' = (LotR.listings c + 1 + k)%nat
    /\ LotR.requests c' = (LotR.requests c ++ [otc_request (LotR.email c)])%list.
Proof.
  intros Hk Hquiet Hdelta Habove Hcode.
  destruct k as [|k]; [lia|].
  destruct LotR_login_reaches_poll as (c3 & E & P1 & P2 & P3 & P4).
  { pose proof (Hpolls 0%nat (Nat.le_0_l _)) as H0.
    rewrite Nat.add_0_r in H0. exact H0. }
  assert (He3 : LotR.email c3 <> "") by (rewrite P1; exact He).
  assert (Ht3 : Config.login_sleep_time (LotR.config c3) = Returned t)
    by (rewrite P2; exact Ht).
  set (c4 := lotr_polled t k c3).
  exists (lotr_tick t c4). split; [|split].
  - rewrite E. unfold bind at 1.
    replace (Z.to_nat n) with (k + S (Z.to_nat n - S k))%nat by lia.
    rewrite (LotR_poll_quiet_run env t k _ base delta c3 He3 Ht3 Ht0 Hbase).
    + fold c4.
      destruct (inbox base delta k) as [|b p] eqn:Hin.
      { exfalso. exact (inbox_nonempty base delta k Hbase Hin). }
      rewrite (LotR_poll_finds env c4 t _ b m code p above below).
      * destruct (LotR_get_code_found env c4 m code) as [_ T].
        { unfold c4. rewrite lotr_polled_email. exact He3. }
        { unfold c4. rewrite lotr_polled_email, P1. exact Hcode. }
        rewrite T. reflexivity.
      * unfold c4. rewrite lotr_polled_email. exact He3.
      * unfold c4. rewrite lotr_polled_config. exact Ht3.
      * exact Ht0.
      * unfold c4. rewrite lotr_polled_listings, P3.
        replace (S (LotR.listings c) + k)%nat with (LotR.listings c + S k)%nat
          by lia.
        rewrite (Hpolls (S k)) by lia. simpl. rewrite Hin, Hdelta. reflexivity.
      * rewrite <- Hdelta. specialize (Htop k). rewrite Hin in Htop.
        apply Htop. lia.
      * intros i Hi. unfold c4. rewrite lotr_polled_email, P1. now apply Habove.
      * unfold c4. rewrite lotr_polled_email, P1. exact Hcode.
    + intros i Hi. rewrite P3.
      replace (S (LotR.listings c) + i)%nat with (LotR.listings c + S i)%nat
        by lia.
      apply Hpolls. lia.
    + intros i Hi. apply Htop. lia.
    + intros i j Hi Hj. rewrite P1. apply (Hquiet (S i) j); [lia|exact Hj].
  - simpl. unfold c4. rewrite lotr_polled_listings, P3. lia.
  - simpl. unfold c4. rewrite lotr_polled_requests. exact P4.
Qed.

Lemma LotR_login_code_not_found :
  (forall j i, (1 <= j <= Z.to_nat n)%nat -> In i (delta j) ->
     quiet mb (LotR.email c) i) ->
  exists c',
    LotR.login env c = (Raised ValueError, c')
    /\ LotR.listings c' = (LotR.listings c + 1 + Z.to_nat n)%nat
    /\ LotR.requests c' = (LotR.requests c ++ [otc_request (LotR.email c)])%list.
Proof.
  intros Hquiet.
  destruct LotR_login_reaches_poll as (c3 & E & P1 & P2 & P3 & P4).
  { pose proof (Hpolls 0%nat (Nat.le_0_l _)) as H0.
    rewrite Nat.add_0_r in H0. exact H0. }
  assert (He3 : LotR.email c3 <> "") by (rewrite P1; exact He).
  assert (Ht3 : Config.login_sleep_time (LotR.config c3) = Returned t)
    by (rewrite P2; exact Ht).
  exists (lotr_polled t (Z.to_nat n) c3). split; [|split].
  - rewrite E. unfold bind at 1.
    replace (Z.to_nat n) with (Z.to_nat n + 0)%nat at 1 by lia.
    rewrite (LotR_poll_quiet_run env t (Z.to_nat n) 0 base delta c3 He3 Ht3 Ht0 Hbase).
    + reflexivity.
    + intros i Hi. rewrite P3.
      replace (S (LotR.listings c) + i)%nat with (LotR.listings c + S i)%nat
        by lia.
      apply Hpolls. lia.
    + intros i Hi. apply Htop. lia.
    + intros i j Hi Hj. rewrite P1. apply (Hquiet (S i) j); [lia|exact Hj].
  - rewrite lotr_polled_listings, P3. lia.
  - rewrite lotr_polled_requests. exact P4.
Qed.

End LotRLogin.

Lemma EA_get_code_from_message_value (env : EA.Env) (c : EA.Connector)
    (i : string) (m : Gmail.GmailMessageWrapper) :
  EA.gmail_connector c = true ->
  EA.email c <> "" ->
  Gmail.get_message_details (EA.mailbox env) i = Some m ->
  EA.get_code_from_message env i c
  = (Returned (mail_code (EA.email c) m), c).
Proof.
  intros Hg He Hm. unfold EA.get_code_from_message, mail_code.
  unfold bind, gets, ret. rewrite Hg, Hm. simpl.
  destruct (Gmail.receiver m) as [r|]; simpl; [|reflexivity].
  destruct (Gmail.subject m) as [s|]; simpl;
    [|rewrite orb_true_r; reflexivity].
  destruct (String.eqb_spec r ""); simpl.
  - subst r. rewrite (contains_empty _ He). reflexivity.
  - destruct (String.eqb_spec s ""); simpl.
    + subst s. destruct (Str.contains _ _); reflexivity.
    + destruct (Str.contains _ _); reflexivity.
Qed.

Section EAPolling.
Variable env : EA.Env.
Local Abbreviation mb := (EA.mailbox env).

Lemma EA_get_code_quiet (c : EA.Connector) (i : string) :
  EA.gmail_connector c = true ->
  EA.email c <> "" ->
  quiet mb (EA.email c) i ->
  EA.get_code_from_message env i c = (Returned None, c).
Proof.
  intros Hg He [Hf Hq]. unfold code_of in Hq.
  destruct (Gmail.get_message_details mb i) as [m|] eqn:Hm; [|congruence].
  rewrite (EA_get_code_from_message_value env c i m Hg He Hm), Hq. reflexivity.
Qed.

Lemma EA_get_code_found (c : EA.Connector) (i code : string) :
  EA.gmail_connector c = true ->
  EA.email c <> "" ->
  code_of mb (EA.email c) i = Some code ->
  EA.get_code_from_message env i c = (Returned (Some code), c)
  /\ truthy (Some code) = true.
Proof.
  intros Hg He Hq. unfold code_of in Hq.
  destruct (Gmail.get_message_details mb i) as [m|] eqn:Hm; [|discriminate].
  rewrite (EA_get_code_from_message_value env c i m Hg He Hm), Hq.
  split; [reflexivity|]. exact (mail_code_is_truthy _ _ _ Hq).
Qed.

Lemma EA_scan_passes_quiet (c : EA.Connector) (pre_id : string)
    (l rest : list string) :
  EA.gmail_connector c = true ->
  EA.email c <> "" ->
  ~ In pre_id l ->
  (forall i, In i l -> quiet mb (EA.email c) i) ->
  EA.scan env pre_id (l ++ rest)%list None c = EA.scan env pre_id rest None c.
Proof.
  intros Hg He. induction l as [|i l IH]; intros Hpre Hq; [reflexivity|].
  simpl. destruct (String.eqb_spec i pre_id) as [->|_].
  - exfalso. apply Hpre. now left.
  - unfold bind at 1.
    rewrite (EA_get_code_quiet c i Hg He (Hq i (or_introl eq_refl))). simpl.
    apply IH.
    + intros Hin. apply Hpre. now right.
    + intros j Hj. apply Hq. now right.
Qed.

Lemma EA_scan_stops_at_baseline (c : EA.Connector) (pre_id : string)
    (rest : list string) (code : option string) :
  EA.scan env pre_id (pre_id :: rest) code c = (Returned code, c).
Proof. simpl. rewrite String.eqb_refl. reflexivity. Qed.

Lemma EA_scan_finds (c : EA.Connector) (pre_id i code : string)
    (rest : list string) :
  EA.gmail_connector c = true ->
  EA.email c <> "" ->
  i <> pre_id ->
  code_of mb (EA.email c) i = Some code ->
  EA.scan env pre_id (i :: rest) None c = (Returned (Some code), c).
Proof.
  intros Hg He Hne Hc. simpl.
  destruct (String.eqb_spec i pre_id) as [|_]; [contradiction|].
  destruct (EA_get_code_found c i code Hg He Hc) as [E T].
  unfold bind at 1. rewrite E, T. reflexivity.
Qed.

(** The head of one pass of the loop: the sleep and the listing. *)
Lemma EA_poll_lists (c : EA.Connector) (t : Q) (a : nat)
    (pre : EA.messages_list) (l : list string) (code : option string) :
  EA.gmail_connector c = true ->
  Config.login_sleep_time (EA.config c) = Returned t ->
  ea_sleeps env t ->
  Gmail.get_messages mb (EA.listings c) = Some l ->
  EA.poll env (S a) pre code c
  = (new_id <- EA.first_id (EA.ListResponse l) ;;
     pre_id <- EA.first_id pre ;;
     if negb (negb (String.eqb new_id pre_id))
     then EA.poll env a pre code
     else
       entries <- EA.messages (EA.ListResponse l) ;;
       code' <- EA.scan env pre_id entries code ;;
       if truthy code' then ret code'
       else EA.poll env a (EA.ListResponse l) code') (ea_tick t c).
Proof.
  intros Hg Ht Ht0 Hl.
  cbn [EA.poll]. unfold bind at 1. unfold EA.cfg. rewrite Ht.
  unfold bind at 1. rewrite (ClockFacts.EA_sleep_runs env t c Ht0).
  unfold bind at 1. unfold EA._get_messages at 1.
  unfold bind at 1, gets at 1.
  change (EA.gmail_connector (EA.set_time (EA.time c + t)%Q c))
    with (EA.gmail_connector c).
  rewrite Hg. cbv beta iota. change (negb true) with false. cbv iota.
  unfold bind at 1. unfold EA.logger at 1, modify at 1.
  unfold bind at 1, gets at 1. unfold bind at 1, modify at 1.
  cbv beta iota.
  cbn [EA.listings EA.set_log EA.set_time]. rewrite Hl. reflexivity.
Qed.

Lemma EA_poll_quiet_pass (c : EA.Connector) (t : Q) (a : nat)
    (b : string) (p delta : list string) :
  EA.gmail_connector c = true ->
  EA.email c <> "" ->
  Config.login_sleep_time (EA.config c) = Returned t ->
  ea_sleeps env t ->
  Gmail.get_messages mb (EA.listings c) = Some (delta ++ b :: p)%list ->
  ~ In b delta ->
  (forall i, In i delta -> quiet mb (EA.email c) i) ->
  EA.poll env (S a) (EA.ListResponse (b :: p)) None c
  = EA.poll env a (EA.ListResponse (delta ++ b :: p)%list) None (ea_tick t c).
Proof.
  intros Hg He Ht Ht0 Hl Hb Hq.
  rewrite (EA_poll_lists c t a _ _ None Hg Ht Ht0 Hl).
  destruct delta as [|d delta].
  - simpl. rewrite !bind_ret. rewrite String.eqb_refl. reflexivity.
  - simpl app. simpl EA.first_id. simpl EA.messages.
    rewrite !bind_ret.
    destruct (String.eqb_spec d b) as [->|_].
    { exfalso. apply Hb. now left. }
    change (negb (negb false)) with false. cbv iota. rewrite bind_ret.
    unfold bind at 1.
    change (d :: delta ++ b :: p)%list with ((d :: delta) ++ b :: p)%list.
    rewrite (EA_scan_passes_quiet (ea_tick t c) b (d :: delta) (b :: p) Hg He Hb Hq).
    rewrite EA_scan_stops_at_baseline. reflexivity.
Qed.

Lemma EA_poll_finds (c : EA.Connector) (t : Q) (a : nat)
    (b m code : string) (p above below : list string) :
  EA.gmail_connector c = true ->
  EA.email c <> "" ->
  Config.login_sleep_time (EA.config c) = Returned t ->
  ea_sleeps env t ->
  Gmail.get_messages mb (EA.listings c)
  = Some ((above ++ m :: below) ++ b :: p)%list ->
  ~ In b (above ++ m :: below)%list ->
  (forall i, In i above -> quiet mb (EA.email c) i) ->
  code_of mb (EA.email c) m = Some code ->
  EA.poll env (S a) (EA.ListResponse (b :: p)) None c
  = (Returned (Some code), ea_tick t c).
Proof.
  intros Hg He Ht Ht0 Hl Hb Hq Hm.
  rewrite (EA_poll_lists c t a _ _ None Hg Ht Ht0 Hl).
  assert (Hhd : exists d l, (above ++ m :: below)%list = d :: l).
  { destruct above; simpl; eauto. }
  destruct Hhd as (d & l & Hdl).
  assert (Hd : d <> b).
  { intros ->. apply Hb. rewrite Hdl. now left. }
  rewrite Hdl at 1. simpl app. simpl EA.first_id. simpl EA.messages.
  rewrite !bind_ret.
  destruct (String.eqb_spec d b) as [|_]; [contradiction|].
  change (negb (negb false)) with false. cbv iota. rewrite bind_ret.
  unfold bind at 1. rewrite <- app_assoc.
  rewrite (EA_scan_passes_quiet (ea_tick t c) b above _ Hg He).
  - simpl app.
    rewrite (EA_scan_finds (ea_tick t c) b m code _ Hg He).
    + destruct (EA_get_code_found (ea_tick t c) m code Hg He Hm) as [_ T].
      rewrite T. reflexivity.
    + intros ->. apply Hb. apply in_or_app. right. now left.
    + exact Hm.
  - intros Hin. apply Hb. apply in_or_app. now left.
  - exact Hq.
Qed.

End EAPolling.

Section EAPolling2.
Variable env : EA.Env.
Local Abbreviation mb := (EA.mailbox env).

Lemma ea_tick_listings t c : EA.listings (ea_tick t c) = S (EA.listings c).
Proof. reflexivity. Qed.

Lemma ea_polled_email t k c : EA.email (ea_polled t k c) = EA.email c.
Proof. revert c. induction k as [|k IH]; intros c; [reflexivity|]. simpl. now rewrite IH. Qed.
Lemma ea_polled_gmail t k c : EA.gmail_connector (ea_polled t k c) = EA.gmail_connector c.
Proof. revert c. induction k as [|k IH]; intros c; [reflexivity|]. simpl. now rewrite IH. Qed.
Lemma ea_polled_config t k c : EA.config (ea_polled t k c) = EA.config c.
Proof. revert c. induction k as [|k IH]; intros c; [reflexivity|]. simpl. now rewrite IH. Qed.
Lemma ea_polled_requests t k c : EA.requests (ea_polled t k c) = EA.requests c.
Proof. revert c. induction k as [|k IH]; intros c; [reflexivity|]. simpl. now rewrite IH. Qed.
Lemma ea_polled_listings t k c : EA.listings (ea_polled t k c) = (EA.listings c + k)%nat.
Proof.
  revert c. induction k as [|k IH]; intros c; simpl.
  - now rewrite Nat.add_0_r.
  - rewrite IH. simpl. now rewrite Nat.add_succ_r.
Qed.

Lemma EA_poll_quiet_run (t : Q) (k a : nat) :
  forall (base : list string) (delta : nat -> list string) (c : EA.Connector),
  EA.gmail_connector c = true ->
  EA.email c <> "" ->
  Config.login_sleep_time (EA.config c) = Returned t ->
  ea_sleeps env t ->
  base <> [] ->
  (forall i, (i < k)%nat ->
     Gmail.get_messages mb (EA.listings c + i)%nat
     = Some (inbox base delta (S i))) ->
  (forall i, (i < k)%nat ->
     ~ In (hd "" (inbox base delta i)) (delta (S i))) ->
  (forall i j, (i < k)%nat -> In j (delta (S i)) -> quiet mb (EA.email c) j) ->
  EA.poll env (k + a) (EA.ListResponse base) None c
  = EA.poll env a (EA.ListResponse (inbox base delta k)) None
      (ea_polled t k c).
Proof.
  induction k as [|k IH]; intros base delta c Hg He Ht Ht0 Hb Hl Hn Hq;
    [reflexivity|].
  destruct base as [|b p]; [congruence|].
  change (S k + a)%nat with (S (k + a)).
  rewrite (EA_poll_quiet_pass env c t (k + a) b p (delta 1%nat) Hg He Ht Ht0).
  - rewrite (IH (delta 1%nat ++ b :: p)%list (fun j => delta (S j)) (ea_tick t c)).
    + rewrite inbox_shift. reflexivity.
    + exact Hg.
    + exact He.
    + exact Ht.
    + exact Ht0.
    + intros H. apply app_eq_nil in H as [_ H]. discriminate.
    + intros i Hi. rewrite inbox_shift, ea_tick_listings.
      replace (S (EA.listings c) + i)%nat with (EA.listings c + S i)%nat
        by lia.
      apply Hl. lia.
    + intros i Hi. rewrite inbox_shift. apply (Hn (S i)). lia.
    + intros i j Hi Hj. apply (Hq (S i) j); [lia|exact Hj].
  - specialize (Hl 0%nat (Nat.lt_0_succ k)).
    rewrite Nat.add_0_r in Hl. exact Hl.
  - apply (Hn 0%nat). lia.
  - intros j Hj. apply (Hq 0%nat j); [lia|exact Hj].
Qed.

Variable c : EA.Connector.
Variables (base : list string) (delta : nat -> list string).
Variables (n : Z) (t : Q).
Hypothesis Hg : EA.gmail_connector c = true.
Hypothesis He : EA.email c <> "".
Hypothesis Hbase : base <> [].
Hypothesis Hn : Config.max_login_attempts (EA.config c) = Returned n.
Hypothesis Ht : Config.login_sleep_time (EA.config c) = Returned t.
Hypothesis Ht0 : ea_sleeps env t.
Hypothesis Hpolls : forall j, (j < Z.to_nat n)%nat ->
  Gmail.get_messages mb (EA.listings c + j)%nat
  = Some (inbox base delta (S j)).
Hypothesis Htop : forall j, (j < Z.to_nat n)%nat ->
  ~ In (hd "" (inbox base delta j)) (delta (S j)).


Lemma EA_get_code_reaches_poll :
  EA._get_code_from_gmail_account env (EA.ListResponse base) c
  = EA.poll env (Z.to_nat n) (EA.ListResponse base) None (ea_started c).
Proof.
  unfold EA._get_code_from_gmail_account. unfold bind at 1, gets at 1.
  rewrite Hg. cbn [negb]. cbv iota.
  unfold bind at 1. unfold EA.logger at 1, modify at 1.
  unfold bind at 1. unfold EA.cfg at 1.
  cbn [EA.config EA.set_log]. rewrite Hn. reflexivity.
Qed.

Lemma EA_get_code_finds (k : nat) (above below : list string) (m code : string) :
  (1 <= k <= Z.to_nat n)%nat ->
  (forall j i, (1 <= j < k)%nat -> In i (delta j) -> quiet mb (EA.email c) i) ->
  delta k = (above ++ m :: below)%list ->
  (forall i, In i above -> quiet mb (EA.email c) i) ->
  code_of mb (EA.email c) m = Some code ->
  exists c',
    EA._get_code_from_gmail_account env (EA.ListResponse base) c
    = (Returned (Some code), c')
    /\ EA.listings c' = (EA.listings c + k)%nat
    /\ EA.requests c' = EA.requests c.
Proof.
  intros Hk Hquiet Hdelta Habove Hcode.
  destruct k as [|k]; [lia|].
  set (c1 := ea_started c).
  set (c4 := ea_polled t k c1).
  exists (ea_tick t c4). split; [|split].
  - rewrite EA_get_code_reaches_poll. fold c1.
    replace (Z.to_nat n) with (k + S (Z.to_nat n - S k))%nat by lia.
    rewrite (EA_poll_quiet_run t k _ base delta c1 Hg He Ht Ht0 Hbase).
    + fold c4.
      destruct (inbox base delta k) as [|b p] eqn:Hin.
      { exfalso. exact (inbox_nonempty base delta k Hbase Hin). }
      apply (EA_poll_finds env c4 t _ b m code p above below).
      * unfold c4. rewrite ea_polled_gmail. exact Hg.
      * unfold c4. rewrite ea_polled_email. exact He.
      * unfold c4. rewrite ea_polled_config. exact Ht.
      * exact Ht0.
      * unfold c4. rewrite ea_polled_listings.
        change (EA.listings c1) with (EA.listings c).
        rewrite (Hpolls k) by lia. simpl. rewrite Hin, Hdelta. reflexivity.
      * rewrite <- Hdelta. specialize (Htop k). rewrite Hin in Htop.
        apply Htop. lia.
      * intros i Hi. unfold c4. rewrite ea_polled_email. now apply Habove.
      * unfold c4. rewrite ea_polled_email. exact Hcode.
    + intros i Hi. apply Hpolls. lia.
    + intros i Hi. apply Htop. lia.
    + intros i j Hi Hj. apply (Hquiet (S i) j); [lia|exact Hj].
  - simpl. unfold c4. rewrite ea_polled_listings. simpl. lia.
  - simpl. unfold c4. rewrite ea_polled_requests. reflexivity.
Qed.

(** The state in which the loop ends when no delivery carries a code. *)
Lemma EA_get_code_None_state :
  (forall j i, (1 <= j <= Z.to_nat n)%nat -> In i (delta j) ->
     quiet mb (EA.email c) i) ->
  EA._get_code_from_gmail_account env (EA.ListResponse base) c
  = (Returned None, ea_polled t (Z.to_nat n) (ea_started c)).
Proof.
  intros Hquiet.
  set (c1 := ea_started c).
  rewrite EA_get_code_reaches_poll. fold c1.
  replace (Z.to_nat n) with (Z.to_nat n + 0)%nat at 1 by lia.
  rewrite (EA_poll_quiet_run t (Z.to_nat n) 0 base delta c1 Hg He Ht Ht0 Hbase).
  - reflexivity.
  - intros i Hi. apply Hpolls. lia.
  - intros i Hi. apply Htop. lia.
  - intros i j Hi Hj. apply (Hquiet (S i) j); [lia|exact Hj].
Qed.

Lemma EA_get_code_gives_None :
  (forall j i, (1 <= j <= Z.to_nat n)%nat -> In i (delta j) ->
     quiet mb (EA.email c) i) ->
  exists c',
    EA._get_code_from_gmail_account env (EA.ListResponse base) c
    = (Returned None, c')
    /\ EA.listings c' = (EA.listings c + Z.to_nat n)%nat
    /\ EA.requests c' = EA.requests c.
Proof.
  intros Hquiet.
  exists (ea_polled t (Z.to_nat n) (ea_started c)). split; [|split].
  - exact (EA_get_code_None_state Hquiet).
  - rewrite ea_polled_listings. reflexivity.
  - rewrite ea_polled_requests. reflexivity.
Qed.

End EAPolling2.

Lemma ea_polled_stdout t k c : EA.stdout (ea_polled t k c) = EA.stdout c.
Proof. revert c. induction k as [|k IH]; intros c; [reflexivity|]. simpl. now rewrite IH. Qed.
Lemma ea_polled_prompts t k c : EA.prompts (ea_polled t k c) = EA.prompts c.
Proof. revert c. induction k as [|k IH]; intros c; [reflexivity|]. simpl. now rewrite IH. Qed.

(** Lines 265 to 268 of [_perform_login] in their place: when both sign-in
    pages answer 200 and the polling finds no code, the operator is asked on
    the console, and the code that is submitted is the operator's line.  The
    result is what the reply to that code gives; a missing mail raises
    nothing. *)
Lemma EA_perform_login_asks_operator (env : EA.Env) (c : EA.Connector)
    (url : string) (base : list string) (delta : nat -> list string)
    (n : Z) (t : Q) (r1 r2 : EA.Response) :
  base <> [] ->
  (0 <= t)%Q ->
  (forall j, (j < Z.to_nat n)%nat ->
     ~ In (hd "" (inbox base delta j)) (delta (S j))) ->
  EA.gmail_connector c = true ->
  EA.email c <> "" ->
  Config.max_login_attempts (EA.config c) = Returned n ->
  Config.login_sleep_time (EA.config c) = Returned t ->
  EA.http env (length (EA.requests c)) = Returned r1 ->
  EA.status_code r1 = 200 ->
  EA.http env (S (length (EA.requests c))) = Returned r2 ->
  EA.status_code r2 = 200 ->
  (forall now, EA.clock_range env now t = Returned tt) ->
  (forall j, (j <= Z.to_nat n)%nat ->
     Gmail.get_messages (EA.mailbox env) (EA.listings c + j)%nat
     = Some (inbox base delta j)) ->
  (forall j i, (1 <= j <= Z.to_nat n)%nat -> In i (delta j) ->
     quiet (EA.mailbox env) (EA.email c) i) ->
  let r := EA._perform_login env url c in
  let typed := EA.input env (EA.prompts c) in
  EA.stdout (snd r) = (EA.stdout c ++ Obs.operator_prompt)%list
  /\ EA.prompts (snd r) = S (EA.prompts c)
  /\ EA.listings (snd r) = (EA.listings c + 1 + Z.to_nat n)%nat
  /\ EA.requests (snd r)
     = (EA.requests c
        ++ [Obs.signin_request url; Obs.email_request url (EA.email c);
            Obs.code_request (EA.url r2) typed])%list
  /\ fst r
     = Obs.access_code_of (EA.http env (S (S (length (EA.requests c))))).
Proof.
  intros Hbase Ht0 Htop Hg He Hn Ht H1 Hs1 H2 Hs2 Hclock Hpolls Hquiet.
  cbv zeta.
  (* the sign-in page, and the baseline listing *)
  set (c1 := EA.set_session (Requests.update (EA.session c) (EA.cookies r1))
               (EA.set_requests (EA.requests c ++ [Obs.signin_request url])%list c)).
  assert (S1 : EA.send env (Obs.signin_request url) c = (Returned r1, c1)).
  { unfold EA.send. rewrite H1. reflexivity. }
  set (c2 := snd (EA.logger Logging.DEBUG "Submit email..." [] c1)).
  set (c3 := EA.set_listings (S (EA.listings c)) (ea_started c2)).
  assert (S3 : EA._get_messages env c2 = (Returned (EA.ListResponse base), c3)).
  { unfold EA._get_messages. unfold bind at 1, gets at 1.
    change (EA.gmail_connector c2) with (EA.gmail_connector c). rewrite Hg.
    cbn [negb]. cbv iota.
    unfold bind at 1. unfold EA.logger at 1, modify at 1.
    unfold bind at 1, gets at 1. unfold bind at 1, modify at 1.
    cbv beta iota. cbn [EA.listings EA.set_log].
    change (EA.listings c2) with (EA.listings c).
    pose proof (Hpolls 0%nat (Nat.le_0_l _)) as H0.
    rewrite Nat.add_0_r in H0. simpl in H0. rewrite H0. reflexivity. }
  (* the e-mail address *)
  set (c4 := EA.set_session (Requests.update (EA.session c3) (EA.cookies r2))
               (EA.set_requests
                  (EA.requests c3 ++ [Obs.email_request url (EA.email c)])%list c3)).
  assert (S4 : EA.send env (Obs.email_request url (EA.email c)) c3
               = (Returned r2, c4)).
  { unfold EA.send.
    change (EA.requests c3) with (EA.requests c ++ [Obs.signin_request url])%list.
    rewrite length_app. simpl length. rewrite Nat.add_1_r, H2. reflexivity. }
  (* the polling *)
  set (c5 := ea_polled t (Z.to_nat n) (ea_started c4)).
  assert (S5 : EA._get_code_from_gmail_account env (EA.ListResponse base) c4
               = (Returned None, c5)).
  { apply (EA_get_code_None_state env c4 base delta n t); try assumption.
    - split; assumption.
    - intros j Hj. change (EA.listings c4) with (S (EA.listings c)).
      replace (S (EA.listings c) + j)%nat with (EA.listings c + S j)%nat by lia.
      apply Hpolls. lia. }
  assert (P5 : EA.stdout c5 = EA.stdout c /\ EA.prompts c5 = EA.prompts c
               /\ EA.listings c5 = (EA.listings c + 1 + Z.to_nat n)%nat
               /\ EA.requests c5
                  = (EA.requests c ++ [Obs.signin_request url;
                                       Obs.email_request url (EA.email c)])%list).
  { unfold c5.
    rewrite ea_polled_stdout, ea_polled_prompts, ea_polled_listings,
      ea_polled_requests.
    repeat split.
    - simpl. lia.
    - simpl. rewrite <- app_assoc. reflexivity. }
  destruct P5 as (Q1 & Q2 & Q3 & Q4).
  destruct (EA._perform_login env url c) as [res cf] eqn:E.
  unfold EA._perform_login in E.
  fold (Obs.signin_request url) in E.
  unfold bind at 1 in E. rewrite S1, Hs1 in E.
  cbn [Z.eqb Pos.eqb negb] in E. cbv iota in E.
  unfold bind at 1 in E.
  change (EA.logger Logging.DEBUG "Submit email..." [] c1)
    with (@Returned unit tt, c2) in E.
  cbv iota beta in E.
  unfold bind at 1 in E. rewrite S3 in E.
  unfold bind at 1, gets at 1 in E. cbv iota beta in E.
  change (EA.email c3) with (EA.email c) in E.
  fold (Obs.email_request url (EA.email c)) in E.
  unfold bind at 1 in E. rewrite S4, Hs2 in E.
  cbn [Z.eqb Pos.eqb negb] in E. cbv iota in E.
  unfold bind at 1 in E. rewrite S5 in E.
  unfold bind at 1 in E.
  unfold EA.ask_operator, EA.send, bind, gets, modify, ret, raise in E.
  cbn [EA.requests EA.stdout EA.prompts EA.set_console EA.set_requests
       EA.set_session fst snd] in E.
  rewrite Q2, Q4 in E.
  rewrite length_app in E. simpl length in E.
  replace (length (EA.requests c) + 2)%nat
    with (S (S (length (EA.requests c)))) in E by lia.
  unfold Obs.access_code_of.
  destruct (EA.http env (S (S (length (EA.requests c))))) as [r3|e];
    unfold rbind.
  - destruct (negb (EA.status_code r3 =? 200)).
    + injection E as <- <-.
      cbn [fst snd EA.stdout EA.prompts EA.listings EA.requests
           EA.set_console EA.set_requests EA.set_session].
      rewrite Q1, Q3, <- !app_assoc. repeat split.
    + destruct (EA.query_code r3); injection E as <- <-;
        cbn [fst snd EA.stdout EA.prompts EA.listings EA.requests
             EA.set_console EA.set_requests EA.set_session];
        rewrite Q1, Q3, <- !app_assoc; repeat split.
  - injection E as <- <-.
    cbn [fst snd EA.stdout EA.prompts EA.listings EA.requests
         EA.set_console EA.set_requests EA.set_session].
    rewrite Q1, Q3, <- !app_assoc. repeat split.
Qed.


(** With a negative [login_sleep_time] the first pass of either polling
    loop ends with the exception of [time.sleep], [ValueError] for every
    length that the platform holds, before the inbox is listed. *)
Lemma poll_with_a_negative_sleep_time (t : Q) :
  (t < 0)%Q ->
  (forall (env : LotR.Env) (c : LotR.Connector) a pre code,
      Config.login_sleep_time (LotR.config c) = Returned t ->
      LotR.clock_range env (LotR.time c) t = Returned tt ->
      LotR.poll env (S a) pre code c = (Raised ValueError, c))
  /\ (forall (env : EA.Env) (c : EA.Connector) a pre code,
      Config.login_sleep_time (EA.config c) = Returned t ->
      EA.clock_range env (EA.time c) t = Returned tt ->
      EA.poll env (S a) pre code c = (Raised ValueError, c)).
Proof.
  intros Hneg. split; intros env c a pre code Ht Hc.
  - cbn [LotR.poll]. unfold bind at 1. unfold LotR.cfg. rewrite Ht.
    unfold bind at 1. rewrite (ClockFacts.LotR_sleep_negative env t c Hneg), Hc.
    reflexivity.
  - cbn [EA.poll]. unfold bind at 1. unfold EA.cfg. rewrite Ht.
    unfold bind at 1. rewrite (ClockFacts.EA_sleep_negative env t c Hneg), Hc.
    reflexivity.
Qed.



(** A listing outside the theorem above: on an empty inbox the LotR [login]
    ends with the [IndexError] of [messages[0]], after the code request was
    sent. *)
Lemma LotR_login_on_an_empty_inbox :
  let env :=
    {| LotR.http := fun _ => Returned (Examples.lotr_response 200);
       LotR.uuid4 := fun _ => "";
       LotR.mailbox :=
         {| Gmail.get_messages := fun _ => Some [];
            Gmail.get_message_details := fun _ => None |};
       LotR.clock_range := fun _ _ => Returned tt;
       LotR.pickle_load := Examples.pickle_load;
       LotR.pickle_dump := Examples.pickle_dump |} in
  let r := LotR.login env (Examples.lotr (Examples.config false false 0 2)) in
  fst r = Raised IndexError
  /\ LotR.requests (snd r) = [otc_request Examples.email].
Proof.
  vm_compute. split; reflexivity.
Qed.

End PollingFacts.

(** Offer client: the purchase request *)

Module OfferClientMore.
Import Py MonadFacts Obs.
Local Open Scope py_scope.

Lemma LotR_purchase_offer_run (env : LotR.Env) (c : LotR.Connector)
    (item_id currency_type : string) :
  let n := length (LotR.requests c) in
  let request :=
    {| Requests.meth := Requests.POST;
       Requests.url := LotR.BASE_URL ++ "/store/purchase";
       Requests.headers := LotR.default_headers;
       Requests.body := purchase_body item_id currency_type (LotR.uuid4 env n) |} in
  LotR.requests (snd (LotR.purchase_offer env item_id currency_type c))
  = (LotR.requests c ++ [request])%list
  /\ LotR.scheduler (snd (LotR.purchase_offer env item_id currency_type c))
     = LotR.scheduler c
  /\ fst (LotR.purchase_offer env item_id currency_type c)
     = rbind (LotR.http env n) (fun response =>
         by_status (LotR.status_code response) (LotR.json response)).
Proof.
  intros n request. subst n request.
  unfold LotR.purchase_offer, LotR.send, LotR.logger, by_status,
    bind, gets, modify, lift, ret, raise.
  simpl.
  destruct (LotR.http env (length (LotR.requests c))) as [response|e]; simpl.
  - destruct (LotR.status_code response =? 200).
    + destruct (LotR.json response); simpl; repeat split.
    + destruct (LotR.status_code response =? 401); simpl; repeat split.
  - repeat split.
Qed.

Lemma EA_purchase_offer_run (env : EA.Env) (c : EA.Connector)
    (item_id currency_type : string) :
  let n := length (EA.requests c) in
  let request :=
    {| Requests.meth := Requests.POST;
       Requests.url := EA.BASE_URL (EA.class c) ++ "/store/purchase";
       Requests.headers :=
         if truthy (EA.auth_id c)
         then [("X-Rpc-Auth-Id", match EA.auth_id c with Some i => i | None => "" end);
               ("Accept-Language", "DE")]
         else [("Accept-Language", "DE")];
       Requests.body := purchase_body item_id currency_type (EA.uuid4 env n) |} in
  EA.requests (snd (EA.purchase_offer env item_id currency_type c))
  = (EA.requests c ++ [request])%list
  /\ EA.scheduler (snd (EA.purchase_offer env item_id currency_type c))
     = EA.scheduler c
  /\ fst (EA.purchase_offer env item_id currency_type c)
     = rbind (EA.http env n) (fun response =>
         by_status (EA.status_code response) (EA.json response)).
Proof.
  intros n request. subst n request.
  unfold EA.purchase_offer, EA.get_default_headers, EA.send, EA.logger,
    by_status, bind, gets, modify, lift, ret, raise.
  simpl.
  destruct (EA.auth_id c) as [a|]; simpl;
    [destruct (negb (a =? "")%string)|]; simpl.
  all: destruct (EA.http env (length (EA.requests c))) as [response|e]; simpl;
    [ destruct (EA.status_code response =? 200);
      [ destruct (EA.json response); simpl; repeat split
      | destruct (EA.status_code response =? 401); simpl; repeat split ]
    | repeat split ].
Qed.

(** X1. [purchase_offer] sends exactly one request, the POST to
    [/store/purchase] that carries the item id, the currency type and a
    fresh request id, and leaves the scheduler alone.  What it returns
    depends on the reply only: the decoded body on status 200, [None] on
    401, [NotImplementedError] on any other status, and the exception of
    the transport when the request itself fails.  This holds for the LotR
    connector and for the base connector. *)
Theorem purchase_offer_sends_one_request_and_maps_the_status
    (item_id currency_type : string) :
  (forall (env : LotR.Env) (c : LotR.Connector),
      let r := LotR.purchase_offer env item_id currency_type c in
      let n := length (LotR.requests c) in
      LotR.requests (snd r)
      = (LotR.requests c
         ++ [lotr_purchase_request env n item_id currency_type])%list
      /\ LotR.scheduler (snd r) = LotR.scheduler c
      /\ fst r = rbind (LotR.http env n) (fun response =>
                   by_status (LotR.status_code response) (LotR.json response)))
  /\ (forall (env : EA.Env) (c : EA.Connector),
      let r := EA.purchase_offer env item_id currency_type c in
      EA.requests (snd r)
      = (EA.requests c ++ [ea_purchase_request env c item_id currency_type])%list
      /\ EA.scheduler (snd r) = EA.scheduler c
      /\ fst r = rbind (EA.http env (length (EA.requests c))) (fun response =>
                   by_status (EA.status_code response) (EA.json response))).
Proof.
  split; intros env c.
  - exact (LotR_purchase_offer_run env c item_id currency_type).
  - exact (EA_purchase_offer_run env c item_id currency_type).
Qed.

End OfferClientMore.

(** Session file: saving and loading *)

Module SessionMore.
Import Py MonadFacts.
Local Open Scope py_scope.



(** X3. What [save_session] writes, [load_session] reads back, as far as
    [pickle] restores what it wrote: a connector on the file that another
    connector has saved, whatever session it holds itself, holds the saved
    session after [load_session], and the file is as it was written.  For
    the base connector the [auth_id] is not part of what is saved: loading
    leaves the connector's own as it is. *)
Theorem save_then_load_restores_the_session :
  (forall (env : LotR.Env) (c c' : LotR.Connector),
      LotR.pickle_load env (LotR.pickle_dump env (LotR.session c))
      = Returned (LotR.session c) ->
      LotR.session_file c' = LotR.session_file (snd (LotR.save_session env c)) ->
      let r := LotR.load_session env c' in
      fst r = Returned tt
      /\ LotR.session (snd r) = LotR.session c
      /\ LotR.session_file (snd r) = Some (LotR.pickle_dump env (LotR.session c)))
  /\ (forall (env : EA.Env) (c c' : EA.Connector),
      EA.pickle_load env (EA.pickle_dump env (EA.session c))
      = Returned (EA.session c) ->
      EA.session_file c' = EA.session_file (snd (EA.save_session env c)) ->
      let r := EA.load_session env c' in
      fst r = Returned tt
      /\ EA.session (snd r) = EA.session c
      /\ EA.auth_id (snd r) = EA.auth_id c'
      /\ EA.session_file (snd r) = Some (EA.pickle_dump env (EA.session c))).
Proof.
  split; intros env c c' H Hfile r; subst r.
  - change (LotR.session_file (snd (LotR.save_session env c)))
      with (Some (LotR.pickle_dump env (LotR.session c))) in Hfile.
    unfold LotR.load_session, LotR.logger, bind, gets, modify, lift, ret.
    rewrite Hfile, H. simpl. repeat split. exact Hfile.
  - change (EA.session_file (snd (EA.save_session env c)))
      with (Some (EA.pickle_dump env (EA.session c))) in Hfile.
    unfold EA.load_session, EA.logger, bind, gets, modify, lift, ret.
    rewrite Hfile, H. simpl. repeat split. exact Hfile.
Qed.

Lemma save_then_load_restores_the_session_witness :
  let env := Examples.lotr_env (fun _ => Raised RequestTimeout) in
  let saved := snd (LotR.save_session env
                      (LotR.set_session [("session", "abc")]
                         (Examples.lotr (Examples.config false false 0 2)))) in
  let other := LotR.new (Examples.config false false 0 2) Examples.email 7
                 (LotR.session_file saved) in
  LotR.session other = []
  /\ LotR.session (snd (LotR.load_session env other)) = [("session", "abc")].
Proof.
  intros env saved other. split; [reflexivity|].
  exact (proj1 (proj2
    (proj1 save_then_load_restores_the_session env
       (LotR.set_session [("session", "abc")]
          (Examples.lotr (Examples.config false false 0 2)))
       other eq_refl eq_refl))).
Defined.

End SessionMore.

(** What the client calls leave untouched *)

Module FrameFacts.
Import Py MonadFacts Frame.
Local Open Scope py_scope.

Section Generic.
Context {S : Type} (R : S -> S -> Prop).
Hypothesis R_refl : forall s, R s s.
Hypothesis R_trans : forall a b c, R a b -> R b c -> R a c.

Lemma keeps_ret {A} (a : A) : keeps R (ret a).
Proof. intros s. apply R_refl. Qed.

Lemma keeps_raise {A} (e : exn) : keeps R (@raise S A e).
Proof. intros s. apply R_refl. Qed.

Lemma keeps_lift {A} (r : result A) : keeps R (@lift S A r).
Proof. intros s. apply R_refl. Qed.

Lemma keeps_gets {A} (f : S -> A) : keeps R (gets f).
Proof. intros s. apply R_refl. Qed.

Lemma keeps_modify (f : S -> S) : (forall s, R s (f s)) -> keeps R (modify f).
Proof. intros H s. apply H. Qed.

Lemma keeps_bind {A B} (m : M S A) (k : A -> M S B) :
  keeps R m -> (forall a, keeps R (k a)) -> keeps R (bind m k).
Proof.
  intros Hm Hk s. unfold bind. specialize (Hm s).
  destruct (m s) as [[a|e] s1]; simpl in *.
  - exact (R_trans _ _ _ Hm (Hk a s1)).
  - exact Hm.
Qed.

End Generic.

Lemma lotr_same_schedule_refl c : lotr_same_schedule c c.
Proof. split; reflexivity. Qed.

Lemma lotr_same_schedule_trans a b c :
  lotr_same_schedule a b -> lotr_same_schedule b c -> lotr_same_schedule a c.
Proof. intros [H1 H2] [H3 H4]. split; congruence. Qed.

Ltac lotr_frame :=
  repeat
    match goal with
    | |- keeps _ (ret _) => apply (keeps_ret _ lotr_same_schedule_refl)
    | |- keeps _ (raise _) => apply (keeps_raise _ lotr_same_schedule_refl)
    | |- keeps _ (lift _) => apply (keeps_lift _ lotr_same_schedule_refl)
    | |- keeps _ (gets _) => apply (keeps_gets _ lotr_same_schedule_refl)
    | |- keeps _ (LotR.cfg _) => intros ?; apply lotr_same_schedule_refl
    | |- keeps _ (LotR.logger _ _ _) => intros ?; split; reflexivity
    | |- keeps _ (LotR.sleep _ _) => unfold LotR.sleep
    | |- keeps _ (modify _) => intros ?; split; reflexivity
    | |- keeps _ (bind _ _) =>
        apply (keeps_bind _ lotr_same_schedule_trans); [|intros ?]
    | |- keeps _ (if ?b then _ else _) => destruct b
    | |- keeps _ (match ?x with _ => _ end) => destruct x
    end.

Lemma LotR_send_keeps env r : keeps lotr_same_schedule (LotR.send env r).
Proof.
  intros c. unfold LotR.send.
  destruct (LotR.http env _); split; reflexivity.
Qed.

Lemma LotR_get_offers_keeps env : keeps lotr_same_schedule (LotR.get_offers env).
Proof.
  unfold LotR.get_offers.
  apply (keeps_bind _ lotr_same_schedule_trans); [lotr_frame|intros e].
  apply (keeps_bind _ lotr_same_schedule_trans); [lotr_frame|intros ?].
  apply (keeps_bind _ lotr_same_schedule_trans); [apply LotR_send_keeps|intros response].
  lotr_frame.
Qed.

Lemma LotR_purchase_offer_keeps env i cur :
  keeps lotr_same_schedule (LotR.purchase_offer env i cur).
Proof.
  unfold LotR.purchase_offer.
  apply (keeps_bind _ lotr_same_schedule_trans); [lotr_frame|intros e].
  apply (keeps_bind _ lotr_same_schedule_trans); [lotr_frame|intros ?].
  apply (keeps_bind _ lotr_same_schedule_trans); [lotr_frame|intros ?].
  apply (keeps_bind _ lotr_same_schedule_trans); [apply LotR_send_keeps|intros response].
  lotr_frame.
Qed.

Lemma LotR_get_code_keeps env i :
  keeps lotr_same_schedule (LotR.get_code_from_message env i).
Proof. unfold LotR.get_code_from_message. lotr_frame. Qed.

Lemma LotR_get_messages_keeps env : keeps lotr_same_schedule (LotR.get_messages env).
Proof. unfold LotR.get_messages. lotr_frame. Qed.

Lemma LotR_scan_keeps env pre entries : forall code,
  keeps lotr_same_schedule (LotR.scan env pre entries code).
Proof.
  induction entries as [|e entries IH]; intros code; simpl; [lotr_frame|].
  destruct (String.eqb e pre); [lotr_frame|].
  apply (keeps_bind _ lotr_same_schedule_trans); [apply LotR_get_code_keeps|].
  intros code'. destruct (truthy code'); [lotr_frame|apply IH].
Qed.

Lemma LotR_poll_keeps env attempts : forall pre code,
  keeps lotr_same_schedule (LotR.poll env attempts pre code).
Proof.
  induction attempts as [|a IH]; intros pre code; simpl; [lotr_frame|].
  apply (keeps_bind _ lotr_same_schedule_trans); [lotr_frame|intros secs].
  apply (keeps_bind _ lotr_same_schedule_trans); [lotr_frame|intros ?].
  apply (keeps_bind _ lotr_same_schedule_trans); [apply LotR_get_messages_keeps|intros new].
  apply (keeps_bind _ lotr_same_schedule_trans);
    [unfold LotR.first_id; lotr_frame|intros new_id].
  apply (keeps_bind _ lotr_same_schedule_trans);
    [unfold LotR.first_id; lotr_frame|intros pre_id].
  destruct (negb (negb (String.eqb new_id pre_id))); [apply IH|].
  apply (keeps_bind _ lotr_same_schedule_trans);
    [unfold LotR.messages; lotr_frame|intros entries].
  apply (keeps_bind _ lotr_same_schedule_trans); [apply LotR_scan_keeps|intros code'].
  destruct (truthy code'); [lotr_frame|apply IH].
Qed.

Lemma LotR_request_otc_keeps env : keeps lotr_same_schedule (LotR.request_otc env).
Proof.
  unfold LotR.request_otc.
  apply (keeps_bind _ lotr_same_schedule_trans); [lotr_frame|intros e].
  apply (keeps_bind _ lotr_same_schedule_trans); [apply LotR_send_keeps|intros response].
  lotr_frame.
Qed.

Lemma LotR_verify_otc_keeps env code :
  keeps lotr_same_schedule (LotR.verify_otc env code).
Proof.
  unfold LotR.verify_otc, LotR.save_session.
  apply (keeps_bind _ lotr_same_schedule_trans); [lotr_frame|intros e].
  apply (keeps_bind _ lotr_same_schedule_trans); [apply LotR_send_keeps|intros response].
  lotr_frame.
Qed.

Lemma LotR_login_keeps env : keeps lotr_same_schedule (LotR.login env).
Proof.
  unfold LotR.login.
  apply (keeps_bind _ lotr_same_schedule_trans); [lotr_frame|intros e].
  apply (keeps_bind _ lotr_same_schedule_trans); [lotr_frame|intros ?].
  apply (keeps_bind _ lotr_same_schedule_trans); [apply LotR_get_messages_keeps|intros pre].
  apply (keeps_bind _ lotr_same_schedule_trans); [apply LotR_request_otc_keeps|intros ?].
  apply (keeps_bind _ lotr_same_schedule_trans); [lotr_frame|intros attempts].
  apply (keeps_bind _ lotr_same_schedule_trans); [apply LotR_poll_keeps|intros code].
  destruct code as [x|]; [destruct (truthy (Some x))|]; try apply LotR_verify_otc_keeps;
    lotr_frame.
Qed.

Lemma LotR_fetch_offers_keeps env : keeps lotr_same_schedule (LotR.fetch_offers env).
Proof.
  unfold LotR.fetch_offers.
  apply (keeps_bind _ lotr_same_schedule_trans); [lotr_frame|intros ?].
  apply (keeps_bind _ lotr_same_schedule_trans); [apply LotR_get_offers_keeps|intros offers].
  destruct offers; [lotr_frame|].
  apply (keeps_bind _ lotr_same_schedule_trans); [apply LotR_login_keeps|intros ?].
  apply LotR_get_offers_keeps.
Qed.

Lemma LotR_log_granted_keeps items : keeps lotr_same_schedule (LotR.log_granted items).
Proof.
  induction items as [|g items IH]; simpl; [lotr_frame|].
  apply (keeps_bind _ lotr_same_schedule_trans); [lotr_frame|intros ?]. exact IH.
Qed.

(** X4. Logging in and fetching the offers never touch the schedule of the
    LotR connector: whatever the store and the mailbox answer, and whether
    the call returns or raises, the scheduler (its queue and its counter)
    and the configuration are afterwards what they were before.  The same
    holds for the fetch of [run], which logs in again when the session has
    expired. *)
Theorem LotR_login_and_fetch_leave_the_schedule_alone
    (env : LotR.Env) (c : LotR.Connector) :
  (LotR.scheduler (snd (LotR.login env c)) = LotR.scheduler c
   /\ LotR.config (snd (LotR.login env c)) = LotR.config c)
  /\ (LotR.scheduler (snd (LotR.get_offers env c)) = LotR.scheduler c
      /\ LotR.config (snd (LotR.get_offers env c)) = LotR.config c)
  /\ (LotR.scheduler (snd (LotR.fetch_offers env c)) = LotR.scheduler c
      /\ LotR.config (snd (LotR.fetch_offers env c)) = LotR.config c).
Proof.
  split; [exact (LotR_login_keeps env c)|].
  split; [exact (LotR_get_offers_keeps env c)|exact (LotR_fetch_offers_keeps env c)].
Qed.

End FrameFacts.

(** The queue of the scheduler *)

Module QueueFacts.
Import Py Obs.
Local Open Scope py_scope.

Lemma Event_lt_time (a b : Sched.Event) :
  Sched.Event_lt a b = true -> due_before a b.
Proof.
  unfold Sched.Event_lt, due_before.
  destruct (Qeq_bool (Sched.time a) (Sched.time b)) eqn:E.
  - intros _. apply Qeq_bool_iff in E. rewrite E. apply Qle_refl.
  - intros H. apply negb_true_iff in H.
    destruct (Qlt_le_dec (Sched.time a) (Sched.time b)) as [L|L].
    + apply Qlt_le_weak. exact L.
    + apply Qle_bool_iff in L. congruence.
Qed.

Lemma Event_not_lt_time (a b : Sched.Event) :
  Sched.Event_lt a b = false -> due_before b a.
Proof.
  unfold Sched.Event_lt, due_before.
  destruct (Qeq_bool (Sched.time a) (Sched.time b)) eqn:E.
  - intros _. apply Qeq_bool_iff in E. rewrite E. apply Qle_refl.
  - intros H. apply negb_false_iff in H. apply Qle_bool_iff. exact H.
Qed.

Lemma in_insert (e x : Sched.Event) (l : list Sched.Event) :
  In x (Sched.insert e l) <-> x = e \/ In x l.
Proof.
  induction l as [|y l IH]; simpl.
  - split; [intros [<-|[]]; now left|intros [->|[]]; now left].
  - destruct (Sched.Event_lt e y); simpl.
    + split; [intros [<-|H]; [now left|now right]|intros [->|H]; [now left|now right]].
    + rewrite IH. split.
      * intros [<-|[->|H]]; [right; now left|now left|right; now right].
      * intros [->|[<-|H]]; [right; now left|now left|right; now right].
Qed.

Lemma insert_sorted (e : Sched.Event) (l : list Sched.Event) :
  StronglySorted due_before l -> StronglySorted due_before (Sched.insert e l).
Proof.
  induction 1 as [|x l Hl IH Hx]; simpl.
  - constructor; constructor.
  - destruct (Sched.Event_lt e x) eqn:E.
    + constructor; [constructor; assumption|].
      constructor; [exact (Event_lt_time _ _ E)|].
      apply Forall_forall. intros y Hy.
      unfold due_before in *.
      apply (Qle_trans _ (Sched.time x)); [exact (Event_lt_time _ _ E)|].
      exact (proj1 (Forall_forall _ _) Hx y Hy).
    + constructor; [exact IH|].
      apply Forall_forall. intros y Hy. apply in_insert in Hy as [->|Hy].
      * exact (Event_not_lt_time _ _ E).
      * exact (proj1 (Forall_forall _ _) Hx y Hy).
Qed.

(** What [queue] shows is ordered by due time. *)
Lemma queue_sorted (s : Sched.scheduler) :
  StronglySorted due_before (Sched.queue s).
Proof.
  unfold Sched.queue. induction (Sched._queue s) as [|x l IH]; simpl.
  - constructor.
  - apply insert_sorted. exact IH.
Qed.

Lemma in_queue (s : Sched.scheduler) (e : Sched.Event) :
  In e (Sched.queue s) <-> In e (Sched._queue s).
Proof.
  unfold Sched.queue. induction (Sched._queue s) as [|x l IH]; simpl.
  - tauto.
  - rewrite in_insert, IH. split; intros [H|H]; auto.
Qed.

Lemma queue_is_empty (s : Sched.scheduler) :
  Sched.queue s = [] <-> Sched.empty s = true.
Proof.
  unfold Sched.empty, Sched.queue.
  destruct (Sched._queue s) as [|x l]; simpl.
  - tauto.
  - split; [|discriminate].
    destruct (fold_right Sched.insert [] l) as [|y q]; simpl; [discriminate|].
    destruct (Sched.Event_lt x y); discriminate.
Qed.

Lemma first_purchase_is_earliest (q : list Sched.Event) (e : Sched.Event) :
  StronglySorted due_before q ->
  LotR.purchase_queue q = Some e ->
  forall e', In e' q -> Spec.is_purchase e' = true -> due_before e e'.
Proof.
  induction 1 as [|x l Hl IH Hx]; simpl; [discriminate|].
  unfold Spec.is_purchase in *.
  destruct (Sched.Action_eqb (Sched.action x) Sched.Act_purchase_offer) eqn:E.
  - intros [= <-] e' [<-|Hin] _.
    + apply Qle_refl.
    + exact (proj1 (Forall_forall _ _) Hx e' Hin).
  - intros He e' [<-|Hin] Hp; [congruence|]. exact (IH He e' Hin Hp).
Qed.

End QueueFacts.

(** Scheduling in manual mode and after a queued purchase *)

Module SchedulingMore.
Import Py MonadFacts SchedulingFacts QueueFacts Obs.
Local Open Scope py_scope.

Lemma queue_of_enterabs_is_not_empty (s : Sched.scheduler) t p a kw :
  Sched.queue (Sched.enterabs t p a kw s) <> [].
Proof.
  unfold Sched.queue, Sched.enterabs. simpl. rewrite fold_right_app. simpl.
  generalize (Sched._queue s). intros l.
  induction l as [|x l IH]; simpl; [discriminate|].
  destruct (fold_right Sched.insert _ l) as [|y q]; [contradiction|].
  simpl. destruct (Sched.Event_lt x y); discriminate.
Qed.

Lemma manual_schedule_purchase
    (delay : Z) (item_id currency_type : string) :
  (forall c : LotR.Connector,
      Config.is_self_scheduling (LotR.config c) = Returned false ->
      Config.allow_scheduling (LotR.config c) = Returned false ->
      LotR.schedule_purchase delay item_id currency_type c = (Returned tt, c))
  /\ (forall c : EA.Connector,
      Config.is_self_scheduling (EA.config c) = Returned false ->
      Config.allow_scheduling (EA.config c) = Returned false ->
      fst (EA.schedule_purchase delay item_id currency_type c) = Returned tt
      /\ EA.scheduler (snd (EA.schedule_purchase delay item_id currency_type c))
         = EA.scheduler c
      /\ EA.requests (snd (EA.schedule_purchase delay item_id currency_type c))
         = EA.requests c
      /\ Spec.logged ("Scheduling is deactivated! Item " ++ Str.quoted "%s"
                      ++ " will be available in %s")
           (EA.log (snd (EA.schedule_purchase delay item_id currency_type c)))
         = true).
Proof.
  split; intros c Hs Ha.
  - unfold LotR.schedule_purchase. unfold bind at 1.
    rewrite LotR_scheduling_is_off. unfold Guards.scheduling_is_off.
    rewrite Hs. simpl. rewrite Ha. reflexivity.
  - assert (E : exists r,
               EA.schedule_purchase delay item_id currency_type c
               = (Returned tt, EA.set_log (EA.log c ++ [r]) c)
               /\ Logging.msg r
                  = "Scheduling is deactivated! Item " ++ Str.quoted "%s"
                    ++ " will be available in %s").
    { eexists. split.
      - unfold EA.schedule_purchase. unfold bind at 1.
        rewrite EA_scheduling_is_off. unfold Guards.scheduling_is_off.
        rewrite Hs. cbn [rbind negb]. rewrite Ha. reflexivity.
      - reflexivity. }
    destruct E as (r & -> & Hr). repeat split.
    unfold Spec.logged. cbn [snd EA.log EA.set_log]. rewrite existsb_app.
    apply orb_true_iff. right. cbn [existsb]. rewrite Hr. reflexivity.
Qed.

Lemma manual_schedule_run (run_directly : bool) :
  (forall (c : LotR.Connector) (run : M LotR.Connector unit),
      Config.is_self_scheduling (LotR.config c) = Returned false ->
      Config.allow_scheduling (LotR.config c) = Returned false ->
      LotR.schedule_run run run_directly c = (Returned tt, c))
  /\ (forall (c : EA.Connector) (run : M EA.Connector unit),
      Config.is_self_scheduling (EA.config c) = Returned false ->
      Config.allow_scheduling (EA.config c) = Returned false ->
      EA.schedule_run run run_directly c = (Returned tt, c)).
Proof.
  split; intros c run Hs Ha.
  - unfold LotR.schedule_run. unfold bind at 1.
    rewrite LotR_scheduling_is_off. unfold Guards.scheduling_is_off.
    rewrite Hs. simpl. rewrite Ha. reflexivity.
  - unfold EA.schedule_run. unfold bind at 1.
    rewrite EA_scheduling_is_off. unfold Guards.scheduling_is_off.
    rewrite Hs. simpl. rewrite Ha. reflexivity.
Qed.

Lemma LotR_purchase_queue_some (q : list Sched.Event) (e : Sched.Event) :
  LotR.purchase_queue q = Some e -> In e q /\ Spec.is_purchase e = true.
Proof.
  induction q as [|x q IH]; simpl; [discriminate|].
  destruct (Sched.Action_eqb (Sched.action x) Sched.Act_purchase_offer) eqn:E.
  - intros [= <-]. split; [now left|exact E].
  - intros H. destruct (IH H). split; [now right|assumption].
Qed.

Lemma LotR_get_delta_after_enterabs (c : LotR.Connector) t p a kw :
  exists d,
    LotR.get_delta (LotR.set_scheduler (Sched.enterabs t p a kw (LotR.scheduler c)) c)
    = (Returned d, LotR.set_scheduler (Sched.enterabs t p a kw (LotR.scheduler c)) c).
Proof.
  unfold LotR.get_delta, bind, gets, ret. simpl.
  destruct (Sched.queue (Sched.enterabs t p a kw (LotR.scheduler c))) eqn:E.
  - exfalso. exact (queue_of_enterabs_is_not_empty _ _ _ _ _ E).
  - eexists. reflexivity.
Qed.

Lemma EA_get_delta_after_enterabs (c : EA.Connector) t p a kw :
  exists d,
    EA.get_delta (EA.set_scheduler (Sched.enterabs t p a kw (EA.scheduler c)) c)
    = (Returned d, EA.set_scheduler (Sched.enterabs t p a kw (EA.scheduler c)) c).
Proof.
  unfold EA.get_delta, bind, gets, ret. simpl.
  destruct (Sched.queue (Sched.enterabs t p a kw (EA.scheduler c))) eqn:E.
  - exfalso. exact (queue_of_enterabs_is_not_empty _ _ _ _ _ E).
  - eexists. reflexivity.
Qed.

Lemma purchase_queues_agree (q : list Sched.Event) :
  EA.purchase_queue q = LotR.purchase_queue q.
Proof. induction q as [|x q IH]; simpl; [|rewrite IH]; reflexivity. Qed.

Lemma schedule_run_after_entry (entry : Sched.Event) :
  (forall (c : LotR.Connector) (run : M LotR.Connector unit),
      Guards.scheduling_is_off (LotR.config c) = Returned false ->
      LotR.purchase_queue (Sched.queue (LotR.scheduler c)) = Some entry ->
      fst (LotR.schedule_run run false c) = Returned tt
      /\ LotR.scheduler (snd (LotR.schedule_run run false c))
         = Sched.enterabs (Sched.time entry + 5)%Q 1 Sched.Act_run []
             (LotR.scheduler c)
      /\ LotR.requests (snd (LotR.schedule_run run false c)) = LotR.requests c)
  /\ (forall (c : EA.Connector) (run : M EA.Connector unit),
      Guards.scheduling_is_off (EA.config c) = Returned false ->
      EA.purchase_queue (Sched.queue (EA.scheduler c)) = Some entry ->
      fst (EA.schedule_run run false c) = Returned tt
      /\ EA.scheduler (snd (EA.schedule_run run false c))
         = Sched.enterabs (Sched.time entry + 5)%Q 1 Sched.Act_run []
             (EA.scheduler c)
      /\ EA.requests (snd (EA.schedule_run run false c)) = EA.requests c).
Proof.
  split; intros c run Hoff Hq.
  - assert (E : exists l,
               LotR.schedule_run run false c
               = (Returned tt,
                  LotR.set_log l
                    (LotR.set_scheduler
                       (Sched.enterabs (Sched.time entry + 5)%Q 1 Sched.Act_run []
                          (LotR.scheduler c)) c))).
    { unfold LotR.schedule_run. unfold bind at 1.
      rewrite LotR_scheduling_is_off, Hoff.
      unfold bind at 1, gets at 1. rewrite Hq.
      unfold bind at 1. unfold LotR.enterabs at 1, modify at 1.
      destruct (LotR_get_delta_after_enterabs c (Sched.time entry + 5)%Q 1
                  Sched.Act_run []) as [d Hd].
      unfold bind at 1. rewrite Hd. eexists. reflexivity. }
    destruct E as [l ->]. repeat split.
  - assert (E : exists l,
               EA.schedule_run run false c
               = (Returned tt,
                  EA.set_log l
                    (EA.set_scheduler
                       (Sched.enterabs (Sched.time entry + 5)%Q 1 Sched.Act_run []
                          (EA.scheduler c)) c))).
    { unfold EA.schedule_run. unfold bind at 1.
      rewrite EA_scheduling_is_off, Hoff.
      unfold bind at 1, gets at 1. rewrite Hq.
      unfold bind at 1. unfold EA.enterabs at 1, modify at 1.
      destruct (EA_get_delta_after_enterabs c (Sched.time entry + 5)%Q 1
                  Sched.Act_run []) as [d Hd].
      unfold bind at 1. rewrite Hd. eexists. reflexivity. }
    destruct E as [l ->]. repeat split.
Qed.

Lemma purchase_queue_finds (q : list Sched.Event) (e : Sched.Event) :
  In e q -> Spec.is_purchase e = true ->
  exists entry, LotR.purchase_queue q = Some entry.
Proof.
  induction q as [|x q IH]; simpl; [contradiction|].
  intros [->|Hin] Hp.
  - unfold Spec.is_purchase in Hp. rewrite Hp. eexists. reflexivity.
  - destruct (Sched.Action_eqb (Sched.action x) Sched.Act_purchase_offer).
    + eexists. reflexivity.
    + exact (IH Hin Hp).
Qed.



(** X6. In manual mode [schedule_run] returns at once, whatever
    [run_directly] is: no follow-up run is queued, [run] is not called
    again, and the connector is exactly as before.  Both connectors. *)
Theorem schedule_run_does_nothing_in_manual_mode (run_directly : bool) :
  (forall (c : LotR.Connector) (run : M LotR.Connector unit),
      Config.is_self_scheduling (LotR.config c) = Returned false ->
      Config.allow_scheduling (LotR.config c) = Returned false ->
      LotR.schedule_run run run_directly c = (Returned tt, c))
  /\ (forall (c : EA.Connector) (run : M EA.Connector unit),
      Config.is_self_scheduling (EA.config c) = Returned false ->
      Config.allow_scheduling (EA.config c) = Returned false ->
      EA.schedule_run run run_directly c = (Returned tt, c)).
Proof. exact (manual_schedule_run run_directly). Qed.

Lemma schedule_run_does_nothing_in_manual_mode_witness :
  EA.schedule_run (raise RecursionError) true
    (Examples.swgoh (Examples.config false false 0 2))
  = (Returned tt, Examples.swgoh (Examples.config false false 0 2)).
Proof.
  exact (proj2 (schedule_run_does_nothing_in_manual_mode true)
           (Examples.swgoh (Examples.config false false 0 2))
           (raise RecursionError) eq_refl eq_refl).
Defined.



End SchedulingMore.

(** The two standing tasks *)

Module StandingTasks.
Import Py MonadFacts SchedulingFacts QueueFacts Obs.
Local Open Scope py_scope.

Lemma LotR_connection_check_run (env : LotR.Env) (c : LotR.Connector) :
  Config.is_self_scheduling (LotR.config c) = Returned true ->
  let r := LotR.schedule_connection_check env c in
  fst r = swallowed (rbind (LotR.http env (length (LotR.requests c)))
                       (fun _ => Returned tt))
  /\ LotR.scheduler (snd r)
     = Sched.enter (LotR.time c) 1800 1 Sched.Act_schedule_connection_check []
         (LotR.scheduler c)
  /\ LotR.requests (snd r) = (LotR.requests c ++ [probe])%list.
Proof.
  intros Hs. cbv zeta.
  destruct (LotR.schedule_connection_check env c) as [res c'] eqn:E.
  unfold LotR.schedule_connection_check in E. unfold bind at 1 in E.
  unfold LotR.cfg at 1 in E. rewrite Hs in E. cbn [negb] in E. cbv iota beta in E.
  unfold LotR.send in E. fold probe in E.
  destruct (LotR.http env (length (LotR.requests c))) as [response|e].
  - injection E as <- <-. repeat split.
  - destruct e; injection E as <- <-; repeat split.
Qed.

Lemma EA_connection_check_run (env : EA.Env) (c : EA.Connector) :
  Config.is_self_scheduling (EA.config c) = Returned true ->
  let r := EA.schedule_connection_check env c in
  fst r = swallowed (rbind (EA.http env (length (EA.requests c)))
                       (fun _ => Returned tt))
  /\ EA.scheduler (snd r)
     = Sched.enter (EA.time c) 1800 1 Sched.Act_schedule_connection_check []
         (EA.scheduler c)
  /\ EA.requests (snd r) = (EA.requests c ++ [probe])%list.
Proof.
  intros Hs. cbv zeta.
  destruct (EA.schedule_connection_check env c) as [res c'] eqn:E.
  unfold EA.schedule_connection_check in E. unfold bind at 1 in E.
  unfold EA.cfg at 1 in E. rewrite Hs in E. cbn [negb] in E. cbv iota beta in E.
  unfold EA.send in E. fold probe in E.
  destruct (EA.http env (length (EA.requests c))) as [response|e].
  - injection E as <- <-. repeat split.
  - destruct e; injection E as <- <-; repeat split.
Qed.

Lemma LotR_ping_run (c : LotR.Connector) :
  Config.is_self_scheduling (LotR.config c) = Returned true ->
  fst (LotR.schedule_ping c) = Returned tt
  /\ LotR.scheduler (snd (LotR.schedule_ping c))
     = Sched.enter (LotR.time c) 60 1 Sched.Act_schedule_ping [] (LotR.scheduler c)
  /\ LotR.requests (snd (LotR.schedule_ping c)) = LotR.requests c.
Proof.
  intros Hs.
  assert (E : exists l,
             LotR.schedule_ping c
             = (Returned tt,
                LotR.set_scheduler
                  (Sched.enter (LotR.time c) 60 1 Sched.Act_schedule_ping []
                     (LotR.scheduler c))
                  (LotR.set_log l c))).
  { unfold LotR.schedule_ping. unfold bind at 1. unfold LotR.cfg at 1.
    rewrite Hs. cbn [negb]. cbv iota beta.
    unfold bind at 1, gets at 1.
    unfold bind at 1. unfold LotR.logger at 1, modify at 1.
    unfold bind at 1, gets at 1. cbn [LotR.scheduler LotR.set_log].
    destruct (Sched.empty (LotR.scheduler c)) eqn:Hem; cbn [negb]; cbv iota.
    - eexists. reflexivity.
    - unfold bind at 1. unfold bind at 1. unfold LotR.get_delta.
      unfold bind at 1, gets at 1. cbn [LotR.scheduler LotR.set_log].
      destruct (Sched.queue (LotR.scheduler c)) as [|e q] eqn:Hq.
      + apply queue_is_empty in Hq. congruence.
      + eexists. reflexivity. }
  destruct E as [l ->]. repeat split.
Qed.

Lemma EA_ping_run (c : EA.Connector) :
  Config.is_self_scheduling (EA.config c) = Returned true ->
  fst (EA.schedule_ping c) = Returned tt
  /\ EA.scheduler (snd (EA.schedule_ping c))
     = Sched.enter (EA.time c) 60 1 Sched.Act_schedule_ping [] (EA.scheduler c)
  /\ EA.requests (snd (EA.schedule_ping c)) = EA.requests c.
Proof.
  intros Hs.
  assert (E : exists l,
             EA.schedule_ping c
             = (Returned tt,
                EA.set_scheduler
                  (Sched.enter (EA.time c) 60 1 Sched.Act_schedule_ping []
                     (EA.scheduler c))
                  (EA.set_log l c))).
  { unfold EA.schedule_ping. unfold bind at 1. unfold EA.cfg at 1.
    rewrite Hs. cbn [negb]. cbv iota beta.
    unfold bind at 1, gets at 1.
    unfold bind at 1. unfold EA.logger at 1, modify at 1.
    unfold bind at 1, gets at 1. cbn [EA.scheduler EA.set_log].
    destruct (Sched.empty (EA.scheduler c)) eqn:Hem; cbn [negb]; cbv iota.
    - eexists. reflexivity.
    - unfold bind at 1. unfold bind at 1. unfold EA.get_delta.
      unfold bind at 1, gets at 1. cbn [EA.scheduler EA.set_log].
      destruct (Sched.queue (EA.scheduler c)) as [|e q] eqn:Hq.
      + apply queue_is_empty in Hq. congruence.
      + eexists. reflexivity. }
  destruct E as [l ->]. repeat split.
Qed.

(** X8. In self-scheduling mode the connectivity check sends one GET to
    https://google.com and enters itself again 1800 seconds later, whatever
    the probe did: a connection error or a timeout is swallowed (the check
    returns), any other exception of the probe is raised again, and in every
    case the task is back in the queue.  Both connectors. *)
Theorem connection_check_probes_and_requeues :
  (forall (env : LotR.Env) (c : LotR.Connector),
      Config.is_self_scheduling (LotR.config c) = Returned true ->
      let r := LotR.schedule_connection_check env c in
      fst r = swallowed (rbind (LotR.http env (length (LotR.requests c)))
                           (fun _ => Returned tt))
      /\ LotR.scheduler (snd r)
         = Sched.enter (LotR.time c) 1800 1 Sched.Act_schedule_connection_check []
             (LotR.scheduler c)
      /\ LotR.requests (snd r) = (LotR.requests c ++ [probe])%list)
  /\ (forall (env : EA.Env) (c : EA.Connector),
      Config.is_self_scheduling (EA.config c) = Returned true ->
      let r := EA.schedule_connection_check env c in
      fst r = swallowed (rbind (EA.http env (length (EA.requests c)))
                           (fun _ => Returned tt))
      /\ EA.scheduler (snd r)
         = Sched.enter (EA.time c) 1800 1 Sched.Act_schedule_connection_check []
             (EA.scheduler c)
      /\ EA.requests (snd r) = (EA.requests c ++ [probe])%list).
Proof.
  split; intros env c Hs.
  - exact (LotR_connection_check_run env c Hs).
  - exact (EA_connection_check_run env c Hs).
Qed.

Lemma connection_check_probes_and_requeues_witness :
  fst (LotR.schedule_connection_check
         (Examples.lotr_env (fun _ => Raised RequestTimeout))
         (Examples.lotr (Examples.config true false 0 2)))
  = Returned tt
  /\ Sched._queue
       (LotR.scheduler
          (snd (LotR.schedule_connection_check
                  (Examples.lotr_env (fun _ => Raised RequestTimeout))
                  (Examples.lotr (Examples.config true false 0 2)))))
     = [connection_check_event 1800 0].
Proof.
  destruct (proj1 connection_check_probes_and_requeues
              (Examples.lotr_env (fun _ => Raised RequestTimeout))
              (Examples.lotr (Examples.config true false 0 2)) eq_refl)
    as (H1 & H2 & _).
  split; [exact H1|]. rewrite H2. reflexivity.
Defined.



End StandingTasks.

(** The LotR run cycle: what it buys *)

Module RunLoopMore.
Import Py MonadFacts SchedulingFacts Obs LotRMore Frame FrameFacts.
Local Open Scope py_scope.

Lemma lotr_same_requests_refl c : lotr_same_requests c c.
Proof. reflexivity. Qed.

Lemma lotr_same_requests_trans a b c :
  lotr_same_requests a b -> lotr_same_requests b c -> lotr_same_requests a c.
Proof. unfold lotr_same_requests. congruence. Qed.

Ltac quiet_frame :=
  repeat
    match goal with
    | |- keeps _ (ret _) => apply (keeps_ret _ lotr_same_requests_refl)
    | |- keeps _ (raise _) => apply (keeps_raise _ lotr_same_requests_refl)
    | |- keeps _ (lift _) => apply (keeps_lift _ lotr_same_requests_refl)
    | |- keeps _ (gets _) => apply (keeps_gets _ lotr_same_requests_refl)
    | |- keeps _ (LotR.cfg _) => intros ?; reflexivity
    | |- keeps _ (LotR.logger _ _ _) => intros ?; reflexivity
    | |- keeps _ (LotR.enter _ _ _ _) => intros ?; reflexivity
    | |- keeps _ (modify _) => intros ?; reflexivity
    | |- keeps _ (and_ _ _) => unfold and_
    | |- keeps _ (bind _ _) =>
        apply (keeps_bind _ lotr_same_requests_trans); [|intros ?]
    | |- keeps _ (if ?b then _ else _) => destruct b
    | |- keeps _ (match ?x with _ => _ end) => destruct x
    end.

Lemma LotR_schedule_purchase_sends_nothing delay i cur :
  keeps lotr_same_requests (LotR.schedule_purchase delay i cur).
Proof.
  unfold LotR.schedule_purchase, LotR.scheduling_is_off, LotR.delay_exceeds_max.
  quiet_frame.
Qed.

Lemma LotR_log_granted_run (items : list LotR.GrantedItem) (c : LotR.Connector) :
  fst (LotR.log_granted items c) = Returned tt
  /\ LotR.requests (snd (LotR.log_granted items c)) = LotR.requests c.
Proof.
  revert c. induction items as [|g items IH]; intros c; simpl; [split; reflexivity|].
  unfold bind, LotR.logger, modify. cbv beta iota.
  match goal with |- context [LotR.log_granted items ?s] =>
    destruct (IH s) as [H1 H2]; split; [exact H1|rewrite H2; reflexivity] end.
Qed.

(** One offer of the cycle. *)
Lemma LotR_run_offer_step (env : LotR.Env) (ws_offer : LotR.WebStoreOffer)
    (p : Z) (c : LotR.Connector) :
  let r := LotR.run_offer env ws_offer p c in
  if due ws_offer
  then exists request,
         LotR.requests (snd r) = (LotR.requests c ++ [request])%list
         /\ item_of request = Some (LotR.id (LotR.offer ws_offer))
         /\ Requests.url request = LotR.BASE_URL ++ "/store/purchase"
         /\ forall p', fst r = Returned p' -> p' = p + 1
  else LotR.requests (snd r) = LotR.requests c
       /\ forall p', fst r = Returned p' -> p' = p.
Proof.
  cbv zeta.
  destruct (LotR.run_offer env ws_offer p c) as [res cf] eqn:E. cbn [fst snd].
  unfold due. unfold LotR.run_offer in E.
  destruct (LotR.is_free_offer (LotR.offer ws_offer)); cbn [negb andb] in *;
    cbv iota in *.
  2: { injection E as <- <-. split; [reflexivity|]. intros p' [= <-]. reflexivity. }
  unfold bind at 1 in E. unfold LotR.logger at 1, modify at 1 in E.
  cbv beta iota in E.
  destruct (Qle_bool _ 0); cbn [negb andb] in *; cbv iota in *.
  2: { injection E as <- <-. split; [reflexivity|]. intros p' [= <-]. reflexivity. }
  destruct (LotR.purchase_cooldown_left (LotR.offer ws_offer) =? 0);
    cbn [negb] in *; cbv iota in *.
  - cbv zeta in E. unfold bind at 1 in E.
    match type of E with context [LotR.purchase_offer env ?i ?k ?s] =>
      destruct (OfferClientMore.LotR_purchase_offer_run env s i k) as (Hreq & _ & _);
      destruct (LotR.purchase_offer env i k s) as [[[d|]|e] c2]
    end; cbn [fst snd] in *.
    + destruct (LotR.itemsGranted d) as [items|].
      * unfold bind in E. destruct (LotR_log_granted_run items c2) as [Hf Hr].
        destruct (LotR.log_granted items c2) as [r3 c3]; cbn [fst snd] in *.
        subst r3. injection E as <- <-. eexists. rewrite Hr, Hreq.
        repeat split. intros p' [= <-]. reflexivity.
      * injection E as <- <-. eexists. rewrite Hreq. repeat split. discriminate.
    + injection E as <- <-. eexists. rewrite Hreq. repeat split. discriminate.
    + injection E as <- <-. eexists. rewrite Hreq. repeat split. discriminate.
  - unfold bind at 1 in E.
    match type of E with context [LotR.schedule_purchase ?d ?i ?k ?s] =>
      pose proof (LotR_schedule_purchase_sends_nothing d i k s) as H;
      destruct (LotR.schedule_purchase d i k s) as [[[]|e] c2]
    end; unfold lotr_same_requests in H;
      cbn [fst snd] in *; injection E as <- <-.
    + split; [exact H|]. intros p' [= <-]. reflexivity.
    + split; [exact H|]. discriminate.
Qed.

(** X10. When the loop of [run] over the listed offers comes to its end,
    it has sent exactly one purchase request for each offer that is due
    (free, no positive price, no cooldown left), in the order of the
    listing and with the id of that offer, and nothing else; the counter
    of purchases has grown by the number of those offers.  Offers that are
    not free, have a positive price or are on cooldown cause no request. *)
Theorem run_offers_buys_exactly_the_due_offers (env : LotR.Env) :
  forall (offers : list LotR.WebStoreOffer) (p p' : Z) (c : LotR.Connector),
  fst (LotR.run_offers env offers p c) = Returned p' ->
  p' = p + Z.of_nat (length (filter due offers))
  /\ exists sent,
       LotR.requests (snd (LotR.run_offers env offers p c))
       = (LotR.requests c ++ sent)%list
       /\ map item_of sent
          = map (fun o => Some (LotR.id (LotR.offer o))) (filter due offers)
       /\ Forall (fun r => Requests.url r = LotR.BASE_URL ++ "/store/purchase") sent.
Proof.
  induction offers as [|o offers IH]; intros p p' c; simpl.
  - intros [= <-]. split; [lia|]. exists []. rewrite app_nil_r. repeat split. constructor.
  - pose proof (LotR_run_offer_step env o p c) as Hstep. cbv zeta in Hstep.
    unfold bind.
    destruct (LotR.run_offer env o p c) as [[p1|e] c1]; cbn [fst snd] in *;
      [|discriminate].
    intros Hrest. destruct (IH p1 p' c1 Hrest) as (Hp & sent & Hs & Hi & Hu).
    destruct (due o).
    + destruct Hstep as (request & Hreq & Hitem & Hurl & Hp1).
      rewrite (Hp1 p1 eq_refl) in Hp. split.
      * simpl length. lia.
      * exists (request :: sent). rewrite Hs, Hreq, <- app_assoc. simpl.
        rewrite Hitem, Hi. repeat split. constructor; assumption.
    + destruct Hstep as (Hreq & Hp1). rewrite (Hp1 p1 eq_refl) in Hp.
      split; [exact Hp|]. exists sent. rewrite Hs, Hreq. repeat split; assumption.
Qed.

Lemma run_offers_buys_exactly_the_due_offers_witness :
  exists sent,
    LotR.requests
      (snd (LotR.run_offers Samples.lotr_store Samples.lotr_offers 0
              (Examples.lotr (Examples.config true false 0 2))))
    = sent
    /\ map item_of sent = [Some "daily"].
Proof.
  assert (H : fst (LotR.run_offers Samples.lotr_store Samples.lotr_offers 0
                     (Examples.lotr (Examples.config true false 0 2)))
              = Returned 1) by (vm_compute; reflexivity).
  destruct (run_offers_buys_exactly_the_due_offers Samples.lotr_store
              Samples.lotr_offers 0 1
              (Examples.lotr (Examples.config true false 0 2)) H)
    as (_ & sent & Hs & Hi & _).
  exists sent. split; [exact Hs|exact Hi].
Defined.

End RunLoopMore.

(** Manual mode: one cycle, then the end *)

Module ManualMode.
Import Py MonadFacts SchedulingFacts Frame FrameFacts SchedulingMore.
Local Open Scope py_scope.

Lemma lotr_manual_frame_refl c : lotr_manual_frame c c.
Proof. intros _. apply lotr_same_schedule_refl. Qed.

Lemma lotr_manual_frame_trans a b c :
  lotr_manual_frame a b -> lotr_manual_frame b c -> lotr_manual_frame a c.
Proof.
  intros H1 H2 Hm. specialize (H1 Hm).
  apply (lotr_same_schedule_trans _ _ _ H1). apply H2.
  destruct H1 as [_ ->]. exact Hm.
Qed.

Lemma keeps_manual {A} (m : M LotR.Connector A) :
  keeps lotr_same_schedule m -> keeps lotr_manual_frame m.
Proof. intros H c _. apply H. Qed.

Lemma LotR_schedule_purchase_manual delay i cur :
  keeps lotr_manual_frame (LotR.schedule_purchase delay i cur).
Proof.
  intros c [Hs Ha].
  rewrite (proj1 (manual_schedule_purchase delay i cur) c Hs Ha).
  apply lotr_same_schedule_refl.
Qed.

Lemma LotR_schedule_run_manual run b :
  keeps lotr_manual_frame (LotR.schedule_run run b).
Proof.
  intros c [Hs Ha].
  rewrite (proj1 (manual_schedule_run b) c run Hs Ha).
  apply lotr_same_schedule_refl.
Qed.

Lemma LotR_run_offer_manual env o p :
  keeps lotr_manual_frame (LotR.run_offer env o p).
Proof.
  unfold LotR.run_offer.
  destruct (negb _); [apply keeps_manual; lotr_frame|].
  apply (keeps_bind _ lotr_manual_frame_trans); [apply keeps_manual; lotr_frame|intros ?].
  destruct (negb _).
  { apply keeps_manual. lotr_frame. }
  destruct (negb _).
  - apply (keeps_bind _ lotr_manual_frame_trans);
      [apply LotR_schedule_purchase_manual|intros ?].
    apply keeps_manual. lotr_frame.
  - cbv zeta. apply keeps_manual.
    apply (keeps_bind _ lotr_same_schedule_trans);
      [apply LotR_purchase_offer_keeps|intros response].
    destruct response as [d|]; [|lotr_frame].
    destruct (LotR.itemsGranted d); [|lotr_frame].
    apply (keeps_bind _ lotr_same_schedule_trans);
      [apply LotR_log_granted_keeps|intros ?].
    lotr_frame.
Qed.

Lemma LotR_run_offers_manual env offers : forall p,
  keeps lotr_manual_frame (LotR.run_offers env offers p).
Proof.
  induction offers as [|o offers IH]; intros p; simpl.
  - apply keeps_manual. lotr_frame.
  - apply (keeps_bind _ lotr_manual_frame_trans);
      [apply LotR_run_offer_manual|intros p']. apply IH.
Qed.

Lemma LotR_run_body_manual env run' :
  keeps lotr_manual_frame (LotR.run_body env run').
Proof.
  unfold LotR.run_body.
  apply (keeps_bind _ lotr_manual_frame_trans);
    [apply keeps_manual, LotR_fetch_offers_keeps|intros offers].
  destruct offers as [data|]; [|apply keeps_manual; lotr_frame].
  apply (keeps_bind _ lotr_manual_frame_trans);
    [apply LotR_run_offers_manual|intros p].
  apply LotR_schedule_run_manual.
Qed.

(** The cycle does not depend on the method handed to [schedule_run]. *)
Lemma LotR_run_body_manual_any env run1 run2 c :
  manual (LotR.config c) ->
  LotR.run_body env run1 c = LotR.run_body env run2 c.
Proof.
  intros Hm. unfold LotR.run_body. unfold bind at 1 3.
  pose proof (keeps_manual _ (LotR_fetch_offers_keeps env) c Hm) as [_ Hc1].
  destruct (LotR.fetch_offers env c) as [[[data|]|e] c1]; cbn [snd] in *;
    try reflexivity.
  unfold bind.
  assert (Hm1 : manual (LotR.config c1)) by (rewrite Hc1; exact Hm).
  pose proof (LotR_run_offers_manual env (LotR.web_store_offers data) 0 c1 Hm1)
    as [_ Hc2].
  destruct (LotR.run_offers env _ 0 c1) as [[p|e] c2]; cbn [snd] in *;
    try reflexivity.
  assert (Hm2 : manual (LotR.config c2)) by (rewrite Hc2; exact Hm1).
  destruct Hm2 as [Hs Ha].
  rewrite !(proj1 (manual_schedule_run _) c2 _ Hs Ha).
  reflexivity.
Qed.

Lemma LotR_run_manual (env : LotR.Env) (c : LotR.Connector) (depth : nat) :
  manual (LotR.config c) ->
  LotR.run env (S depth) c = LotR.run env 1 c
  /\ LotR.scheduler (snd (LotR.run env (S depth) c)) = LotR.scheduler c.
Proof.
  intros Hm. split.
  - simpl. apply LotR_run_body_manual_any. exact Hm.
  - simpl. apply (LotR_run_body_manual env _ c Hm).
Qed.

(** X11. In manual mode one call of [run] is one cycle: it never calls
    itself again, however many offers it bought (the result and the
    connector are those of a [run] that is allowed no further call), and it
    leaves the scheduler as it found it, so nothing is ever queued. *)
Theorem manual_mode_run_is_single_shot (env : LotR.Env) (c : LotR.Connector)
    (depth : nat) :
  manual (LotR.config c) ->
  LotR.run env (S depth) c = LotR.run env 1 c
  /\ LotR.scheduler (snd (LotR.run env (S depth) c)) = LotR.scheduler c.
Proof. exact (LotR_run_manual env c depth). Qed.

Lemma manual_mode_run_is_single_shot_witness :
  LotR.run Samples.lotr_store 4 (Examples.lotr (Examples.config false false 0 2))
  = LotR.run Samples.lotr_store 1 (Examples.lotr (Examples.config false false 0 2)).
Proof.
  exact (proj1 (manual_mode_run_is_single_shot Samples.lotr_store
                  (Examples.lotr (Examples.config false false 0 2)) 3
                  (conj eq_refl eq_refl))).
Defined.

(** X12. In manual mode, on an empty queue, [start] is one run cycle and
    then the end: when the cycle returns, the scheduler loop finds nothing
    to do, [start] returns, the last log record is "Finished script!", no
    request is sent after the cycle and the queue is still empty. *)
Theorem manual_mode_start_finishes (env : LotR.Env) (c : LotR.Connector)
    (depth steps : nat) :
  manual (LotR.config c) ->
  Sched.queue (LotR.scheduler c) = [] ->
  fst (LotR.run env (S depth) c) = Returned tt ->
  let r := LotR.start env (S depth) (S steps) c in
  fst r = Returned tt
  /\ LotR.requests (snd r) = LotR.requests (snd (LotR.run env (S depth) c))
  /\ LotR.scheduler (snd r) = LotR.scheduler c
  /\ exists l, LotR.log (snd r)
               = (l ++ [ {| Logging.levelname := Logging.INFO;
                            Logging.msg := "Finished script!";
                            Logging.args := [] |} ])%list.
Proof.
  intros Hm Hq Hrun.
  destruct (LotR_run_manual env c depth Hm) as [_ Hsch].
  assert (E : LotR.start env (S depth) (S steps) c
              = LotR.logger Logging.INFO "Finished script!" []
                  (snd (LotR.run env (S depth) c))).
  { unfold LotR.start. unfold bind at 1.
    destruct (LotR.run env (S depth) c) as [res c1]; cbn [fst snd] in *.
    subst res. unfold bind at 1.
    cbn [LotR.scheduler_run]. unfold bind at 1. unfold gets.
    rewrite Hsch, Hq. reflexivity. }
  cbv zeta. rewrite E. unfold LotR.logger, modify. cbn [fst snd].
  repeat split; [exact Hsch|]. eexists. reflexivity.
Qed.

Lemma manual_mode_start_finishes_witness :
  fst (LotR.start Samples.lotr_store 4 3
         (Examples.lotr (Examples.config false false 0 2)))
  = Returned tt
  /\ map Obs.item_of
       (LotR.requests
          (snd (LotR.start Samples.lotr_store 4 3
                  (Examples.lotr (Examples.config false false 0 2)))))
     = [None; Some "daily"].
Proof.
  assert (H : fst (LotR.run Samples.lotr_store 4
                     (Examples.lotr (Examples.config false false 0 2)))
              = Returned tt) by (vm_compute; reflexivity).
  destruct (manual_mode_start_finishes Samples.lotr_store
              (Examples.lotr (Examples.config false false 0 2)) 3 2
              (conj eq_refl eq_refl) eq_refl H) as (H1 & H2 & _).
  split; [exact H1|]. rewrite H2. vm_compute. reflexivity.
Defined.

End ManualMode.

(** The Swgoh cycle: what it buys *)

Module SwgohCycle.
Import Py MonadFacts SchedulingFacts Obs SwgohMore Frame FrameFacts.
Local Open Scope py_scope.

Lemma ea_same_requests_refl c : ea_same_requests c c.
Proof. reflexivity. Qed.

Lemma ea_same_requests_trans a b c :
  ea_same_requests a b -> ea_same_requests b c -> ea_same_requests a c.
Proof. unfold ea_same_requests. congruence. Qed.

Ltac ea_quiet :=
  repeat
    match goal with
    | |- keeps _ (ret _) => apply (keeps_ret _ ea_same_requests_refl)
    | |- keeps _ (raise _) => apply (keeps_raise _ ea_same_requests_refl)
    | |- keeps _ (lift _) => apply (keeps_lift _ ea_same_requests_refl)
    | |- keeps _ (gets _) => apply (keeps_gets _ ea_same_requests_refl)
    | |- keeps _ (EA.cfg _) => intros ?; reflexivity
    | |- keeps _ (EA.logger _ _ _) => intros ?; reflexivity
    | |- keeps _ (EA.enter _ _ _ _) => intros ?; reflexivity
    | |- keeps _ (modify _) => intros ?; reflexivity
    | |- keeps _ (and_ _ _) => unfold and_
    | |- keeps _ (bind _ _) =>
        apply (keeps_bind _ ea_same_requests_trans); [|intros ?]
    | |- keeps _ (if ?b then _ else _) => destruct b
    | |- keeps _ (match ?x with _ => _ end) => destruct x
    end.

Lemma EA_schedule_purchase_sends_nothing delay i cur :
  keeps ea_same_requests (EA.schedule_purchase delay i cur).
Proof.
  unfold EA.schedule_purchase, EA.scheduling_is_off, EA.delay_exceeds_max.
  ea_quiet.
Qed.

(** An item that is passed over, with or without an exception: no request
    was sent, and the counter is as before if the pass returned. *)
Ltac handled :=
  match goal with
  | E : _ = (_, _) |- _ =>
      injection E as <- <-; split;
      [reflexivity|first [discriminate|intros ? [= <-]; reflexivity]]
  end.

Lemma Swgoh_handle_item_step (env : EA.Env) (now : Q)
    (item : SwgohTypes.StoreItem) (p : Z) (c : EA.Connector) :
  let r := EA.handle_item env now item p c in
  if ready now item
  then exists request,
         EA.requests (snd r) = (EA.requests c ++ [request])%list
         /\ item_of request = Some (SwgohTypes.id item)
         /\ Requests.url request = EA.BASE_URL (EA.class c) ++ "/store/purchase"
         /\ forall p', fst r = Returned p' -> p' = p + 1
  else EA.requests (snd r) = EA.requests c
       /\ forall p', fst r = Returned p' -> p' = p.
Proof.
  cbv zeta.
  destruct (EA.handle_item env now item p c) as [res cf] eqn:E. cbn [fst snd].
  unfold ready, first_free. unfold EA.handle_item in E. cbv zeta in E.
  destruct (filter _ (SwgohTypes.offers item)) as [|free_offer rest];
    cbn [hd_error].
  { injection E as <- <-. split; [reflexivity|]. intros p' [= <-]. reflexivity. }
  unfold bind at 1, lift at 1 in E.
  destruct (EA.fromtimestamp (SwgohTypes.startTime item)) as [start_time|e1];
    [|handled].
  cbv beta iota in E. unfold bind at 1, lift at 1 in E.
  destruct (EA.fromtimestamp (SwgohTypes.endTime item)) as [end_time|e2];
    [|handled].
  cbv beta iota in E. unfold bind at 1 in E.
  destruct (SwgohTypes.availableAtEpoch free_offer) as [epoch|].
  - unfold bind at 1, lift at 1 in E.
    destruct (EA.fromtimestamp epoch) as [available_at|e3]; [|handled].
    unfold ret at 1 in E. cbv beta iota in E.
    destruct (Qle_bool start_time now); cbn [negb andb] in *; cbv iota in *.
    2: { unfold bind, EA.logger, modify in E. handled. }
    destruct (Qle_bool now end_time); cbn [negb andb] in *; cbv iota in *.
    2: { unfold bind, EA.logger, modify in E. handled. }
    destruct (Qle_bool available_at now); cbn [negb] in *; cbv iota in *.
    + unfold bind at 1 in E. unfold EA.logger at 1, modify at 1 in E.
      cbv beta iota in E. unfold bind at 1 in E.
      match type of E with context [EA.purchase_offer env ?i ?k ?s] =>
        destruct (OfferClientMore.EA_purchase_offer_run env s i k) as (Hreq & _ & _);
        destruct (EA.purchase_offer env i k s) as [[d|e] c2]
      end; cbn [fst snd] in *; injection E as <- <-;
        eexists; rewrite Hreq; cbn [EA.requests EA.set_log EA.class];
        repeat split; try discriminate.
      intros p' [= <-]. reflexivity.
    + unfold bind at 1, lift at 1 in E. cbv beta iota in E.
      unfold bind at 1 in E.
      match type of E with context [EA.schedule_purchase ?d ?i ?k ?s] =>
        pose proof (EA_schedule_purchase_sends_nothing d i k s) as H;
        destruct (EA.schedule_purchase d i k s) as [[[]|e] c2]
      end; unfold ea_same_requests in H;
        cbn [fst snd] in *; injection E as <- <-.
      * split; [exact H|]. intros p' [= <-]. reflexivity.
      * split; [exact H|]. discriminate.
  - unfold ret at 1 in E. cbv beta iota in E.
    destruct (Qle_bool start_time now); cbn [negb andb] in *; cbv iota in *.
    2: { unfold bind, EA.logger, modify in E. handled. }
    destruct (Qle_bool now end_time); cbn [negb andb] in *; cbv iota in *.
    2: { unfold bind, EA.logger, modify in E. handled. }
    unfold bind at 1, raise at 1 in E. handled.
Qed.

(** X13. When the loop of [SwgohWebstoreConnector._handle_offers] over
    the items comes to its end, it has sent exactly one purchase request for
    each item that is ready (it has an offer with currency type FREE, the
    time is between its start and its end, and the first such offer is
    available), in the order of the listing and with the id of that item;
    the counter has grown by the number of those items.  The price of the
    offer and the reply to a purchase play no part. *)
Theorem handle_items_buys_exactly_the_ready_items (env : EA.Env) (now : Q) :
  forall (items : list SwgohTypes.StoreItem) (p p' : Z) (c : EA.Connector),
  fst (EA.handle_items env now items p c) = Returned p' ->
  p' = p + Z.of_nat (length (filter (ready now) items))
  /\ exists sent,
       EA.requests (snd (EA.handle_items env now items p c))
       = (EA.requests c ++ sent)%list
       /\ map item_of sent
          = map (fun i => Some (SwgohTypes.id i)) (filter (ready now) items).
Proof.
  induction items as [|o items IH]; intros p p' c; simpl.
  - intros [= <-]. split; [lia|]. exists []. rewrite app_nil_r. repeat split.
  - pose proof (Swgoh_handle_item_step env now o p c) as Hstep. cbv zeta in Hstep.
    unfold bind.
    destruct (EA.handle_item env now o p c) as [[p1|e] c1]; cbn [fst snd] in *;
      [|discriminate].
    intros Hrest. destruct (IH p1 p' c1 Hrest) as (Hp & sent & Hs & Hi).
    destruct (ready now o).
    + destruct Hstep as (request & Hreq & Hitem & Hurl & Hp1).
      rewrite (Hp1 p1 eq_refl) in Hp. split.
      * simpl length. lia.
      * exists (request :: sent). rewrite Hs, Hreq, <- app_assoc. simpl.
        rewrite Hitem, Hi. repeat split.
    + destruct Hstep as (Hreq & Hp1). rewrite (Hp1 p1 eq_refl) in Hp.
      split; [exact Hp|]. exists sent. rewrite Hs, Hreq. repeat split; assumption.
Qed.

Lemma handle_items_buys_exactly_the_ready_items_witness :
  exists sent,
    EA.requests
      (snd (EA.handle_items
              (Examples.swgoh_env (fun _ => Returned (Examples.swgoh_response 200 None)))
              1000 Samples.swgoh_items 0 Samples.swgoh_at_1000))
    = sent
    /\ map item_of sent = [Some "daily"].
Proof.
  assert (H : fst (EA.handle_items
                     (Examples.swgoh_env
                        (fun _ => Returned (Examples.swgoh_response 200 None)))
                     1000 Samples.swgoh_items 0 Samples.swgoh_at_1000)
              = Returned 1) by (vm_compute; reflexivity).
  destruct (handle_items_buys_exactly_the_ready_items
              (Examples.swgoh_env
                 (fun _ => Returned (Examples.swgoh_response 200 None)))
              1000 Samples.swgoh_items 0 1 Samples.swgoh_at_1000 H)
    as (_ & sent & Hs & Hi).
  exists sent. split; [exact Hs|exact Hi].
Defined.

(** [timedelta.seconds] leaves the whole days out. *)
Lemma timedelta_seconds_range d : 0 <= EA.timedelta_seconds d < 86400.
Proof. unfold EA.timedelta_seconds. apply Z.mod_pos_bound. lia. Qed.

Lemma timedelta_seconds_days (a k : Z) (now : Q) :
  EA.timedelta_seconds (inject_Z (a + 86400 * k) - now)
  = EA.timedelta_seconds (inject_Z a - now).
Proof.
  unfold EA.timedelta_seconds.
  assert (E : (inject_Z (a + 86400 * k) - now == (inject_Z a - now) + inject_Z (86400 * k))%Q).
  { rewrite inject_Z_plus. ring. }
  rewrite (Qfloor_comp _ _ E).
  assert (F : forall x z, Qfloor (x + inject_Z z) = Qfloor x + z).
  { intros [n d'] z. unfold Qfloor, Qplus, inject_Z. simpl.
    rewrite Z.mul_1_r, Pos.mul_1_r. rewrite Z.div_add; lia. }
  rewrite F. rewrite Z.mul_comm, Z_mod_plus_full. reflexivity.
Qed.

(** A timestamp within the years 1 to 9999 converts to its date. *)
Lemma fromtimestamp_in_range (t : Z) :
  -62135596800 <= t <= 253402300799 ->
  EA.fromtimestamp t = Returned (inject_Z t).
Proof.
  intros [H1 H2]. unfold EA.fromtimestamp.
  rewrite (proj2 (Z.leb_le _ _) H1), (proj2 (Z.leb_le _ _) H2). reflexivity.
Qed.

(** X14. The delay that [_handle_offers] hands to [schedule_purchase] is
    [timedelta.seconds], which leaves the whole days out: an item whose
    free offer becomes available [k] days later than that of an otherwise
    equal item, both times within the years 1 to 9999 that a date can
    hold, is handled in exactly the same way, so its purchase is scheduled
    as if it were available within the next 24 hours. *)
Theorem Swgoh_delay_leaves_whole_days_out (env : EA.Env) (now : Q)
    (item item' : SwgohTypes.StoreItem) (o o' : SwgohTypes.Offer)
    (a k p : Z) (c : EA.Connector) :
  first_free item = Some o -> first_free item' = Some o' ->
  SwgohTypes.id item' = SwgohTypes.id item ->
  SwgohTypes.name item' = SwgohTypes.name item ->
  SwgohTypes.startTime item' = SwgohTypes.startTime item ->
  SwgohTypes.endTime item' = SwgohTypes.endTime item ->
  SwgohTypes.availableAtEpoch o = Some a ->
  SwgohTypes.availableAtEpoch o' = Some (a + 86400 * k) ->
  (now < inject_Z a)%Q -> 0 <= k ->
  -62135596800 <= a -> a + 86400 * k <= 253402300799 ->
  EA.handle_item env now item' p c = EA.handle_item env now item p c.
Proof.
  unfold first_free.
  intros Ho Ho' Hid Hname Hstart Hend Ha Ha' Hnow Hk Hlow Hhigh.
  assert (Hfree : forall it x, hd_error (filter (fun o => String.eqb (SwgohTypes.currencyType o) "FREE") (SwgohTypes.offers it)) = Some x -> SwgohTypes.currencyType x = "FREE").
  { intros it x H.
    destruct (filter _ (SwgohTypes.offers it)) as [|y l] eqn:F; [discriminate|].
    injection H as ->.
    assert (In x (x :: l)) as Hin by (left; reflexivity).
    rewrite <- F in Hin. apply filter_In in Hin. apply String.eqb_eq, Hin. }
  pose proof (Hfree _ _ Ho) as Hco. pose proof (Hfree _ _ Ho') as Hco'.
  unfold EA.handle_item. cbv zeta.
  destruct (filter _ (SwgohTypes.offers item)) as [|x l]; [discriminate|].
  destruct (filter _ (SwgohTypes.offers item')) as [|x' l']; [discriminate|].
  injection Ho as ->. injection Ho' as ->.
  rewrite Hid, Hname, Hstart, Hend, Ha, Ha', Hco, Hco'.
  rewrite (fromtimestamp_in_range a), (fromtimestamp_in_range (a + 86400 * k))
    by lia.
  unfold bind, lift, ret.
  destruct (EA.fromtimestamp (SwgohTypes.startTime item)); [|reflexivity].
  destruct (EA.fromtimestamp (SwgohTypes.endTime item)); [|reflexivity].
  cbv beta iota.
  assert (N1 : Qle_bool (inject_Z a) now = false).
  { destruct (Qle_bool (inject_Z a) now) eqn:Q; [|reflexivity].
    apply Qle_bool_iff in Q. exfalso. apply (Qlt_not_le _ _ Hnow Q). }
  assert (N2 : Qle_bool (inject_Z (a + 86400 * k)) now = false).
  { destruct (Qle_bool (inject_Z (a + 86400 * k)) now) eqn:Q; [|reflexivity].
    apply Qle_bool_iff in Q. exfalso. apply (Qlt_not_le _ _ Hnow).
    apply Qle_trans with (2 := Q). rewrite <- Zle_Qle. lia. }
  rewrite N1, N2, timedelta_seconds_days. reflexivity.
Qed.

Lemma Swgoh_delay_leaves_whole_days_out_witness :
  EA.handle_item
    (Examples.swgoh_env (fun _ => Raised RequestTimeout)) 1000
    (Samples.swgoh_item "later" "FREE" 0 500000 (Some (4000 + 86400 * 2))) 0
    (Examples.swgoh (Examples.config true false 0 2))
  = EA.handle_item
      (Examples.swgoh_env (fun _ => Raised RequestTimeout)) 1000
      (Samples.swgoh_item "later" "FREE" 0 500000 (Some 4000)) 0
      (Examples.swgoh (Examples.config true false 0 2)).
Proof.
  eapply (Swgoh_delay_leaves_whole_days_out
            (Examples.swgoh_env (fun _ => Raised RequestTimeout)) 1000
            (Samples.swgoh_item "later" "FREE" 0 500000 (Some 4000))
            (Samples.swgoh_item "later" "FREE" 0 500000 (Some (4000 + 86400 * 2)))
            _ _ 4000 2 0);
    try reflexivity; lia.
Defined.

(** Beyond the year 9999 the later item is not handled at all: the
    conversion of its availability time raises [ValueError] before any
    check, although the earlier item is scheduled. *)
Lemma Swgoh_availability_beyond_year_9999 :
  let env := Examples.swgoh_env (fun _ => Raised RequestTimeout) in
  let c := Examples.swgoh (Examples.config true false 0 2) in
  let later := Samples.swgoh_item "later" "FREE" 0 500000
                 (Some (4000 + 86400 * 3000000)) in
  let sooner := Samples.swgoh_item "later" "FREE" 0 500000 (Some 4000) in
  EA.handle_item env 1000 later 0 c = (Raised ValueError, c)
  /\ fst (EA.handle_item env 1000 sooner 0 c) = Returned 0
  /\ length (Sched._queue (EA.scheduler (snd (EA.handle_item env 1000 sooner 0 c))))
     = S (length (Sched._queue (EA.scheduler c))).
Proof.
  vm_compute. repeat split.
Qed.

End SwgohCycle.

(** [get_free_offers] *)

Module FreeOffers.
Import Py MonadFacts SchedulingFacts Obs LotRMore Frame FrameFacts.
Local Open Scope py_scope.

Lemma free_offers_loop_eq : forall offers acc c,
  exists c',
    free_offers_loop offers acc c
    = (Returned (acc ++ filter listed offers)%list, c')
    /\ LotR.requests c' = LotR.requests c
    /\ LotR.scheduler c' = LotR.scheduler c.
Proof.
  induction offers as [|o offers IH]; intros acc c; simpl.
  - exists c. rewrite app_nil_r. repeat split.
  - unfold listed at 1.
    destruct (LotR.is_free_offer (LotR.offer o)); cbn [negb andb]; [|apply IH].
    unfold bind at 1. unfold LotR.logger at 1, modify at 1.
    cbv beta iota.
    destruct (Qle_bool _ 0); cbn [negb].
    + match goal with |- context [free_offers_loop offers ?a ?s] =>
        destruct (IH a s) as (c' & H1 & H2 & H3) end.
      exists c'. rewrite H1, H2, H3, <- app_assoc. repeat split.
    + unfold bind, LotR.logger, modify. cbv beta iota.
      match goal with |- context [free_offers_loop offers ?a ?s] =>
        destruct (IH a s) as (c' & H1 & H2 & H3) end.
      exists c'. rewrite H1, H2, H3. repeat split.
Qed.

Lemma free_offers_loop_run offers acc c :
  fst (free_offers_loop offers acc c) = Returned (acc ++ filter listed offers)%list
  /\ LotR.requests (snd (free_offers_loop offers acc c)) = LotR.requests c
  /\ LotR.scheduler (snd (free_offers_loop offers acc c)) = LotR.scheduler c.
Proof.
  destruct (free_offers_loop_eq offers acc c) as (c' & -> & H2 & H3).
  repeat split; assumption.
Qed.

Lemma LotR_get_offers_requests (env : LotR.Env) (c : LotR.Connector) :
  LotR.requests (snd (LotR.get_offers env c))
  = (LotR.requests c ++ [offers_request])%list
  /\ LotR.scheduler (snd (LotR.get_offers env c)) = LotR.scheduler c.
Proof.
  unfold LotR.get_offers, LotR.send, LotR.logger, bind, gets, modify, lift, ret,
    raise, offers_request.
  simpl.
  destruct (LotR.http env (length (LotR.requests c))) as [response|e]; simpl.
  - destruct (LotR.status_code response =? 200).
    + destruct (LotR.as_StoreData response); simpl; repeat split.
    + destruct (LotR.status_code response =? 401); simpl; repeat split.
  - repeat split.
Qed.

Lemma due_offers_are_listed (l : list LotR.WebStoreOffer) :
  filter due l
  = filter (fun o => LotR.purchase_cooldown_left (LotR.offer o) =? 0)
           (filter listed l).
Proof.
  induction l as [|o l IH]; [reflexivity|].
  simpl. unfold due at 1, listed at 1.
  destruct (LotR.is_free_offer (LotR.offer o)); cbn [andb]; [|exact IH].
  destruct (Qle_bool _ 0); cbn [andb]; [|exact IH].
  simpl. destruct (_ =? 0); [rewrite IH; reflexivity|exact IH].
Qed.

(** X15. When the store answers the listing with status 200,
    [get_free_offers] returns, in the order of the listing, exactly the
    offers that are free and have no positive price; it sends the one
    listing request, buys nothing and schedules nothing.  The offers that
    [run] would buy at once are those of the returned list whose cooldown is
    over: [get_free_offers] also returns free offers still on cooldown. *)
Theorem get_free_offers_lists_free_unpriced_offers (env : LotR.Env)
    (c : LotR.Connector) (response : LotR.Response) (data : LotR.StoreData) :
  LotR.http env (length (LotR.requests c)) = Returned response ->
  LotR.status_code response = 200 ->
  LotR.as_StoreData response = Returned data ->
  let r := get_free_offers env c in
  fst r = Returned (filter listed (LotR.web_store_offers data))
  /\ LotR.requests (snd r) = (LotR.requests c ++ [offers_request])%list
  /\ LotR.scheduler (snd r) = LotR.scheduler c
  /\ filter due (LotR.web_store_offers data)
     = filter (fun o => LotR.purchase_cooldown_left (LotR.offer o) =? 0)
              (filter listed (LotR.web_store_offers data)).
Proof.
  intros Hh Hs Hd.
  assert (E : get_free_offers env c
              = free_offers_loop (LotR.web_store_offers data) []
                  (snd (LotR.get_offers env
                     (LotR.set_log (LotR.log c ++
                        [ {| Logging.levelname := Logging.INFO;
                             Logging.msg := "Search free offers for account: %s";
                             Logging.args := [Logging.VStr (LotR.email c)] |} ]) c)))).
  { unfold get_free_offers. unfold bind at 1. unfold gets at 1. cbv beta iota.
    unfold bind at 1. unfold LotR.logger at 1, modify at 1. cbv beta iota.
    unfold bind at 1.
    match goal with |- context [LotR.get_offers env ?s] =>
      pose proof (OfferClientFacts.LotR_get_offers_result env s response Hh) as F;
      destruct (LotR.get_offers env s) as [res c1]
    end. cbn [fst snd] in *. rewrite Hs, Hd in F. simpl in F. subst res.
    unfold bind, ret. reflexivity. }
  cbv zeta. rewrite E.
  match goal with |- context [free_offers_loop ?o [] ?s] =>
    destruct (free_offers_loop_run o [] s) as (H1 & H2 & H3) end.
  rewrite H1, H2, H3.
  match goal with |- context [LotR.get_offers env ?s] =>
    destruct (LotR_get_offers_requests env s) as (G1 & G2) end.
  rewrite G1, G2. cbn [LotR.requests LotR.scheduler LotR.set_log app].
  repeat split. apply due_offers_are_listed.
Qed.

Lemma get_free_offers_lists_free_unpriced_offers_witness :
  fst (get_free_offers Samples.lotr_store
         (Examples.lotr (Examples.config false false 0 2)))
  = Returned [Samples.lotr_offer "daily" true 0 0;
              Samples.lotr_offer "weekly" true 0 3600].
Proof.
  exact (proj1 (get_free_offers_lists_free_unpriced_offers Samples.lotr_store
                  (Examples.lotr (Examples.config false false 0 2))
                  _ {| LotR.web_store_offers := Samples.lotr_offers |}
                  eq_refl eq_refl eq_refl)).
Defined.

End FreeOffers.

(** The base connector: login with the code in the redirect *)

Module LoginMore.
Import Py MonadFacts Obs Spec.
Local Open Scope py_scope.

(** X16. When the reply to the auth request already carries the access
    code in the query of its URL, [login] skips the sign-in pages: it sends
    two requests only (the auth request and the access-code exchange), reads
    no mail, asks the operator nothing, and sets [auth_id] to the id in the
    reply.  It does not save the session on this path, although the session
    has taken the cookies of both replies; the session file is as before. *)
Theorem EA_login_with_the_code_in_the_redirect (env : EA.Env)
    (c : EA.Connector) (force : bool) (r1 r2 : EA.Response) (code : string)
    (data : EA.Body) (a : option string) :
  negb force && truthy (EA.auth_id c) = false ->
  EA.http env (length (EA.requests c)) = Returned r1 ->
  EA.status_code r1 = 200 ->
  EA.query_code r1 = Some code ->
  EA.http env (S (length (EA.requests c))) = Returned r2 ->
  EA.json r2 = Returned data ->
  EA.authId data = Returned a ->
  let r := EA.login env force c in
  fst r = Returned tt
  /\ EA.auth_id (snd r) = a
  /\ EA.requests (snd r)
     = (EA.requests c ++ [auth_request; access_code_request code])%list
  /\ EA.session (snd r)
     = Requests.update (Requests.update (EA.session c) (EA.cookies r1))
                       (EA.cookies r2)
  /\ EA.session_file (snd r) = EA.session_file c
  /\ EA.listings (snd r) = EA.listings c
  /\ EA.prompts (snd r) = EA.prompts c.
Proof.
  intros Hguard H1 Hs Hq H2 Hj Ha.
  assert (L : length (EA.requests c ++ [auth_request]) = S (length (EA.requests c))).
  { rewrite length_app. simpl. lia. }
  cbv zeta. destruct (EA.login env force c) as [res cf] eqn:E.
  unfold EA.login in E.
  unfold bind at 1, gets at 1 in E. rewrite Hguard in E.
  unfold EA._finish_login, EA.send, EA.logger, bind, gets, modify, lift, ret,
    raise in E.
  fold auth_request in E.
  cbn [EA.requests EA.set_log EA.set_requests EA.set_session] in E.
  rewrite H1, Hs in E. cbn [Z.eqb Pos.eqb negb] in E. rewrite Hq in E.
  cbn [EA.requests EA.set_log EA.set_requests EA.set_session] in E.
  rewrite L, H2, Hj, Ha in E. injection E as <- <-.
  cbn [fst snd EA.auth_id EA.requests EA.session EA.session_file EA.listings
       EA.prompts EA.set_auth_id EA.set_log EA.set_requests EA.set_session].
  rewrite <- app_assoc. repeat split.
Qed.

Lemma EA_login_with_the_code_in_the_redirect_witness :
  let env := Examples.swgoh_env
               (fun _ => Returned (Examples.swgoh_response 200 (Some "access-1"))) in
  let c := Examples.swgoh (Examples.config false false 0 2) in
  EA.auth_id (snd (EA.login env false c)) = Some "auth-1"
  /\ EA.requests (snd (EA.login env false c))
     = [auth_request; access_code_request "access-1"]
  /\ EA.session_file (snd (EA.login env false c)) = None.
Proof.
  intros env c.
  destruct (EA_login_with_the_code_in_the_redirect env c false
              (Examples.swgoh_response 200 (Some "access-1"))
              (Examples.swgoh_response 200 (Some "access-1")) "access-1"
              {| EA.as_StoreData := Returned {| SwgohTypes.items := [] |};
                 EA.authId := Returned (Some "auth-1") |}
              (Some "auth-1")
              eq_refl eq_refl eq_refl eq_refl eq_refl eq_refl eq_refl)
    as (_ & H1 & H2 & _ & H3 & _).
  split; [exact H1|]. split; [exact H2|exact H3].
Defined.

End LoginMore.

(** Configuration and start of the process *)

Module ConfigMore.
Import Py MonadFacts SchedulingFacts Config.
Local Open Scope py_scope.

(** X17. For a configuration file that can be read, [load_config] raises
    [SchedulingConflictError] exactly when both [script_is_self_scheduling]
    and [allow_scheduling] are present and true.  An option that is missing
    counts as false, and an option that cannot be read as a boolean never
    gives this error. *)
Theorem load_config_conflict_iff (fs : files) (path : string)
    (cp : ConfigParser) :
  fs path = Returned cp ->
  (load_config fs (ArgStr path) = Raised SchedulingConflictError
   <-> General_script_is_self_scheduling cp = Value true
       /\ General_allow_scheduling cp = Value true).
Proof.
  intros Hf.
  unfold load_config, init, valiate, is_self_scheduling, allow_scheduling.
  rewrite Hf. simpl.
  destruct (General_script_is_self_scheduling cp) as [| |[]] eqn:Es; simpl;
    destruct (General_allow_scheduling cp) as [| |[]] eqn:Ea; simpl;
    split; try discriminate; try (intros [H1 H2]; congruence).
  intros _. split; reflexivity.
Qed.

Lemma load_config_conflict_iff_witness :
  load_config (fun _ => Returned (Examples.parser true true 0 2))
    (ArgStr "config.ini")
  = Raised SchedulingConflictError.
Proof.
  exact (proj2 (load_config_conflict_iff
                  (fun _ => Returned (Examples.parser true true 0 2))
                  "config.ini" (Examples.parser true true 0 2) eq_refl)
               (conj eq_refl eq_refl)).
Defined.

(** X18. A configuration file whose [allow_scheduling] cannot be read as
    a boolean passes [load_config] as long as [script_is_self_scheduling] is
    not true, because the check reads [allow_scheduling] only after
    self-scheduling.  The [ValueError] then comes out of the first call of
    [schedule_purchase] or [schedule_run] of a connector that uses this
    configuration, which leaves the connector unchanged. *)
Theorem unreadable_allow_scheduling_fails_at_the_first_schedule
    (fs : files) (path : string) (cp : ConfigParser) :
  fs path = Returned cp ->
  General_script_is_self_scheduling cp <> Value true ->
  General_script_is_self_scheduling cp <> Malformed ->
  General_allow_scheduling cp = Malformed ->
  exists cfg,
    load_config fs (ArgStr path) = Returned (Some cfg)
    /\ forall (c : LotR.Connector), LotR.config c = cfg ->
       (forall delay item_id currency_type,
          LotR.schedule_purchase delay item_id currency_type c
          = (Raised ValueError, c))
       /\ (forall run run_directly,
          LotR.schedule_run run run_directly c = (Raised ValueError, c)).
Proof.
  intros Hf Hs1 Hs2 Ha.
  exists {| config := cp; file_path := path |}.
  assert (Hs : get_conv (General_script_is_self_scheduling cp) false = Returned false).
  { destruct (General_script_is_self_scheduling cp) as [| |[]]; try reflexivity;
      congruence. }
  split.
  - unfold load_config, init, valiate, is_self_scheduling. rewrite Hf. simpl.
    rewrite Hs. reflexivity.
  - intros c Hc.
    assert (Hoff : Guards.scheduling_is_off (LotR.config c) = Raised ValueError).
    { rewrite Hc. unfold Guards.scheduling_is_off, is_self_scheduling,
        allow_scheduling. cbn [config]. rewrite Hs, Ha. reflexivity. }
    split; intros.
    + unfold LotR.schedule_purchase. unfold bind at 1.
      rewrite LotR_scheduling_is_off, Hoff. reflexivity.
    + unfold LotR.schedule_run. unfold bind at 1.
      rewrite LotR_scheduling_is_off, Hoff. reflexivity.
Qed.

Lemma unreadable_allow_scheduling_fails_at_the_first_schedule_witness :
  exists cfg,
    load_config
      (fun _ => Returned
         {| General_script_is_self_scheduling := Missing;
            General_allow_scheduling := Malformed;
            General_max_delay_scheduling_time := Missing;
            General_login_sleep_time := Missing;
            General_max_verification_attempts := Missing |})
      (ArgStr "config.ini")
    = Returned (Some cfg)
    /\ LotR.schedule_purchase 3600 "X" "FREE" (Examples.lotr cfg)
       = (Raised ValueError, Examples.lotr cfg).
Proof.
  destruct (unreadable_allow_scheduling_fails_at_the_first_schedule
              (fun _ => Returned
                 {| General_script_is_self_scheduling := Missing;
                    General_allow_scheduling := Malformed;
                    General_max_delay_scheduling_time := Missing;
                    General_login_sleep_time := Missing;
                    General_max_verification_attempts := Missing |})
              "config.ini" _ eq_refl
              ltac:(discriminate) ltac:(discriminate) eq_refl)
    as (cfg & Hl & Hc).
  exists cfg. split; [exact Hl|].
  exact (proj1 (Hc (Examples.lotr cfg) eq_refl) 3600 "X" "FREE").
Defined.

(** X19. When another instance holds the lock file of the account, [main]
    builds no connector, so it sends no request and runs no cycle: it ends
    with exit status 1.  The configuration is loaded before the lock is
    tried, so an error of the configuration file is what [main] ends with
    when there is one. *)
Theorem main_exits_when_the_lock_is_held (w : Cli.World)
    (email config : string) (depth steps : nat) :
  Cli.locked w = true ->
  snd (Cli.main w email config depth steps) = None
  /\ (forall cfg, load_config (Cli.files w) (ArgStr config) = Returned (Some cfg) ->
      fst (Cli.main w email config depth steps) = Raised (SystemExit 1))
  /\ (forall e, load_config (Cli.files w) (ArgStr config) = Raised e ->
      fst (Cli.main w email config depth steps) = Raised e).
Proof.
  intros Hl. unfold Cli.main, load_global_config.
  destruct (load_config (Cli.files w) (ArgStr config)) as [[cfg|]|e];
    cbv beta iota; rewrite ?Hl; cbn [fst snd];
    repeat split; intros; congruence.
Qed.

Lemma main_exits_when_the_lock_is_held_witness :
  Cli.main
    {| Cli.files := fun _ => Returned (Examples.parser true false 0 2);
       Cli.locked := true; Cli.now := 0%Q; Cli.session_file := None;
       Cli.env := Samples.lotr_store |}
    Examples.email "config.ini" 4 3
  = (Raised (SystemExit 1), None).
Proof.
  destruct (main_exits_when_the_lock_is_held
              {| Cli.files := fun _ => Returned (Examples.parser true false 0 2);
                 Cli.locked := true; Cli.now := 0%Q; Cli.session_file := None;
                 Cli.env := Samples.lotr_store |}
              Examples.email "config.ini" 4 3 eq_refl) as (H1 & H2 & _).
  specialize (H2 _ eq_refl).
  destruct (Cli.main _ _ _ _ _) as [r o]. cbn [fst snd] in *.
  subst r o. reflexivity.
Defined.

End ConfigMore.

(** The headers of a mail *)

Module HeaderFacts.
Import Py GmailTypes.
Local Open Scope py_scope.

Lemma dict_get_set_same k v d : Sched.dict_get k (dict_set k v d) = Some v.
Proof.
  induction d as [|[k' v'] d IH]; simpl.
  - rewrite String.eqb_refl. reflexivity.
  - destruct (String.eqb k k') eqn:E; simpl; rewrite E; [reflexivity|exact IH].
Qed.

Lemma dict_get_set_other k k' v d :
  k <> k' -> Sched.dict_get k (dict_set k' v d) = Sched.dict_get k d.
Proof.
  intros Hne. induction d as [|[k0 v0] d IH]; simpl.
  - destruct (String.eqb_spec k k'); [contradiction|reflexivity].
  - destruct (String.eqb_spec k' k0); simpl.
    + subst k0. destruct (String.eqb_spec k k'); [contradiction|reflexivity].
    + destruct (String.eqb k k0); [reflexivity|exact IH].
Qed.

(** Headers with another name leave the entry alone. *)
Lemma comprehension_other name : forall headers d d',
  comprehension headers d = Returned d' ->
  forallb (fun h => negb (named name h)) headers = true ->
  Sched.dict_get name d' = Sched.dict_get name d.
Proof.
  induction headers as [|h headers IH]; intros d d'; simpl.
  - intros [= <-] _. reflexivity.
  - unfold named at 1.
    destruct (Sched.dict_get "name" h) as [n|]; [|discriminate].
    destruct (Sched.dict_get "value" h) as [v|]; [|discriminate].
    intros Hc Hall. apply andb_true_iff in Hall as [Hn Hall].
    rewrite (IH _ _ Hc Hall). apply dict_get_set_other.
    intros <-. rewrite String.eqb_refl in Hn. discriminate.
Qed.

Lemma comprehension_app : forall h1 h2 d d',
  comprehension (h1 ++ h2) d = Returned d' ->
  exists d1, comprehension h1 d = Returned d1
             /\ comprehension h2 d1 = Returned d'.
Proof.
  induction h1 as [|h h1 IH]; intros h2 d d'; simpl.
  - intros H. exists d. split; [reflexivity|exact H].
  - destruct (Sched.dict_get "name" h) as [n|]; [|discriminate].
    destruct (Sched.dict_get "value" h) as [v|]; [|discriminate].
    apply IH.
Qed.

(** X20. In the headers of a mail as [GmailEmailHeaders] keeps them, a
    name reads as the value of the last header that carries exactly that
    name (names are compared as they are written, so "subject" is not
    "Subject"), and as [None] when no header carries it.  The subject and
    the receiver that the connectors test are read this way. *)
Theorem the_last_header_of_a_name_is_read
    (headers : list Sched.dict) (_headers : Sched.dict) (name : string) :
  GmailEmailHeaders headers = Returned _headers ->
  (forall before header after value,
     headers = (before ++ header :: after)%list ->
     Sched.dict_get "name" header = Some name ->
     Sched.dict_get "value" header = Some value ->
     forallb (fun h => negb (named name h)) after = true ->
     Sched.dict_get name _headers = Some value)
  /\ (forallb (fun h => negb (named name h)) headers = true ->
      Sched.dict_get name _headers = None).
Proof.
  unfold GmailEmailHeaders. intros H. split.
  - intros before header after value -> Hn Hv Hafter.
    destruct (comprehension_app _ _ _ _ H) as (d1 & _ & H2).
    simpl in H2. rewrite Hn, Hv in H2.
    rewrite (comprehension_other name _ _ _ H2 Hafter).
    apply dict_get_set_same.
  - intros Hall. rewrite (comprehension_other name _ _ _ H Hall). reflexivity.
Qed.

Lemma the_last_header_of_a_name_is_read_witness :
  exists _headers,
    GmailEmailHeaders Samples.headers = Returned _headers
    /\ subject _headers = Some "Verification Code For EA: 123456"
    /\ Sched.dict_get "subject" _headers = None.
Proof.
  eexists. split; [reflexivity|].
  split.
  - exact (proj1 (the_last_header_of_a_name_is_read Samples.headers _ "Subject"
                    eq_refl)
             [ [("name", "To"); ("value", "player@example.com")];
               [("name", "Subject"); ("value", "first")] ]
             [("name", "Subject"); ("value", "Verification Code For EA: 123456")]
             [] "Verification Code For EA: 123456"
             eq_refl eq_refl eq_refl eq_refl).
  - exact (proj2 (the_last_header_of_a_name_is_read Samples.headers _ "subject"
                    eq_refl) eq_refl).
Defined.

End HeaderFacts.

(** The code of a verification mail *)

Module CodeFacts.
Import Py MonadFacts Spec PatternFacts PollingFacts GmailTypes.
Local Open Scope py_scope.

Lemma truthy_Some s : truthy (Some s) = true <-> s <> "".
Proof.
  simpl. destruct (String.eqb_spec s ""); simpl; split; congruence.
Qed.

(** X21. [get_code_from_message] never changes the connector, and for a
    mail that the mailbox delivers it returns the code [code] exactly when
    the mail is a verification mail for the account: its receiver is not
    empty and contains the address of the account, and its subject is
    "Verification Code For EA", then characters that are not digits, then
    the digits of [code] (at least one), then nothing or one line feed. *)
Theorem LotR_get_code_from_message_iff (env : LotR.Env) (c : LotR.Connector)
    (i : string) (m : Gmail.GmailMessageWrapper) (code : string) :
  Gmail.get_message_details (LotR.mailbox env) i = Some m ->
  snd (LotR.get_code_from_message env i c) = c
  /\ (fst (LotR.get_code_from_message env i c) = Returned (Some code)
      <-> verification_mail (LotR.email c) code m).
Proof.
  intros Hm. unfold LotR.get_code_from_message, verification_mail.
  unfold bind, gets, ret. rewrite Hm. cbn [fst snd].
  destruct (Gmail.receiver m) as [r|].
  2: { simpl. split; [reflexivity|]. split; [discriminate|].
       intros (r & ? & ? & [=] & _). }
  destruct (Gmail.subject m) as [s|].
  2: { cbn [truthy]. rewrite orb_true_r. split; [reflexivity|]. split; [discriminate|].
       intros (? & ? & ? & _ & _ & _ & [=] & _). }
  destruct (truthy (Some r)) eqn:Tr; cbn [negb orb].
  2: { split; [reflexivity|]. split; [discriminate|].
       intros (r' & ? & ? & [= <-] & Hr & _). apply truthy_Some in Hr. congruence. }
  apply truthy_Some in Tr.
  destruct (truthy (Some s)) eqn:Ts; cbn [negb].
  2: { split; [reflexivity|]. split; [discriminate|].
       intros (r' & sep & tail & _ & _ & _ & [= ->] & _). simpl in Ts. discriminate. }
  destruct (Str.contains (LotR.email c) r) eqn:Hc; cbn [negb fst snd].
  2: { split; [reflexivity|]. split; [discriminate|].
       intros (r' & ? & ? & [= <-] & _ & Hc' & _). congruence. }
  split; [reflexivity|]. split.
  - intros [= H]. apply EA_SUBJECT_PATTERN_match_iff in H.
    destruct H as (sep & tail & -> & H1 & H2 & H3 & H4).
    exists r, sep, tail. repeat split; assumption.
  - intros (r' & sep & tail & [= <-] & _ & _ & [= ->] & H1 & H2 & H3 & H4).
    f_equal. apply EA_SUBJECT_PATTERN_match_iff. exists sep, tail.
    repeat split; assumption.
Qed.

Lemma LotR_get_code_from_message_iff_witness :
  fst (LotR.get_code_from_message Examples.login_env "m1"
         (Examples.lotr (Examples.config false false 0 2)))
  = Returned (Some "123456").
Proof.
  apply (proj2 (LotR_get_code_from_message_iff Examples.login_env
                  (Examples.lotr (Examples.config false false 0 2)) "m1"
                  {| Gmail.receiver := Some "Player <player@example.com>";
                     Gmail.subject := Some "Verification Code For EA - 123456" |}
                  "123456" eq_refl)).
  exists "Player <player@example.com>", " - ", "".
  repeat split; try reflexivity; try discriminate. left. reflexivity.
Defined.

End CodeFacts.

(** Tasks: what is queued is what is run *)

Module TaskFacts.
Import Py MonadFacts SchedulingFacts Obs.
Local Open Scope py_scope.

Lemma LotR_scheduled_purchase (env : LotR.Env)
    (c : LotR.Connector) (delay : Z) (item_id currency_type : string) :
  Guards.scheduling_is_off (LotR.config c) = Returned false ->
  Guards.delay_exceeds_max (LotR.config c) delay = Returned false ->
  LotR.already_scheduled item_id (Sched.queue (LotR.scheduler c)) = false ->
  let r := LotR.schedule_purchase delay item_id currency_type c in
  let e := purchase_event (LotR.time c + inject_Z delay)
             (Sched._sequence_generator (LotR.scheduler c))
             item_id currency_type in
  fst r = Returned tt
  /\ Sched._queue (LotR.scheduler (snd r))
     = (Sched._queue (LotR.scheduler c) ++ [e])%list
  /\ LotR.requests (snd r) = LotR.requests c
  /\ forall depth c',
       LotR.call env depth e c'
       = (LotR.purchase_offer env item_id currency_type ;;; ret tt) c'.
Proof.
  intros Hoff Hmax Hdup. cbv zeta.
  destruct (LotR.schedule_purchase delay item_id currency_type c) as [res cf] eqn:E.
  unfold LotR.schedule_purchase in E. unfold bind at 1 in E.
  rewrite LotR_scheduling_is_off, Hoff in E.
  unfold bind at 1 in E. rewrite LotR_delay_exceeds_max, Hmax in E.
  unfold bind at 1, gets at 1 in E. rewrite Hdup in E.
  unfold LotR.enter, LotR.logger, bind, modify in E. injection E as <- <-.
  repeat split.
Qed.

Lemma EA_scheduled_purchase (env : EA.Env)
    (c : EA.Connector) (delay : Z) (item_id currency_type : string) :
  Guards.scheduling_is_off (EA.config c) = Returned false ->
  Guards.delay_exceeds_max (EA.config c) delay = Returned false ->
  EA.already_scheduled item_id (Sched.queue (EA.scheduler c)) = false ->
  let r := EA.schedule_purchase delay item_id currency_type c in
  let e := purchase_event (EA.time c + inject_Z delay)
             (Sched._sequence_generator (EA.scheduler c))
             item_id currency_type in
  fst r = Returned tt
  /\ Sched._queue (EA.scheduler (snd r))
     = (Sched._queue (EA.scheduler c) ++ [e])%list
  /\ EA.requests (snd r) = EA.requests c
  /\ forall depth c',
       EA.call env depth e c'
       = (EA.purchase_offer env item_id currency_type ;;; ret tt) c'.
Proof.
  intros Hoff Hmax Hdup. cbv zeta.
  destruct (EA.schedule_purchase delay item_id currency_type c) as [res cf] eqn:E.
  unfold EA.schedule_purchase in E. unfold bind at 1 in E.
  rewrite EA_scheduling_is_off, Hoff in E.
  unfold bind at 1 in E. rewrite EA_delay_exceeds_max, Hmax in E.
  unfold bind at 1, gets at 1 in E. rewrite Hdup in E.
  unfold EA.enter, EA.logger, bind, modify in E. injection E as <- <-.
  repeat split.
Qed.



(** X23. The constructor, for an account without a session file.  When
    self-scheduling is off it queues nothing and sends nothing: the
    connector is as its attributes were set.  When self-scheduling is on it
    leaves exactly the two standing tasks in the queue, the ping due in 60
    seconds and the connectivity check due in 1800 seconds, and it has sent
    the probe to https://google.com, before any login; it raises what the
    probe raised unless that was a connection error or a timeout. *)
Theorem LotR_init_standing_tasks (env : LotR.Env) (cfg : Config.Config)
    (email : string) (now : Q) :
  let c := LotR.new cfg email now None in
  (Config.is_self_scheduling cfg = Returned false ->
   LotR.init env c = (Returned tt, c))
  /\ (Config.is_self_scheduling cfg = Returned true ->
      let r := LotR.init env c in
      fst r = swallowed (rbind (LotR.http env 0%nat) (fun _ => Returned tt))
      /\ Sched._queue (LotR.scheduler (snd r))
         = [ping_event (now + 60) 0; connection_check_event (now + 1800) 1]
      /\ LotR.requests (snd r) = [probe]).
Proof.
  cbv zeta. split; intros Hs.
  - unfold LotR.init, LotR.schedule_ping, LotR.schedule_connection_check.
    unfold bind, gets, LotR.cfg, ret. cbn [LotR.session_file LotR.new LotR.config].
    cbv beta iota. cbn [LotR.config]. rewrite Hs. cbn [negb]. cbv beta iota.
    cbn [LotR.config LotR.new]. rewrite Hs. reflexivity.
  - destruct (LotR.init env (LotR.new cfg email now None)) as [res cf] eqn:E.
    unfold LotR.init, LotR.schedule_ping, LotR.schedule_connection_check,
      LotR.send, LotR.enter, LotR.logger, LotR.cfg, bind, gets, modify, ret,
      raise in E.
    cbn [LotR.session_file LotR.new LotR.config LotR.scheduler LotR.set_log
         LotR.set_scheduler LotR.requests LotR.time Sched.empty Sched._queue
         Sched.new negb LotR.set_requests LotR.set_session length] in E.
    cbv beta iota in E.
    cbn [LotR.session_file LotR.new LotR.config LotR.scheduler LotR.set_log
         LotR.set_scheduler LotR.requests LotR.time Sched.empty Sched._queue
         Sched.new negb LotR.set_requests LotR.set_session length] in E.
    rewrite Hs in E. cbn [negb] in E. cbv beta iota in E.
    cbn [LotR.session_file LotR.new LotR.config LotR.scheduler LotR.set_log
         LotR.set_scheduler LotR.requests LotR.time Sched.empty Sched._queue
         Sched.new negb LotR.set_requests LotR.set_session length] in E.
    rewrite ?Hs in E. cbn [negb] in E. cbv beta iota in E.
    fold probe in E.
    cbn [LotR.session_file LotR.new LotR.config LotR.scheduler LotR.set_log
         LotR.set_scheduler LotR.requests LotR.time Sched.empty Sched._queue
         Sched.new negb LotR.set_requests LotR.set_session length app] in E.
    destruct (LotR.http env 0%nat) as [response|e].
    + injection E as <- <-. repeat split.
    + destruct e; injection E as <- <-; repeat split.
Qed.

Lemma LotR_init_standing_tasks_witness :
  LotR.requests
    (snd (LotR.init Samples.lotr_store
            (LotR.new (Examples.config true false 0 2) Examples.email 0 None)))
  = [probe].
Proof.
  destruct (LotR_init_standing_tasks Samples.lotr_store
              (Examples.config true false 0 2) Examples.email 0) as [_ H].
  exact (proj2 (proj2 (H eq_refl))).
Defined.

End TaskFacts.

(** Self-scheduling: the loop does not end *)

Module SelfScheduling.
Import Py MonadFacts SchedulingFacts Obs Frame FrameFacts QueueFacts.
Local Open Scope py_scope.

Lemma sched_grows_refl s : sched_grows s s.
Proof. exists []. rewrite app_nil_r, Nat.add_0_r. repeat split. Qed.

Lemma sched_grows_trans a b c :
  sched_grows a b -> sched_grows b c -> sched_grows a c.
Proof.
  intros (l1 & Q1 & G1 & S1) (l2 & Q2 & G2 & S2). exists (l1 ++ l2)%list.
  rewrite Q2, Q1, G2, G1, <- app_assoc, length_app, map_app, seq_app, S1, S2, G1.
  repeat split. lia.
Qed.

Lemma sched_grows_enterabs t p a k s : sched_grows s (Sched.enterabs t p a k s).
Proof.
  eexists [_]. unfold Sched.enterabs. simpl. repeat split. lia.
Qed.

Lemma lotr_grows_refl c : lotr_grows c c.
Proof. split; [reflexivity|apply sched_grows_refl]. Qed.

Lemma lotr_grows_trans a b c : lotr_grows a b -> lotr_grows b c -> lotr_grows a c.
Proof.
  intros [C1 G1] [C2 G2]. split; [congruence|].
  exact (sched_grows_trans _ _ _ G1 G2).
Qed.

Lemma keeps_grows {A} (m : M LotR.Connector A) :
  keeps lotr_same_schedule m -> keeps lotr_grows m.
Proof.
  intros H c. destruct (H c) as [Hs Hc]. split; [exact Hc|].
  rewrite Hs. apply sched_grows_refl.
Qed.

Lemma fresh_grows s s' : fresh s -> sched_grows s s' -> fresh s'.
Proof.
  intros [Hlt Hnd] (l & Q & G & S). unfold fresh. rewrite Q, G. split.
  - apply Forall_app. split.
    + eapply Forall_impl; [|exact Hlt]. simpl. intros; lia.
    + apply Forall_forall. intros e He.
      assert (In (Sched.sequence e) (map Sched.sequence l)) as Hin
        by (apply in_map; exact He).
      rewrite S in Hin. apply in_seq in Hin. lia.
  - rewrite map_app. apply NoDup_app; [exact Hnd|rewrite S; apply seq_NoDup|].
    intros n Hn. rewrite S. intros Hin. apply in_seq in Hin.
    apply in_map_iff in Hn as (e & <- & He).
    pose proof (proj1 (Forall_forall _ _) Hlt e He). simpl in *. lia.
Qed.

Lemma fresh_pop e s : fresh s -> fresh (Sched.pop e s).
Proof.
  intros [Hlt Hnd]. unfold fresh, Sched.pop. simpl. split.
  - apply Forall_forall. intros x Hx. apply filter_In in Hx as [Hx _].
    exact (proj1 (Forall_forall _ _) Hlt x Hx).
  - induction (Sched._queue s) as [|x l IH]; simpl; [constructor|].
    inversion Hnd as [|? ? Hx Hl]; subst.
    inversion Hlt as [|? ? _ Hlt']; subst.
    destruct (negb _); simpl; [|exact (IH Hlt' Hl)].
    constructor; [|exact (IH Hlt' Hl)].
    intros Hin. apply Hx. apply in_map_iff in Hin as (y & Hy & Hin).
    apply filter_In in Hin as [Hin _]. apply in_map_iff. exists y. split; assumption.
Qed.

Lemma has_ping_grows s s' : has_ping s -> sched_grows s s' -> has_ping s'.
Proof.
  intros (p & Hp & Ha) (l & Q & _). exists p. rewrite Q. split; [|exact Ha].
  apply in_or_app. left. exact Hp.
Qed.

Lemma standing_grows c c' : standing c -> lotr_grows c c' -> standing c'.
Proof.
  intros (Hs & Hf & Hp) [Hc Hg]. split; [|split].
  - rewrite Hc. exact Hs.
  - exact (fresh_grows _ _ Hf Hg).
  - exact (has_ping_grows _ _ Hp Hg).
Qed.

Lemma LotR_enterabs_grows t p a k : keeps lotr_grows (LotR.enterabs t p a k).
Proof. intros c. split; [reflexivity|apply sched_grows_enterabs]. Qed.

Lemma LotR_enter_grows d p a k : keeps lotr_grows (LotR.enter d p a k).
Proof. intros c. split; [reflexivity|apply sched_grows_enterabs]. Qed.

Ltac grows_frame :=
  repeat
    match goal with
    | |- keeps _ (ret _) => apply (keeps_ret _ lotr_grows_refl)
    | |- keeps _ (raise _) => apply (keeps_raise _ lotr_grows_refl)
    | |- keeps _ (lift _) => apply (keeps_lift _ lotr_grows_refl)
    | |- keeps _ (gets _) => apply (keeps_gets _ lotr_grows_refl)
    | |- keeps _ (LotR.cfg _) => intros ?; apply lotr_grows_refl
    | |- keeps _ (LotR.logger _ _ _) =>
        intros ?; split; [reflexivity|apply sched_grows_refl]
    | |- keeps _ (LotR.sleep _ ?t) =>
        unfold LotR.sleep;
        apply (keeps_bind _ lotr_grows_trans); [|intros ?];
        [|apply (keeps_bind _ lotr_grows_trans); [|intros ?];
          [|destruct (Qle_bool 0 t);
            [intros ?; split; [reflexivity|apply sched_grows_refl]|]]]
    | |- keeps _ (LotR.enter _ _ _ _) => apply LotR_enter_grows
    | |- keeps _ (LotR.enterabs _ _ _ _) => apply LotR_enterabs_grows
    | |- keeps _ (LotR.purchase_offer _ _ _) =>
        apply keeps_grows, LotR_purchase_offer_keeps
    | |- keeps _ (LotR.log_granted _) => apply keeps_grows, LotR_log_granted_keeps
    | |- keeps _ (LotR.fetch_offers _) => apply keeps_grows, LotR_fetch_offers_keeps
    | |- keeps _ (and_ _ _) => unfold and_
    | |- keeps _ (bind _ _) => apply (keeps_bind _ lotr_grows_trans); [|intros ?]
    | |- keeps _ (if ?b then _ else _) => destruct b
    | |- keeps _ (match ?x with _ => _ end) => destruct x
    end.

Lemma LotR_schedule_purchase_grows delay i cur :
  keeps lotr_grows (LotR.schedule_purchase delay i cur).
Proof.
  unfold LotR.schedule_purchase, LotR.scheduling_is_off, LotR.delay_exceeds_max.
  grows_frame.
Qed.

Lemma LotR_get_delta_grows : keeps lotr_grows LotR.get_delta.
Proof. unfold LotR.get_delta. grows_frame. Qed.

Lemma LotR_schedule_run_grows run b :
  keeps lotr_grows run -> keeps lotr_grows (LotR.schedule_run run b).
Proof.
  intros Hrun. unfold LotR.schedule_run, LotR.scheduling_is_off.
  apply (keeps_bind _ lotr_grows_trans); [grows_frame|intros off].
  destruct off; [grows_frame|]. destruct b; [exact Hrun|].
  apply (keeps_bind _ lotr_grows_trans); [grows_frame|intros q].
  destruct (LotR.purchase_queue q).
  - apply (keeps_bind _ lotr_grows_trans); [grows_frame|intros ?].
    apply (keeps_bind _ lotr_grows_trans); [apply LotR_get_delta_grows|intros ?].
    grows_frame.
  - grows_frame.
Qed.

Lemma LotR_run_offer_grows env o p : keeps lotr_grows (LotR.run_offer env o p).
Proof.
  unfold LotR.run_offer. cbv zeta.
  destruct (negb _); [grows_frame|].
  apply (keeps_bind _ lotr_grows_trans); [grows_frame|intros ?].
  destruct (negb _); [grows_frame|].
  destruct (negb _).
  - apply (keeps_bind _ lotr_grows_trans);
      [apply LotR_schedule_purchase_grows|intros ?]. grows_frame.
  - grows_frame.
Qed.

Lemma LotR_run_offers_grows env offers : forall p,
  keeps lotr_grows (LotR.run_offers env offers p).
Proof.
  induction offers as [|o offers IH]; intros p; simpl; [grows_frame|].
  apply (keeps_bind _ lotr_grows_trans); [apply LotR_run_offer_grows|intros ?].
  apply IH.
Qed.

Lemma LotR_run_grows env depth : keeps lotr_grows (LotR.run env depth).
Proof.
  induction depth as [|depth IH]; simpl; [grows_frame|].
  unfold LotR.run_body.
  apply (keeps_bind _ lotr_grows_trans); [grows_frame|intros offers].
  destruct offers as [data|]; [|grows_frame].
  apply (keeps_bind _ lotr_grows_trans); [apply LotR_run_offers_grows|intros ?].
  apply LotR_schedule_run_grows, IH.
Qed.

Lemma LotR_connection_check_grows env :
  keeps lotr_grows (LotR.schedule_connection_check env).
Proof.
  unfold LotR.schedule_connection_check.
  apply (keeps_bind _ lotr_grows_trans); [grows_frame|intros s].
  destruct (negb s); [grows_frame|].
  intros c. unfold LotR.send.
  destruct (LotR.http env (length (LotR.requests c))) as [response|e].
  - split; [reflexivity|]. apply sched_grows_enterabs.
  - destruct e; (split; [reflexivity|]); apply sched_grows_enterabs.
Qed.

Lemma LotR_call_grows env depth e :
  Sched.action e <> Sched.Act_schedule_ping ->
  keeps lotr_grows (LotR.call env depth e).
Proof.
  intros Hne. unfold LotR.call.
  destruct (Sched.action e); try contradiction.
  - apply LotR_connection_check_grows.
  - grows_frame.
  - apply LotR_run_grows.
Qed.

Lemma LotR_ping_grows : keeps lotr_grows LotR.schedule_ping.
Proof.
  unfold LotR.schedule_ping.
  apply (keeps_bind _ lotr_grows_trans); [grows_frame|intros s].
  destruct (negb s); [grows_frame|].
  apply (keeps_bind _ lotr_grows_trans); [grows_frame|intros q].
  apply (keeps_bind _ lotr_grows_trans); [grows_frame|intros ?].
  apply (keeps_bind _ lotr_grows_trans); [grows_frame|intros is_empty].
  apply (keeps_bind _ lotr_grows_trans); [|intros ?; grows_frame].
  destruct (negb is_empty); [|grows_frame].
  apply (keeps_bind _ lotr_grows_trans); [apply LotR_get_delta_grows|intros ?].
  grows_frame.
Qed.

Lemma same_sequence_same_event (l : list Sched.Event) (x y : Sched.Event) :
  NoDup (map Sched.sequence l) -> In x l -> In y l ->
  Sched.sequence x = Sched.sequence y -> x = y.
Proof.
  induction l as [|a l IH]; simpl; [contradiction|].
  intros Hnd Hx Hy E. inversion Hnd as [|? ? Ha Hl]; subst.
  destruct Hx as [->|Hx], Hy as [->|Hy]; try reflexivity.
  - exfalso. apply Ha. rewrite E. apply in_map. exact Hy.
  - exfalso. apply Ha. rewrite <- E. apply in_map. exact Hx.
  - exact (IH Hl Hx Hy E).
Qed.

(** One event carried out by the scheduler loop. *)
Lemma standing_after_call env depth e c c1 :
  standing c ->
  In e (Sched._queue (LotR.scheduler c)) ->
  LotR.call env depth e
    (LotR.set_scheduler (Sched.pop e (LotR.scheduler c)) c) = (Returned tt, c1) ->
  standing c1.
Proof.
  intros (Hs & Hf & (p & Hp & Ha)) He Hcall.
  set (c0 := LotR.set_scheduler (Sched.pop e (LotR.scheduler c)) c) in *.
  assert (Hf0 : fresh (LotR.scheduler c0)) by (apply fresh_pop; exact Hf).
  assert (Hs0 : Config.is_self_scheduling (LotR.config c0) = Returned true)
    by exact Hs.
  destruct (Sched.Action_eqb (Sched.action e) Sched.Act_schedule_ping) eqn:Hact.
  - (* the ping task enters itself again *)
    assert (Hping : Sched.action e = Sched.Act_schedule_ping)
      by (destruct (Sched.action e); (reflexivity || discriminate)).
    unfold LotR.call in Hcall. rewrite Hping in Hcall.
    destruct (StandingTasks.LotR_ping_run c0 Hs0) as (_ & Hsch & _).
    pose proof (LotR_ping_grows c0) as [Hc Hg].
    rewrite Hcall in Hsch, Hc, Hg. cbn [snd] in *.
    split; [|split].
    + rewrite Hc. exact Hs0.
    + exact (fresh_grows _ _ Hf0 Hg).
    + rewrite Hsch. eexists. split.
      * unfold Sched.enter, Sched.enterabs. cbn [Sched._queue].
        apply in_or_app. right. left. reflexivity.
      * reflexivity.
  - assert (Hne : Sched.action e <> Sched.Act_schedule_ping).
    { intros H. rewrite H in Hact. discriminate. }
    assert (Hseq : Sched.sequence p <> Sched.sequence e).
    { intros E. apply Hne.
      rewrite <- (same_sequence_same_event _ _ _ (proj2 Hf) Hp He E). exact Ha. }
    assert (St0 : standing c0).
    { split; [exact Hs0|]. split; [exact Hf0|]. exists p. split; [|exact Ha].
      unfold c0. cbn [LotR.scheduler LotR.set_scheduler Sched.pop Sched._queue].
      apply filter_In. split; [exact Hp|].
      apply negb_true_iff, Nat.eqb_neq. exact Hseq. }
    pose proof (LotR_call_grows env depth e Hne c0) as Hg.
    rewrite Hcall in Hg. exact (standing_grows _ _ St0 Hg).
Qed.

Lemma standing_set_time t c : standing c -> standing (LotR.set_time t c).
Proof. intros H. exact H. Qed.

Lemma standing_after_sleep env t c c' :
  standing c -> LotR.sleep env t c = (Returned tt, c') -> standing c'.
Proof.
  intros H. unfold LotR.sleep, bind, gets, lift, modify, raise.
  destruct (LotR.clock_range env (LotR.time c) t); [|discriminate].
  destruct (Qle_bool 0 t); [|discriminate].
  intros [= <-]. apply standing_set_time. exact H.
Qed.

(** X24. In self-scheduling mode the loop of the scheduler never comes to
    its end.  Once the ping task is in the queue (the constructor puts it
    there), it is there again after every event that the loop carries out:
    the ping enters itself again, and no other task, whatever it buys,
    schedules or logs, removes an event.  So [scheduler.run()] never finds
    the queue empty: however long it is followed, it is still looping or
    has raised. *)
Theorem self_scheduling_loop_never_finishes (env : LotR.Env) (depth : nat) :
  forall (steps : nat) (c : LotR.Connector),
  standing c ->
  fst (LotR.scheduler_run env depth steps c) <> Returned true.
Proof.
  induction steps as [|steps IH]; intros c Hst; simpl; [discriminate|].
  unfold bind at 1, gets at 1.
  destruct (Sched.queue (LotR.scheduler c)) as [|e q] eqn:Hq.
  { destruct Hst as (_ & _ & (p & Hp & _)).
    apply in_queue in Hp. rewrite Hq in Hp. contradiction. }
  assert (He : In e (Sched._queue (LotR.scheduler c))).
  { apply in_queue. rewrite Hq. left. reflexivity. }
  unfold bind at 1, gets at 1.
  destruct (negb (Qle_bool (Sched.time e) (LotR.time c))).
  - unfold bind at 1.
    destruct (LotR.sleep env (Sched.time e - LotR.time c) c)
      as [[[]|ex] c1] eqn:Hsleep; [|cbn [fst]; discriminate].
    apply IH. exact (standing_after_sleep env _ c c1 Hst Hsleep).
  - unfold bind at 1. unfold modify at 1.
    unfold bind at 1.
    destruct (LotR.call env depth e _) as [[[]|ex] c1] eqn:Hcall;
      [|cbn [fst]; discriminate].
    unfold bind at 1.
    destruct (LotR.sleep env 0 c1) as [[[]|ex] c2] eqn:Hsleep;
      [|cbn [fst]; discriminate].
    apply IH. apply (standing_after_sleep env 0 c1 c2); [|exact Hsleep].
    exact (standing_after_call env depth e c c1 Hst He Hcall).
Qed.

Lemma self_scheduling_loop_never_finishes_witness :
  fst (LotR.scheduler_run Samples.lotr_store 3 5
         (snd (LotR.init Samples.lotr_store
                 (LotR.new (Examples.config true false 0 2)
                    Examples.email 0 None))))
  <> Returned true.
Proof.
  apply self_scheduling_loop_never_finishes.
  split; [reflexivity|]. split.
  - split.
    + vm_compute. repeat constructor.
    + vm_compute. repeat constructor; simpl; intuition discriminate.
  - exists (ping_event 60 0). split; [left; reflexivity|reflexivity].
Defined.

End SelfScheduling.

(** Login: refused requests *)

Module LoginErrors.
Import Py MonadFacts Obs Spec.
Local Open Scope py_scope.

(** X25. When the store refuses the request for a one-time code (any
    status but 200) or the request itself fails, the LotR [login] stops
    there: it raises [NotImplementedError], or what the transport raised,
    after one listing of the inbox (the baseline) and that one request; it
    never waits, never sends a code check and leaves the session file as it
    is. *)
Theorem LotR_login_stops_when_the_code_request_is_refused
    (env : LotR.Env) (c : LotR.Connector) (outcome : result LotR.Response) :
  LotR.http env (length (LotR.requests c)) = outcome ->
  match outcome with
  | Returned response => LotR.status_code response <> 200
  | Raised _ => True
  end ->
  let r := LotR.login env c in
  fst r = match outcome with
          | Returned _ => Raised NotImplementedError
          | Raised e => Raised e
          end
  /\ LotR.requests (snd r)
     = (LotR.requests c ++ [otc_request (LotR.email c)])%list
  /\ LotR.listings (snd r) = S (LotR.listings c)
  /\ LotR.time (snd r) = LotR.time c
  /\ LotR.session_file (snd r) = LotR.session_file c.
Proof.
  intros Hh Hs. cbv zeta.
  destruct (LotR.login env c) as [res cf] eqn:E.
  unfold LotR.login, LotR.get_messages, LotR.request_otc, LotR.send,
    LotR.logger, bind, gets, modify, ret, raise in E.
  cbn [LotR.requests LotR.set_log LotR.set_listings LotR.email] in E.
  rewrite Hh in E. destruct outcome as [response|e].
  - apply Z.eqb_neq in Hs.
    cbn [LotR.status_code negb] in E. rewrite Hs in E. cbn [negb] in E.
    injection E as <- <-. repeat split.
  - injection E as <- <-. repeat split.
Qed.

Lemma LotR_login_stops_when_the_code_request_is_refused_witness :
  let env := Examples.lotr_env (fun _ => Returned (Examples.lotr_response 429)) in
  let c := Examples.lotr (Examples.config false false 0 2) in
  fst (LotR.login env c) = Raised NotImplementedError
  /\ LotR.requests (snd (LotR.login env c)) = [otc_request Examples.email].
Proof.
  intros env c.
  destruct (LotR_login_stops_when_the_code_request_is_refused env c
              (Returned (Examples.lotr_response 429)) eq_refl
              ltac:(discriminate)) as (H1 & H2 & _).
  split; [exact H1|exact H2].
Defined.

(** X26. When the reply to the auth request of the base connector has a
    status other than 200, [login] raises "Failed to get accounts URL" after
    that one request: it reads no mail, asks the operator nothing, and
    leaves [auth_id] and the session file as they are. *)
Theorem EA_login_stops_when_the_auth_request_is_refused
    (env : EA.Env) (c : EA.Connector) (force : bool) (response : EA.Response) :
  negb force && truthy (EA.auth_id c) = false ->
  EA.http env (length (EA.requests c)) = Returned response ->
  EA.status_code response <> 200 ->
  let r := EA.login env force c in
  fst r = Raised (Exception "Failed to get accounts URL")
  /\ EA.requests (snd r) = (EA.requests c ++ [auth_request])%list
  /\ EA.auth_id (snd r) = EA.auth_id c
  /\ EA.listings (snd r) = EA.listings c
  /\ EA.prompts (snd r) = EA.prompts c
  /\ EA.session_file (snd r) = EA.session_file c.
Proof.
  intros Hguard Hh Hs. cbv zeta.
  destruct (EA.login env force c) as [res cf] eqn:E.
  unfold EA.login in E. unfold bind at 1, gets at 1 in E. rewrite Hguard in E.
  unfold EA.send, EA.logger, bind, gets, modify, ret, raise in E.
  fold auth_request in E.
  cbn [EA.requests EA.set_log EA.set_requests EA.set_session] in E.
  rewrite Hh in E. apply Z.eqb_neq in Hs. rewrite Hs in E. cbn [negb] in E.
  injection E as <- <-. repeat split.
Qed.

Lemma EA_login_stops_when_the_auth_request_is_refused_witness :
  let env := Examples.swgoh_env
               (fun _ => Returned (Examples.swgoh_response 503 None)) in
  let c := Examples.swgoh (Examples.config false false 0 2) in
  fst (EA.login env true c) = Raised (Exception "Failed to get accounts URL")
  /\ EA.requests (snd (EA.login env true c)) = [auth_request].
Proof.
  intros env c.
  destruct (EA_login_stops_when_the_auth_request_is_refused env c true
              (Examples.swgoh_response 503 None) eq_refl eq_refl
              ltac:(discriminate)) as (H1 & H2 & _).
  split; [exact H1|exact H2].
Defined.

End LoginErrors.
